(** * Kasir POS: cart, checkout, catalogue and backup

    A shallow embedding of the point-of-sale script (the file whose first
    line is [// Database Setup]).  Conventions of the embedding:

    - A JavaScript number is an exact rational ([Q]); IEEE rounding and
      infinities are not modelled.  [NaN] is modelled where the script can
      produce it: [option] for a value parsed from a form field, and the
      constructor [NaN] of [Amount] for the figures of a sale.
    - IndexedDB is the platform, not part of the script: an object store is
      a finite map from keys to records with a key generator, unique
      indexes are checked on [add] and [put], and a request that fails
      aborts its transaction, leaving the store as it was.
    - Every handler runs to quiescence: the promise callbacks it schedules
      have all run before the next handler starts.
    - [new Date()] and the answer to [confirm(...)] are inputs of the
      handler that asks for them.
    - The page is represented by the elements the script reads back (the
      cashier fields, the displayed total and invoice) and by the toast and
      the inline error messages; pure rendering is left out. *)

From Stdlib Require Import QArith Qround Qabs ZArith String Ascii List Lia.
From Stdlib Require Import Decimal DecimalString DecimalN DecimalPos.
From stdpp Require Import gmap strings list fin_maps sorting.

Open Scope Z_scope.

(* ===================================================================== *)
(** * Numbers and strings *)
(* ===================================================================== *)

(** [x < y] on numbers, as a boolean. *)
Definition Qltb (x y : Q) : bool := negb (Qle_bool y x).

(** [\d] *)
Definition isDigit (c : ascii) : bool :=
  let n := nat_of_ascii c in (48 <=? n)%nat && (n <=? 57)%nat.

(** [\w] *)
Definition isWordChar (c : ascii) : bool :=
  let n := nat_of_ascii c in
  isDigit c || ((65 <=? n)%nat && (n <=? 90)%nat)
            || ((97 <=? n)%nat && (n <=? 122)%nat) || (n =? 95)%nat.

(** JavaScript white space within ASCII, as removed by [trim()]. *)
Definition isSpace (c : ascii) : bool :=
  let n := nat_of_ascii c in ((9 <=? n)%nat && (n <=? 13)%nat) || (n =? 32)%nat.

Fixpoint filterString (f : ascii -> bool) (s : string) : string :=
  match s with
  | EmptyString => EmptyString
  | String c r => if f c then String c (filterString f r) else filterString f r
  end.

Fixpoint allString (f : ascii -> bool) (s : string) : bool :=
  match s with
  | EmptyString => true
  | String c r => f c && allString f r
  end.

Fixpoint trimStart (s : string) : string :=
  match s with
  | String c r => if isSpace c then trimStart r else s
  | EmptyString => EmptyString
  end.

(** [s.trim()] *)
Definition trim (s : string) : string :=
  String.rev (trimStart (String.rev (trimStart s))).

Fixpoint repeatChar (c : ascii) (n : nat) : string :=
  match n with
  | O => EmptyString
  | S k => String c (repeatChar c k)
  end.

(** [s.padStart(len, fill)] for a one-character [fill]. *)
Definition padStart (len : nat) (fill : ascii) (s : string) : string :=
  repeatChar fill (len - String.length s) +:+ s.

(** [s.slice(-n)] *)
Definition sliceLast (n : nat) (s : string) : string :=
  let l := String.length s in substring (l - n) (Nat.min n l) s.

(** Decimal digits of a non-negative integer: [n.toString()]. *)
Definition digits (n : Z) : string :=
  NilZero.string_of_uint (N.to_uint (Z.to_N n)).

(** The integer [n] for which [n - x] is closest to zero, the larger one on
    a tie (the rounding rule of [Number.prototype.toFixed]), for [0 <= x]. *)
Definition roundHalfUp (x : Q) : Z := Qfloor (x + (1 # 2)).

(** [x.toFixed(p)].  A negative number is printed as ["-"] followed by
    the digits of its absolute value. *)
Definition toFixed (x : Q) (p : nat) : string :=
  let sign := if Qltb x 0 then "-" else "" in
  let n := roundHalfUp (Qabs x * inject_Z (10 ^ Z.of_nat p)) in
  let m := digits n in
  match p with
  | O => sign +:+ m
  | S _ =>
      let m' := padStart (S p) "0" m in
      let k := (String.length m' - p)%nat in
      sign +:+ substring 0 k m' +:+ "." +:+ substring k p m'
  end.

(** [(\d{3})+(?!\d)]: the digits that start here come in a positive
    multiple of three. *)
Fixpoint digitRun (s : string) : nat :=
  match s with
  | String c r => if isDigit c then S (digitRun r) else O
  | EmptyString => O
  end.

Definition groupsOfThree (s : string) : bool :=
  let k := digitRun s in (3 <=? k)%nat && (k mod 3 =? 0)%nat.

(** [s.replace(/\B(?=(\d{3})+(?!\d))/g, sep)], reading [s] left to right;
    [prev] is the character before the current position.  The look-ahead
    needs a digit next, so [\B] holds exactly when [prev] is a word
    character.  [sep] is inserted as it is (it holds no [$] pattern). *)
Fixpoint insertSeparators (sep : string) (prev : option ascii) (s : string)
  : string :=
  match s with
  | EmptyString => EmptyString
  | String c r =>
      let here :=
        match prev with
        | Some b => isWordChar b && groupsOfThree s
        | None => false
        end in
      (if here then sep else "")
        +:+ String c (insertSeparators sep (Some c) r)
  end.

Definition groupThousands (sep s : string) : string :=
  insertSeparators sep None s.

(** [s.split('.')] *)
Fixpoint splitDot (s : string) : list string :=
  match s with
  | EmptyString => [EmptyString]
  | String c r =>
      if Ascii.eqb c "." then EmptyString :: splitDot r
      else match splitDot r with
           | [] => [String c EmptyString]
           | p :: ps => String c p :: ps
           end
  end.

(** [parts.join(sep)] *)
Fixpoint join (sep : string) (parts : list string) : string :=
  match parts with
  | [] => EmptyString
  | [p] => p
  | p :: ps => p +:+ sep +:+ join sep ps
  end.

(** The currency setting: [{ symbol, decimal, separator, precision }].
    [decimal] is [None] for a falsy value (the default [0]). *)
Record Currency := {
  symbol : string;
  decimal : option string;
  separator : string;
  precision : nat
}.

Definition defaultCurrency : Currency :=
  {| symbol := "Rp"; decimal := None; separator := "."; precision := 0 |}.

(** The string [formatCurrency(amount)] resolves to, given the currency
    setting it read. *)
Definition formatWith (settings : Currency) (amount : Q) : string :=
  let formatted := toFixed amount (precision settings) in
  let formatted := groupThousands (separator settings) formatted in
  let formatted :=
    match decimal settings with
    | Some d =>
        match splitDot formatted with
        | p :: ps =>
            join (if String.eqb d "," then "," else ".")
                 (groupThousands (separator settings) p :: ps)
        | [] => formatted
        end
    | None => formatted
    end in
  symbol settings +:+ " " +:+ formatted.

(** [parseFloat(text.replace(/[^\d]/g, '')) || 0] *)
Definition parseTotalText (text : string) : Q :=
  match NilZero.uint_of_string (filterString isDigit text) with
  | Some u => inject_Z (Z.of_N (N.of_uint u))
  | None => 0%Q
  end.

(* ===================================================================== *)
(** * Records *)
(* ===================================================================== *)

(** An IndexedDB key.  A number and a string are never the same key,
    whatever the string spells. *)
Inductive IDBKey :=
| KNum (n : Z)
| KStr (s : string).

#[global] Instance IDBKey_eq_dec : EqDecision IDBKey.
Proof. solve_decision. Defined.

(** A point in time, by what the getters of a [Date] return for it. *)
Record Time := {
  getFullYear : Z;
  getMonth : Z;
  getDate : Z;
  getHours : Z;
  getMinutes : Z;
  getSeconds : Z
}.

(** A date field holds a [Date] object or, once it has been through JSON,
    the string [toISOString()] gives for that instant. *)
Inductive DateVal :=
| DateObj (t : Time)
| DateStr (t : Time).

(** A figure of a sale: a number, [NaN], or [null] (how JSON writes
    [NaN]). *)
Inductive Amount :=
| Num (q : Q)
| NaN
| Null.

Record Product := {
  p_id : option Z;
  p_code : string;
  p_name : string;
  p_category : string;
  p_price : Q;
  p_cost : Q;
  p_stock : Z;
  p_minStock : Z;
  p_supplierId : option IDBKey;
  p_updatedAt : DateVal;
  p_createdAt : option DateVal
}.

Record Supplier := {
  s_id : option Z;
  s_code : string;
  s_name : string;
  s_contact : string;
  s_address : string;
  s_email : option string;
  s_phone : option string;
  s_updatedAt : DateVal;
  s_createdAt : option DateVal
}.

Record TxItem := {
  ti_productId : option Z;
  ti_code : string;
  ti_name : string;
  ti_price : Q;
  ti_quantity : Z
}.

Record Transaction := {
  t_id : option Z;
  t_invoice : string;
  t_date : DateVal;
  t_items : list TxItem;
  t_subtotal : Q;
  t_discount : Amount;
  t_tax : Amount;
  t_total : Q;
  t_paymentMethod : string;
  t_amountReceived : Q;
  t_change : Q
}.

Record Notification := {
  n_id : option Z;
  n_message : string;
  n_type : string;
  n_date : DateVal;
  n_read : bool
}.

Record StoreInfo := {
  store_name : string;
  store_address : string;
  store_phone : option string;
  store_email : option string;
  store_taxId : option string
}.

Record Receipt := {
  receipt_header : string;
  receipt_footer : string;
  receipt_showTax : bool;
  receipt_logo : option string
}.

(** A record of the settings store; its [id] is fixed by its kind. *)
Inductive Setting :=
| SStore (v : StoreInfo)
| SReceipt (v : Receipt)
| STaxRate (value : Q)
| SCurrency (v : Currency).

(** A line of the cart. *)
Record CartItem := {
  item_id : option Z;
  item_code : string;
  item_name : string;
  item_price : Q;
  item_quantity : Z;
  item_stock : Z
}.

(* ===================================================================== *)
(** * Object stores *)
(* ===================================================================== *)

(** What [createObjectStore] and [createIndex] declare for a store with
    [keyPath: 'id', autoIncrement: true]: where the key lives in a record
    and which field, if any, carries the unique index. *)
Class Schema (R : Type) := {
  keyOf : R -> option Z;
  withKey : Z -> R -> R;
  uniqueOf : R -> option string
}.

#[global] Instance Product_schema : Schema Product := {
  keyOf := p_id;
  withKey k p :=
    {| p_id := Some k; p_code := p_code p; p_name := p_name p;
       p_category := p_category p; p_price := p_price p; p_cost := p_cost p;
       p_stock := p_stock p; p_minStock := p_minStock p;
       p_supplierId := p_supplierId p; p_updatedAt := p_updatedAt p;
       p_createdAt := p_createdAt p |};
  uniqueOf p := Some (p_code p)
}.

#[global] Instance Supplier_schema : Schema Supplier := {
  keyOf := s_id;
  withKey k s :=
    {| s_id := Some k; s_code := s_code s; s_name := s_name s;
       s_contact := s_contact s; s_address := s_address s;
       s_email := s_email s; s_phone := s_phone s;
       s_updatedAt := s_updatedAt s; s_createdAt := s_createdAt s |};
  uniqueOf s := Some (s_code s)
}.

#[global] Instance Transaction_schema : Schema Transaction := {
  keyOf := t_id;
  withKey k t :=
    {| t_id := Some k; t_invoice := t_invoice t; t_date := t_date t;
       t_items := t_items t; t_subtotal := t_subtotal t;
       t_discount := t_discount t; t_tax := t_tax t; t_total := t_total t;
       t_paymentMethod := t_paymentMethod t;
       t_amountReceived := t_amountReceived t; t_change := t_change t |};
  uniqueOf t := Some (t_invoice t)
}.

#[global] Instance Notification_schema : Schema Notification := {
  keyOf := n_id;
  withKey k n :=
    {| n_id := Some k; n_message := n_message n; n_type := n_type n;
       n_date := n_date n; n_read := n_read n |};
  uniqueOf _ := None
}.

Record ObjectStore (R : Type) := {
  records : gmap Z R;
  keyGenerator : Z
}.
Arguments records {R} _.
Arguments keyGenerator {R} _.

Section ObjectStore.
Context {R : Type} `{Schema R}.

Definition emptyStore : ObjectStore R :=
  {| records := ∅; keyGenerator := 1 |}.

(** A record under another key already holds this unique index key. *)
Definition uniqueClash (st : ObjectStore R) (k : Z) (r : R) : bool :=
  bool_decide (map_Exists
    (λ k' r', k' ≠ k ∧ is_Some (uniqueOf r) ∧ uniqueOf r' = uniqueOf r)
    (records st)).

Definition stored (st : ObjectStore R) (k : Z) (r : R) : ObjectStore R :=
  {| records := <[k := withKey k r]> (records st);
     keyGenerator := Z.max (keyGenerator st) (k + 1) |}.

(** [store.add(record)]: the key is the record's [id], or the next
    number of the key generator when the record has none.  [None] is a
    [ConstraintError]: the key is taken or the unique index is violated. *)
Definition store_add (r : R) (st : ObjectStore R)
  : option (Z * ObjectStore R) :=
  let k := default (keyGenerator st) (keyOf r) in
  if bool_decide (is_Some (records st !! k)) || uniqueClash st k r
  then None
  else Some (k, stored st k r).

(** [store.put(record)]: as [add], but a record under the same key is
    replaced. *)
Definition store_put (r : R) (st : ObjectStore R)
  : option (Z * ObjectStore R) :=
  let k := default (keyGenerator st) (keyOf r) in
  if uniqueClash st k r then None else Some (k, stored st k r).

(** [store.get(key)] *)
Definition store_get (k : Z) (st : ObjectStore R) : option R :=
  records st !! k.

(** [store.delete(key)] *)
Definition store_delete (k : Z) (st : ObjectStore R) : ObjectStore R :=
  {| records := delete k (records st); keyGenerator := keyGenerator st |}.

(** [store.clear()]; the key generator is not reset. *)
Definition store_clear (st : ObjectStore R) : ObjectStore R :=
  {| records := ∅; keyGenerator := keyGenerator st |}.

(** [store.count()] *)
Definition store_count (st : ObjectStore R) : nat := size (records st).

(** Every record sits under its own [id], below the key generator. *)
Definition store_wf (st : ObjectStore R) : Prop :=
  ∀ k r, records st !! k = Some r → keyOf r = Some k ∧ k < keyGenerator st.
End ObjectStore.

(** The settings store ([keyPath: 'id'], no key generator) holds at most
    one record under each of its four fixed ids. *)
Record SettingsStore := {
  set_store : option StoreInfo;
  set_receipt : option Receipt;
  set_taxRate : option Q;
  set_currency : option Currency
}.

Definition emptySettings : SettingsStore :=
  {| set_store := None; set_receipt := None;
     set_taxRate := None; set_currency := None |}.

Record DB := {
  products : ObjectStore Product;
  transactions : ObjectStore Transaction;
  suppliers : ObjectStore Supplier;
  settings : SettingsStore;
  notifications : ObjectStore Notification
}.

Definition with_products (ps : ObjectStore Product) (d : DB) : DB :=
  {| products := ps; transactions := transactions d;
     suppliers := suppliers d; settings := settings d;
     notifications := notifications d |}.

Definition with_transactions (ts : ObjectStore Transaction) (d : DB) : DB :=
  {| products := products d; transactions := ts;
     suppliers := suppliers d; settings := settings d;
     notifications := notifications d |}.

Definition with_suppliers (ss : ObjectStore Supplier) (d : DB) : DB :=
  {| products := products d; transactions := transactions d;
     suppliers := ss; settings := settings d;
     notifications := notifications d |}.

Definition with_settings (st : SettingsStore) (d : DB) : DB :=
  {| products := products d; transactions := transactions d;
     suppliers := suppliers d; settings := st;
     notifications := notifications d |}.

(* ===================================================================== *)
(** * The page and the application state *)
(* ===================================================================== *)

(** [showToast(message, type)] fills the toast element. *)
Record Toast := {
  toast_message : string;
  toast_type : string
}.

(** The elements of the page the script reads back, plus the toast and the
    inline error messages.  A numeric field holds [None] when it is empty
    (so that [parseFloat] gives [NaN]) and [Some q] when it spells [q]. *)
Record Page := {
  discount_toggle : bool;
  discount_value : option Q;
  tax_toggle : bool;
  tax_value : option Q;
  amount_received : option Q;
  payment_method : string;
  total_amount : string;
  current_invoice : string;
  toast : option Toast;
  errors : gmap string string
}.

(** [let db], [let cart] and the document. *)
Record App := {
  db : DB;
  cart : list CartItem;
  page : Page
}.

Definition with_db (d : DB) (s : App) : App :=
  {| db := d; cart := cart s; page := page s |}.

Definition with_cart (c : list CartItem) (s : App) : App :=
  {| db := db s; cart := c; page := page s |}.

Definition with_page (p : Page) (s : App) : App :=
  {| db := db s; cart := cart s; page := p |}.

Definition showToast (message type : string) (s : App) : App :=
  let p := page s in
  with_page
    {| discount_toggle := discount_toggle p;
       discount_value := discount_value p;
       tax_toggle := tax_toggle p; tax_value := tax_value p;
       amount_received := amount_received p;
       payment_method := payment_method p;
       total_amount := total_amount p;
       current_invoice := current_invoice p;
       toast := Some {| toast_message := message; toast_type := type |};
       errors := errors p |} s.

(** [showError(elementId, message)] *)
Definition showError (elementId message : string) (s : App) : App :=
  let p := page s in
  with_page
    {| discount_toggle := discount_toggle p;
       discount_value := discount_value p;
       tax_toggle := tax_toggle p; tax_value := tax_value p;
       amount_received := amount_received p;
       payment_method := payment_method p;
       total_amount := total_amount p;
       current_invoice := current_invoice p;
       toast := toast p;
       errors := <[elementId := message]> (errors p) |} s.

Definition setTotalAmount (text : string) (s : App) : App :=
  let p := page s in
  with_page
    {| discount_toggle := discount_toggle p;
       discount_value := discount_value p;
       tax_toggle := tax_toggle p; tax_value := tax_value p;
       amount_received := amount_received p;
       payment_method := payment_method p;
       total_amount := text;
       current_invoice := current_invoice p;
       toast := toast p;
       errors := errors p |} s.

(** The string [formatCurrency(amount)] resolves to: the currency record
    of the settings store, or the built-in default when there is none. *)
Definition formatCurrency (d : DB) (amount : Q) : string :=
  formatWith (default defaultCurrency (set_currency (settings d))) amount.

(* ===================================================================== *)
(** * Cashier: totals *)
(* ===================================================================== *)

(** [cart.reduce((sum, item) => sum + (item.price * item.quantity), 0)] *)
Definition subtotalOf (c : list CartItem) : Q :=
  fold_left
    (λ sum item, (sum + item_price item * inject_Z (item_quantity item))%Q)
    c 0%Q.

(** The value of the local [total] at the end of [calculateTotal].  A
    percentage is applied when its toggle is checked and its field holds a
    number greater than zero. *)
Definition totalOf (c : list CartItem) (p : Page) : Q :=
  let subtotal := subtotalOf c in
  let total := subtotal in
  let total :=
    match discount_value p with
    | Some d =>
        if discount_toggle p && Qltb 0 d
        then (total - subtotal * (d / 100))%Q
        else total
    | None => total
    end in
  let total :=
    match tax_value p with
    | Some t =>
        if tax_toggle p && Qltb 0 t
        then (total + total * (t / 100))%Q
        else total
    | None => total
    end in
  total.

(** [calculateTotal()]: the total is printed into [#total-amount]. *)
Definition calculateTotal (s : App) : App :=
  setTotalAmount (formatCurrency (db s) (totalOf (cart s) (page s))) s.

(** [updateCartSummary()] *)
Definition updateCartSummary (s : App) : App := calculateTotal s.

(** [updateCart()]: the lines are redrawn and the summary refreshed. *)
Definition updateCart (s : App) : App := updateCartSummary s.

(** The change handler of the discount checkbox, whose new state is
    [checked]. *)
Definition toggleDiscount (checked : bool) (s : App) : App :=
  let p := page s in
  calculateTotal (with_page
    {| discount_toggle := checked;
       discount_value := if checked then Some 10%Q else None;
       tax_toggle := tax_toggle p; tax_value := tax_value p;
       amount_received := amount_received p;
       payment_method := payment_method p;
       total_amount := total_amount p;
       current_invoice := current_invoice p;
       toast := toast p;
       errors := errors p |} s).

(** The change handler of the tax checkbox.  The total is recomputed
    only when the box has just been checked. *)
Definition toggleTax (checked : bool) (s : App) : App :=
  let p := page s in
  let s' := with_page
    {| discount_toggle := discount_toggle p;
       discount_value := discount_value p;
       tax_toggle := checked;
       tax_value :=
         if checked
         then Some (default 10%Q (set_taxRate (settings (db s))))
         else None;
       amount_received := amount_received p;
       payment_method := payment_method p;
       total_amount := total_amount p;
       current_invoice := current_invoice p;
       toast := toast p;
       errors := errors p |} s in
  if checked then calculateTotal s' else s'.

(** The cashier types [v] into [#amount-received].  The input handler,
    [calculateChange], only fills [#change], which nothing reads back. *)
Definition enterAmountReceived (v : option Q) (s : App) : App :=
  let p := page s in
  with_page
    {| discount_toggle := discount_toggle p;
       discount_value := discount_value p;
       tax_toggle := tax_toggle p; tax_value := tax_value p;
       amount_received := v;
       payment_method := payment_method p;
       total_amount := total_amount p;
       current_invoice := current_invoice p;
       toast := toast p;
       errors := errors p |} s.

(* ===================================================================== *)
(** * Cashier: the cart *)
(* ===================================================================== *)

(** [item.id === id] *)
Definition sameId (id : option Z) (item : CartItem) : bool :=
  bool_decide (item_id item = id).

(** [cart.find(item => item.id === id)] *)
Definition findItem (id : option Z) (c : list CartItem) : option CartItem :=
  List.find (sameId id) c.

Definition withQuantity (q : Z) (item : CartItem) : CartItem :=
  {| item_id := item_id item; item_code := item_code item;
     item_name := item_name item; item_price := item_price item;
     item_quantity := q; item_stock := item_stock item |}.

(** Assignment to [quantity] of the line [find] returned, which is the
    first line with that id. *)
Fixpoint setQuantity (id : option Z) (q : Z) (c : list CartItem)
  : list CartItem :=
  match c with
  | [] => []
  | item :: rest =>
      if sameId id item then withQuantity q item :: rest
      else item :: setQuantity id q rest
  end.

(** [cart.splice(cart.findIndex(item => item.id === id), 1)] *)
Fixpoint removeFirst (id : option Z) (c : list CartItem) : list CartItem :=
  match c with
  | [] => []
  | item :: rest =>
      if sameId id item then rest else item :: removeFirst id rest
  end.

Definition InsufficientStock : Toast :=
  {| toast_message := "Stok produk tidak mencukupi"; toast_type := "warning" |}.

Definition OutOfStock : Toast :=
  {| toast_message := "Stok produk habis"; toast_type := "warning" |}.

Definition addToCart (product : Product) (s : App) : App :=
  match findItem (p_id product) (cart s) with
  | Some existingItem =>
      if item_quantity existingItem <? p_stock product
      then
        updateCart
          (showToast ("Menambah jumlah " +:+ p_name product +:+ " di keranjang")
             "success"
             (with_cart
                (setQuantity (p_id product) (item_quantity existingItem + 1)
                   (cart s)) s))
      else showToast (toast_message InsufficientStock)
                     (toast_type InsufficientStock) s
  | None =>
      if 0 <? p_stock product
      then
        updateCart
          (showToast (p_name product +:+ " ditambahkan ke keranjang") "success"
             (with_cart
                (cart s ++
                 [{| item_id := p_id product; item_code := p_code product;
                     item_name := p_name product;
                     item_price := p_price product;
                     item_quantity := 1; item_stock := p_stock product |}])
                s))
      else showToast (toast_message OutOfStock) (toast_type OutOfStock) s
  end.

Definition increaseQuantity (id : Z) (s : App) : App :=
  match findItem (Some id) (cart s) with
  | Some item =>
      if item_quantity item <? item_stock item
      then updateCart
             (with_cart
                (setQuantity (Some id) (item_quantity item + 1) (cart s)) s)
      else showToast (toast_message InsufficientStock)
                     (toast_type InsufficientStock) s
  | None => s
  end.

Definition decreaseQuantity (id : Z) (s : App) : App :=
  match findItem (Some id) (cart s) with
  | Some item =>
      if 1 <? item_quantity item
      then updateCart
             (with_cart
                (setQuantity (Some id) (item_quantity item - 1) (cart s)) s)
      else s
  | None => s
  end.

Definition removeFromCart (id : Z) (s : App) : App :=
  match findItem (Some id) (cart s) with
  | Some item =>
      showToast (item_name item +:+ " dihapus dari keranjang") "info"
        (updateCart (with_cart (removeFirst (Some id) (cart s)) s))
  | None => s
  end.

(** [updateQuantity(id, quantity)]; [quantity] is what [parseInt] made of
    the field, [None] for [NaN]. *)
Definition updateQuantity (id : Z) (quantity : option Z) (s : App) : App :=
  if match quantity with Some q => q <? 1 | None => false end
  then removeFromCart id s
  else
    match findItem (Some id) (cart s) with
    | Some item =>
        match quantity with
        | Some q =>
            if q <=? item_stock item
            then updateCart (with_cart (setQuantity (Some id) q (cart s)) s)
            else
              updateCart
                (with_cart (setQuantity (Some id) (item_stock item) (cart s))
                   (showToast (toast_message InsufficientStock)
                      (toast_type InsufficientStock) s))
        | None =>
            updateCart
              (with_cart (setQuantity (Some id) (item_stock item) (cart s))
                 (showToast (toast_message InsufficientStock)
                    (toast_type InsufficientStock) s))
        end
    | None => s
    end.

(** [clearCart()]; [confirmed] is the answer to the dialog. *)
Definition clearCart (confirmed : bool) (s : App) : App :=
  match cart s with
  | [] => s
  | _ :: _ =>
      if confirmed
      then showToast "Keranjang dikosongkan" "info" (updateCart (with_cart [] s))
      else s
  end.

(** One handler of the cashier's cart, with its inputs. *)
Inductive CartOp :=
| AddToCart (product : Product)
| IncreaseQuantity (id : Z)
| DecreaseQuantity (id : Z)
| UpdateQuantity (id : Z) (quantity : option Z)
| RemoveFromCart (id : Z)
| ClearCart (confirmed : bool).

Definition runCartOp (op : CartOp) (s : App) : App :=
  match op with
  | AddToCart product => addToCart product s
  | IncreaseQuantity id => increaseQuantity id s
  | DecreaseQuantity id => decreaseQuantity id s
  | UpdateQuantity id quantity => updateQuantity id quantity s
  | RemoveFromCart id => removeFromCart id s
  | ClearCart confirmed => clearCart confirmed s
  end.

Definition runCartOps (ops : list CartOp) (s : App) : App :=
  fold_left (λ s op, runCartOp op s) ops s.

(* ===================================================================== *)
(** * Cashier: payment *)
(* ===================================================================== *)

Definition pad2 (n : Z) : string := padStart 2 "0" (digits n).

(** [generateInvoiceNumber()], with [now] for [new Date()]. *)
Definition generateInvoiceNumber (now : Time) : string :=
  "INV-" +:+ sliceLast 2 (digits (getFullYear now))
         +:+ pad2 (getMonth now + 1) +:+ pad2 (getDate now)
         +:+ "-" +:+ pad2 (getHours now) +:+ pad2 (getMinutes now)
         +:+ pad2 (getSeconds now).

Definition EmptyCart : Toast :=
  {| toast_message := "Keranjang belanja kosong"; toast_type := "warning" |}.

Definition InsufficientPayment : Toast :=
  {| toast_message := "Jumlah pembayaran kurang"; toast_type := "danger" |}.

Definition PaymentFailed : Toast :=
  {| toast_message := "Gagal memproses pembayaran"; toast_type := "error" |}.

Definition PaymentDone : Toast :=
  {| toast_message := "Pembayaran berhasil diproses"; toast_type := "success" |}.

(** [parseFloat(amount-received) || 0] *)
Definition amountReceivedOf (p : Page) : Q := default 0%Q (amount_received p).

(** [subtotal * (parseFloat(discount-value) / 100)], or [0] when the
    toggle is off. *)
Definition discountOf (c : list CartItem) (p : Page) : Amount :=
  if discount_toggle p
  then match discount_value p with
       | Some d => Num (subtotalOf c * (d / 100))
       | None => NaN
       end
  else Num 0.

(** [(subtotal - discount) * (parseFloat(tax-value) / 100)], or [0] when
    the toggle is off. *)
Definition taxOf (c : list CartItem) (p : Page) : Amount :=
  if tax_toggle p
  then match discountOf c p, tax_value p with
       | Num discount, Some t => Num ((subtotalOf c - discount) * (t / 100))
       | _, _ => NaN
       end
  else Num 0.

(** [cart.map(item => ({ productId: item.id, ... }))] *)
Definition snapshot (item : CartItem) : TxItem :=
  {| ti_productId := item_id item; ti_code := item_code item;
     ti_name := item_name item; ti_price := item_price item;
     ti_quantity := item_quantity item |}.

(** The [transaction] object [processPayment] builds. *)
Definition buildTransaction (now : Time) (s : App) : Transaction :=
  let p := page s in
  let amountReceived := amountReceivedOf p in
  let total := parseTotalText (total_amount p) in
  {| t_id := None;
     t_invoice := current_invoice p;
     t_date := DateObj now;
     t_items := map snapshot (cart s);
     t_subtotal := subtotalOf (cart s);
     t_discount := discountOf (cart s) p;
     t_tax := taxOf (cart s) p;
     t_total := total;
     t_paymentMethod := payment_method p;
     t_amountReceived := amountReceived;
     t_change := (amountReceived - total)%Q |}.

(** [getRecord(STORES.PRODUCTS, item.id)] *)
Definition readProduct (ps : ObjectStore Product) (item : CartItem)
  : option Product :=
  match item_id item with
  | Some k => store_get k ps
  | None => None
  end.

(** [product.stock -= item.quantity] *)
Definition decrementStock (q : Z) (p : Product) : Product :=
  {| p_id := p_id p; p_code := p_code p; p_name := p_name p;
     p_category := p_category p; p_price := p_price p; p_cost := p_cost p;
     p_stock := p_stock p - q; p_minStock := p_minStock p;
     p_supplierId := p_supplierId p; p_updatedAt := p_updatedAt p;
     p_createdAt := p_createdAt p |}.

(** The [then] callbacks of the product reads, in the order of the cart:
    each writes its product back with the stock lowered.  A read that found
    nothing, or a write that is refused, rejects its promise and the others
    go on; the boolean tells whether [Promise.all] is fulfilled. *)
Fixpoint writeStocks (reads : list (CartItem * option Product))
    (ps : ObjectStore Product) : ObjectStore Product * bool :=
  match reads with
  | [] => (ps, true)
  | (item, Some product) :: rest =>
      match store_put (decrementStock (item_quantity item) product) ps with
      | Some (_, ps') => writeStocks rest ps'
      | None => (fst (writeStocks rest ps), false)
      end
  | (_, None) :: rest => (fst (writeStocks rest ps), false)
  end.

(** [cart.map(item => getRecord(...).then(...))]: every read is requested
    before the first write is. *)
Definition updateStocks (c : list CartItem) (ps : ObjectStore Product)
  : ObjectStore Product * bool :=
  writeStocks (map (λ item, (item, readProduct ps item)) c) ps.

(** The page after a sale: fields emptied, toggles cleared, a new invoice
    number. *)
Definition resetCashier (later : Time) (s : App) : App :=
  let p := page s in
  with_page
    {| discount_toggle := false; discount_value := None;
       tax_toggle := false; tax_value := None;
       amount_received := None;
       payment_method := payment_method p;
       total_amount := total_amount p;
       current_invoice := generateInvoiceNumber later;
       toast := toast p;
       errors := errors p |} s.

(** [processPayment()]; [now] dates the sale and [later] is the clock when
    the next invoice number is made. *)
Definition processPayment (now later : Time) (s : App) : App :=
  match cart s with
  | [] => showToast (toast_message EmptyCart) (toast_type EmptyCart) s
  | _ :: _ =>
      let amountReceived := amountReceivedOf (page s) in
      let total := parseTotalText (total_amount (page s)) in
      if Qltb amountReceived total
      then showToast (toast_message InsufficientPayment)
                     (toast_type InsufficientPayment) s
      else
        match store_add (buildTransaction now s) (transactions (db s)) with
        | None =>
            showToast (toast_message PaymentFailed)
                      (toast_type PaymentFailed) s
        | Some (_, ts) =>
            let d := with_transactions ts (db s) in
            let (ps, fulfilled) := updateStocks (cart s) (products d) in
            let s' := with_db (with_products ps d) s in
            if fulfilled
            then
              resetCashier later
                (updateCart
                   (with_cart []
                      (showToast (toast_message PaymentDone)
                                 (toast_type PaymentDone) s')))
            else s'
        end
  end.

(* ===================================================================== *)
(** * Catalogue: products *)
(* ===================================================================== *)

(** The fields of the product form as [saveProduct] reads them: the text
    fields raw, [parseFloat] of price and cost, [parseInt] of the two
    stocks ([None] for [NaN]), the hidden id ([None] when empty) and the
    value of the supplier drop-down. *)
Record ProductForm := {
  f_id : option Z;
  f_code : string;
  f_name : string;
  f_category : string;
  f_price : option Q;
  f_cost : option Q;
  f_stock : option Z;
  f_minStock : option Z;
  f_supplier : string
}.

Definition isEmpty (s : string) : bool :=
  match s with EmptyString => true | _ => false end.

(** The check of one numeric field: [isNaN(v)], then [v < 0]. *)
Definition checkNumber {A : Type} (neg : A -> bool) (v : option A)
    (elementId missing negative : string) : list (string * string) :=
  match v with
  | None => [(elementId, missing)]
  | Some x => if neg x then [(elementId, negative)] else []
  end.

(** The calls of [showError] made by [validateProductForm], in order. *)
Definition productFormErrors (f : ProductForm) : list (string * string) :=
  (if isEmpty (trim (f_code f))
   then [("code-error", "Kode produk wajib diisi")] else [])
  ++ (if isEmpty (trim (f_name f))
      then [("name-error", "Nama produk wajib diisi")] else [])
  ++ (if isEmpty (trim (f_category f))
      then [("category-error", "Kategori wajib diisi")] else [])
  ++ checkNumber (λ x, Qltb x 0) (f_price f) "price-error"
       "Harga jual wajib diisi" "Harga jual tidak boleh negatif"
  ++ checkNumber (λ x, Qltb x 0) (f_cost f) "cost-error"
       "Harga beli wajib diisi" "Harga beli tidak boleh negatif"
  ++ checkNumber (λ x, x <? 0) (f_stock f) "stock-error"
       "Stok wajib diisi" "Stok tidak boleh negatif"
  ++ checkNumber (λ x, x <? 0) (f_minStock f) "min-stock-error"
       "Stok minimum wajib diisi" "Stok minimum tidak boleh negatif".

Definition showErrors (es : list (string * string)) (s : App) : App :=
  fold_left (λ s e, showError (fst e) (snd e) s) es s.

(** [validateProductForm()]: the state with the messages shown, and
    [isValid]. *)
Definition validateProductForm (f : ProductForm) (s : App) : App * bool :=
  let es := productFormErrors f in
  (showErrors es s, match es with [] => true | _ => false end).

(** The [product] object of [saveProduct], before any [id] or
    [createdAt]. *)
Definition productOfForm (f : ProductForm) (now : Time) : Product :=
  {| p_id := None;
     p_code := trim (f_code f);
     p_name := trim (f_name f);
     p_category := trim (f_category f);
     p_price := default 0%Q (f_price f);
     p_cost := default 0%Q (f_cost f);
     p_stock := default 0 (f_stock f);
     p_minStock := default 0 (f_minStock f);
     p_supplierId :=
       if isEmpty (f_supplier f) then None else Some (KStr (f_supplier f));
     p_updatedAt := DateObj now;
     p_createdAt := None |}.

Definition withCreatedAt (d : DateVal) (p : Product) : Product :=
  {| p_id := p_id p; p_code := p_code p; p_name := p_name p;
     p_category := p_category p; p_price := p_price p; p_cost := p_cost p;
     p_stock := p_stock p; p_minStock := p_minStock p;
     p_supplierId := p_supplierId p; p_updatedAt := p_updatedAt p;
     p_createdAt := Some d |}.

Definition CodeTaken : string * string :=
  ("code-error", "Kode produk sudah digunakan").

(** [saveProduct(e)] *)
Definition saveProduct (f : ProductForm) (now : Time) (s : App) : App :=
  let (s1, isValid) := validateProductForm f s in
  if negb isValid then s1
  else
    let product := productOfForm f now in
    match f_id f with
    | Some id =>
        match store_put (withKey id product) (products (db s)) with
        | Some (_, ps) =>
            showToast "Produk berhasil diperbarui" "success"
              (with_db (with_products ps (db s)) s)
        | None => showToast "Gagal memperbarui produk" "error" s
        end
    | None =>
        match store_add (withCreatedAt (DateObj now) product)
                (products (db s)) with
        | Some (_, ps) =>
            showToast "Produk berhasil ditambahkan" "success"
              (with_db (with_products ps (db s)) s)
        | None => showError (fst CodeTaken) (snd CodeTaken) s
        end
    end.

(** [deleteProduct(id)] *)
Definition deleteProduct (id : Z) (confirmed : bool) (s : App) : App :=
  if confirmed
  then showToast "Produk berhasil dihapus" "success"
         (with_db (with_products (store_delete id (products (db s))) (db s)) s)
  else s.

(* ===================================================================== *)
(** * Catalogue: suppliers *)
(* ===================================================================== *)

Record SupplierForm := {
  sf_id : option Z;
  sf_code : string;
  sf_name : string;
  sf_contact : string;
  sf_address : string;
  sf_email : string;
  sf_phone : string
}.

(** The calls of [showError] made by [validateSupplierForm], in order. *)
Definition supplierFormErrors (f : SupplierForm) : list (string * string) :=
  (if isEmpty (trim (sf_code f))
   then [("supplier-code-error", "Kode supplier wajib diisi")] else [])
  ++ (if isEmpty (trim (sf_name f))
      then [("supplier-name-error", "Nama supplier wajib diisi")] else [])
  ++ (if isEmpty (trim (sf_contact f))
      then [("supplier-contact-error", "Kontak wajib diisi")] else [])
  ++ (if isEmpty (trim (sf_address f))
      then [("supplier-address-error", "Alamat wajib diisi")] else []).

Definition validateSupplierForm (f : SupplierForm) (s : App) : App * bool :=
  let es := supplierFormErrors f in
  (showErrors es s, match es with [] => true | _ => false end).

(** [text || null] *)
Definition orNull (text : string) : option string :=
  if isEmpty text then None else Some text.

Definition supplierOfForm (f : SupplierForm) (now : Time) : Supplier :=
  {| s_id := None;
     s_code := trim (sf_code f);
     s_name := trim (sf_name f);
     s_contact := trim (sf_contact f);
     s_address := trim (sf_address f);
     s_email := orNull (trim (sf_email f));
     s_phone := orNull (trim (sf_phone f));
     s_updatedAt := DateObj now;
     s_createdAt := None |}.

Definition supplierCreatedAt (d : DateVal) (v : Supplier) : Supplier :=
  {| s_id := s_id v; s_code := s_code v; s_name := s_name v;
     s_contact := s_contact v; s_address := s_address v;
     s_email := s_email v; s_phone := s_phone v;
     s_updatedAt := s_updatedAt v; s_createdAt := Some d |}.

Definition SupplierCodeTaken : string * string :=
  ("supplier-code-error", "Kode supplier sudah digunakan").

(** [saveSupplier(e)] *)
Definition saveSupplier (f : SupplierForm) (now : Time) (s : App) : App :=
  let (s1, isValid) := validateSupplierForm f s in
  if negb isValid then s1
  else
    let supplier := supplierOfForm f now in
    match sf_id f with
    | Some id =>
        match store_put (withKey id supplier) (suppliers (db s)) with
        | Some (_, ss) =>
            showToast "Supplier berhasil diperbarui" "success"
              (with_db (with_suppliers ss (db s)) s)
        | None => showToast "Gagal memperbarui supplier" "error" s
        end
    | None =>
        match store_add (supplierCreatedAt (DateObj now) supplier)
                (suppliers (db s)) with
        | Some (_, ss) =>
            showToast "Supplier berhasil ditambahkan" "success"
              (with_db (with_suppliers ss (db s)) s)
        | None => showError (fst SupplierCodeTaken) (snd SupplierCodeTaken) s
        end
    end.

(** [store.index('supplierId').count(key)]: the products whose
    [supplierId] is that key. *)
Definition countBySupplierId (key : IDBKey) (ps : ObjectStore Product) : nat :=
  size (filter (λ kp, p_supplierId (snd kp) = Some key) (records ps)).

Definition ReferentialBlock : Toast :=
  {| toast_message :=
       "Tidak dapat menghapus supplier karena ada produk yang terkait";
     toast_type := "error" |}.

Definition SupplierDeleted : Toast :=
  {| toast_message := "Supplier berhasil dihapus"; toast_type := "success" |}.

(** [deleteSupplier(id)]; the delete buttons pass [parseInt] of their
    [data-id], a number. *)
Definition deleteSupplier (id : Z) (confirmed : bool) (s : App) : App :=
  if confirmed
  then
    if (0 <? countBySupplierId (KNum id) (products (db s)))%nat
    then showToast (toast_message ReferentialBlock)
                   (toast_type ReferentialBlock) s
    else
      showToast (toast_message SupplierDeleted) (toast_type SupplierDeleted)
        (with_db
           (with_suppliers (store_delete id (suppliers (db s))) (db s)) s)
  else s.

(* ===================================================================== *)
(** * Backup and restore *)
(* ===================================================================== *)

(** [store.getAll()]: the records by ascending key. *)
Definition keyLe {R : Type} (a b : Z * R) : Prop := fst a ≤ fst b.

#[global] Instance keyLe_dec {R : Type} (a b : Z * R) : Decision (keyLe a b).
Proof. unfold keyLe. apply _. Defined.

Definition getAll {R : Type} (st : ObjectStore R) : list R :=
  (merge_sort keyLe (map_to_list (records st))).*2.

(** The records of the settings store by ascending id: ['currency'],
    ['receipt'], ['store'], ['taxRate']. *)
Definition getAllSettings (st : SettingsStore) : list Setting :=
  option_list (SCurrency <$> set_currency st)
  ++ option_list (SReceipt <$> set_receipt st)
  ++ option_list (SStore <$> set_store st)
  ++ option_list (STaxRate <$> set_taxRate st).

(** The [backup] object: one array per store name; a key may be missing
    from a file. *)
Record Backup := {
  b_products : option (list Product);
  b_transactions : option (list Transaction);
  b_suppliers : option (list Supplier);
  b_settings : option (list Setting)
}.

(** The [backup] object [backupData] collects: the four stores listed in
    [stores], and not the notifications. *)
Definition backupData (d : DB) : Backup :=
  {| b_products := Some (getAll (products d));
     b_transactions := Some (getAll (transactions d));
     b_suppliers := Some (getAll (suppliers d));
     b_settings := Some (getAllSettings (settings d)) |}.

(** What [JSON.parse] reads back from what [JSON.stringify] wrote: a
    [Date] has become its ISO string and [NaN] has become [null]; strings,
    finite numbers, booleans, [null] and arrays come back as they were. *)
Definition jsonDate (d : DateVal) : DateVal :=
  match d with
  | DateObj t => DateStr t
  | DateStr t => DateStr t
  end.

Definition jsonAmount (a : Amount) : Amount :=
  match a with
  | Num q => Num q
  | NaN => Null
  | Null => Null
  end.

Definition jsonProduct (p : Product) : Product :=
  {| p_id := p_id p; p_code := p_code p; p_name := p_name p;
     p_category := p_category p; p_price := p_price p; p_cost := p_cost p;
     p_stock := p_stock p; p_minStock := p_minStock p;
     p_supplierId := p_supplierId p;
     p_updatedAt := jsonDate (p_updatedAt p);
     p_createdAt := jsonDate <$> p_createdAt p |}.

Definition jsonSupplier (v : Supplier) : Supplier :=
  {| s_id := s_id v; s_code := s_code v; s_name := s_name v;
     s_contact := s_contact v; s_address := s_address v;
     s_email := s_email v; s_phone := s_phone v;
     s_updatedAt := jsonDate (s_updatedAt v);
     s_createdAt := jsonDate <$> s_createdAt v |}.

Definition jsonTransaction (t : Transaction) : Transaction :=
  {| t_id := t_id t; t_invoice := t_invoice t;
     t_date := jsonDate (t_date t);
     t_items := t_items t; t_subtotal := t_subtotal t;
     t_discount := jsonAmount (t_discount t);
     t_tax := jsonAmount (t_tax t);
     t_total := t_total t; t_paymentMethod := t_paymentMethod t;
     t_amountReceived := t_amountReceived t; t_change := t_change t |}.

(** [JSON.parse(JSON.stringify(backup))]: the content of the downloaded
    file as [restoreData] reads it. *)
Definition jsonRoundTrip (b : Backup) : Backup :=
  {| b_products := map jsonProduct <$> b_products b;
     b_transactions := map jsonTransaction <$> b_transactions b;
     b_suppliers := map jsonSupplier <$> b_suppliers b;
     b_settings := b_settings b |}.

(** [backup[store].forEach(item => objectStore.add(item))] in one
    transaction: a refused [add] aborts it ([None]). *)
Fixpoint addAll {R : Type} `{Schema R} (items : list R) (st : ObjectStore R)
  : option (ObjectStore R) :=
  match items with
  | [] => Some st
  | item :: rest =>
      match store_add item st with
      | Some (_, st') => addAll rest st'
      | None => None
      end
  end.

(** One store of the restore: cleared, then refilled when the file has an
    entry for it.  The boolean tells whether the refill completed; an
    aborted refill leaves the store cleared. *)
Definition restoreStore {R : Type} `{Schema R} (items : option (list R))
    (st : ObjectStore R) : ObjectStore R * bool :=
  match items with
  | None => (store_clear st, true)
  | Some l =>
      match addAll l (store_clear st) with
      | Some st' => (st', true)
      | None => (store_clear st, false)
      end
  end.

(** [objectStore.add(setting)] on the settings store. *)
Definition addSetting (v : Setting) (st : SettingsStore)
  : option SettingsStore :=
  match v with
  | SStore x =>
      match set_store st with
      | Some _ => None
      | None => Some {| set_store := Some x; set_receipt := set_receipt st;
                        set_taxRate := set_taxRate st;
                        set_currency := set_currency st |}
      end
  | SReceipt x =>
      match set_receipt st with
      | Some _ => None
      | None => Some {| set_store := set_store st; set_receipt := Some x;
                        set_taxRate := set_taxRate st;
                        set_currency := set_currency st |}
      end
  | STaxRate x =>
      match set_taxRate st with
      | Some _ => None
      | None => Some {| set_store := set_store st;
                        set_receipt := set_receipt st;
                        set_taxRate := Some x;
                        set_currency := set_currency st |}
      end
  | SCurrency x =>
      match set_currency st with
      | Some _ => None
      | None => Some {| set_store := set_store st;
                        set_receipt := set_receipt st;
                        set_taxRate := set_taxRate st;
                        set_currency := Some x |}
      end
  end.

Fixpoint addAllSettings (items : list Setting) (st : SettingsStore)
  : option SettingsStore :=
  match items with
  | [] => Some st
  | item :: rest =>
      match addSetting item st with
      | Some st' => addAllSettings rest st'
      | None => None
      end
  end.

Definition restoreSettings (items : option (list Setting))
  : SettingsStore * bool :=
  match items with
  | None => (emptySettings, true)
  | Some l =>
      match addAllSettings l emptySettings with
      | Some st' => (st', true)
      | None => (emptySettings, false)
      end
  end.

(** The database after [restoreData] has read [file]: the four stores
    cleared and refilled, the notifications as they were.  The boolean
    tells whether every refill completed. *)
Definition restoreDB (file : Backup) (d : DB) : DB * bool :=
  let (ps, ok1) := restoreStore (b_products file) (products d) in
  let (ts, ok2) := restoreStore (b_transactions file) (transactions d) in
  let (ss, ok3) := restoreStore (b_suppliers file) (suppliers d) in
  let (st, ok4) := restoreSettings (b_settings file) in
  ({| products := ps; transactions := ts; suppliers := ss; settings := st;
      notifications := notifications d |},
   ok1 && ok2 && ok3 && ok4).

(** [restoreData()]; [file] is the parsed content of the chosen file, if
    one was chosen. *)
Definition restoreData (file : option Backup) (confirmed : bool) (s : App)
  : App :=
  match file with
  | None => showToast "Pilih file backup terlebih dahulu" "warning" s
  | Some b =>
      if confirmed
      then
        let (d, ok) := restoreDB b (db s) in
        if ok then showToast "Data berhasil direstore" "success" (with_db d s)
        else with_db d s
      else s
  end.

(** The four backed-up collections of a database, record by record. *)
Definition content (d : DB)
  : gmap Z Product * gmap Z Transaction * gmap Z Supplier * SettingsStore :=
  (records (products d), records (transactions d),
   records (suppliers d), settings d).


(* ===================================================================== *)
(** * The application as a whole *)
(* ===================================================================== *)

(** [loadDefaultSettings()]: each of the four records is added unless one
    is there. *)
Definition loadDefaultSettings (d : DB) : DB :=
  let st := settings d in
  with_settings
    {| set_store :=
         Some (default
                 {| store_name := "Toko Saya"; store_address := "";
                    store_phone := Some ""; store_email := Some "";
                    store_taxId := Some "" |}
                 (set_store st));
       set_receipt :=
         Some (default
                 {| receipt_header := "Terima kasih telah berbelanja";
                    receipt_footer :=
                      "Barang yang sudah dibeli tidak dapat ditukar atau dikembalikan";
                    receipt_showTax := false; receipt_logo := None |}
                 (set_receipt st));
       set_taxRate := Some (default 10%Q (set_taxRate st));
       set_currency := Some (default defaultCurrency (set_currency st)) |}
    d.

(** [initApp()] on the database [d] found by [openDatabase], the document
    being [html] as loaded: the default settings are added, the cart is
    empty and the invoice number is made. *)
Definition initApp (now : Time) (html : Page) (d : DB) : App :=
  {| db := loadDefaultSettings d;
     cart := [];
     page :=
       {| discount_toggle := discount_toggle html;
          discount_value := discount_value html;
          tax_toggle := tax_toggle html; tax_value := tax_value html;
          amount_received := amount_received html;
          payment_method := payment_method html;
          total_amount := total_amount html;
          current_invoice := generateInvoiceNumber now;
          toast := toast html;
          errors := errors html |} |}.

(** A user action that reaches one of the handlers above, with the inputs
    the handler takes from the user and the clock. *)
Inductive Event :=
| SaveProduct (f : ProductForm) (now : Time)
| DeleteProduct (id : Z) (confirmed : bool)
| Cart (op : CartOp)
| ToggleDiscount (checked : bool)
| ToggleTax (checked : bool)
| EnterAmountReceived (v : option Q)
| ProcessPayment (now later : Time)
| SaveSupplier (f : SupplierForm) (now : Time)
| DeleteSupplier (id : Z) (confirmed : bool)
| RestoreData (file : option Backup) (confirmed : bool).

Definition runEvent (e : Event) (s : App) : App :=
  match e with
  | SaveProduct f now => saveProduct f now s
  | DeleteProduct id confirmed => deleteProduct id confirmed s
  | Cart op => runCartOp op s
  | ToggleDiscount checked => toggleDiscount checked s
  | ToggleTax checked => toggleTax checked s
  | EnterAmountReceived v => enterAmountReceived v s
  | ProcessPayment now later => processPayment now later s
  | SaveSupplier f now => saveSupplier f now s
  | DeleteSupplier id confirmed => deleteSupplier id confirmed s
  | RestoreData file confirmed => restoreData file confirmed s
  end.

Definition runEvents (es : list Event) (s : App) : App :=
  fold_left (λ s e, runEvent e s) es s.


(* ===================================================================== *)
(** * Cashier: the change *)
(* ===================================================================== *)

(** What [calculateChange()] writes into [#change]: the amount received
    less the total read from the page, with two decimals, or nothing when
    that is negative. *)
Definition calculateChange (p : Page) : string :=
  let amountReceived := amountReceivedOf p in
  let total := parseTotalText (total_amount p) in
  let change := (amountReceived - total)%Q in
  if Qle_bool 0 change then toFixed change 2 else "".

(* ===================================================================== *)
(** * Cashier: the product tiles *)
(* ===================================================================== *)

(** [s.toLowerCase()], on the letters [A] to [Z]. *)
Definition toLowerChar (c : ascii) : ascii :=
  let n := nat_of_ascii c in
  if (65 <=? n)%nat && (n <=? 90)%nat then ascii_of_nat (n + 32) else c.

Fixpoint toLowerCase (s : string) : string :=
  match s with
  | EmptyString => EmptyString
  | String c r => String (toLowerChar c) (toLowerCase r)
  end.

(** [s.includes(q)] *)
Fixpoint includes (s q : string) : bool :=
  String.prefix q s
  || match s with
     | EmptyString => false
     | String _ r => includes r q
     end.

(** The tiles [loadCashierProducts()] draws, in order: the products in
    stock.  A click on a tile calls [addToCart] with the record the tile
    was drawn from. *)
Definition loadCashierProducts (d : DB) : list Product :=
  List.filter (λ product, 0 <? p_stock product) (getAll (products d)).

(** The tiles [searchCashierProducts()] draws for the text [value] of the
    search field. *)
Definition searchCashierProducts (value : string) (d : DB) : list Product :=
  let query := toLowerCase value in
  List.filter
    (λ product,
       (includes (toLowerCase (p_name product)) query
        || includes (toLowerCase (p_code product)) query)
       && (0 <? p_stock product))
    (getAll (products d)).

(* ===================================================================== *)
(** * Reports *)
(* ===================================================================== *)

(** The order of two [Date] keys, to the second. *)
Definition timeKey (t : Time) : list Z :=
  [getFullYear t; getMonth t; getDate t;
   getHours t; getMinutes t; getSeconds t].

Fixpoint lexLe (a b : list Z) : bool :=
  match a, b with
  | [], _ => true
  | _ :: _, [] => false
  | x :: a', y :: b' => (x <? y) || ((x =? y) && lexLe a' b')
  end.

Definition timeLe (a b : Time) : bool := lexLe (timeKey a) (timeKey b).

(** A key of the [date] index lies in [IDBKeyRange.bound(lower, upper)],
    both bounds being [Date]s.  A string is a key above every [Date], so
    it is in no such range. *)
Definition inDateRange (lower upper : Time) (key : DateVal) : bool :=
  match key with
  | DateObj t => timeLe lower t && timeLe t upper
  | DateStr _ => false
  end.

(** The order of the [date] index on the records of such a range, all of
    them dated by a [Date]: by date, then by primary key. *)
Definition dateLe (a b : Transaction) : Prop :=
  match t_date a, t_date b with
  | DateObj x, DateObj y => timeLe x y = true
  | _, _ => True
  end.

#[global] Instance dateLe_dec (a b : Transaction) : Decision (dateLe a b).
Proof.
  unfold dateLe. destruct (t_date a), (t_date b); apply _.
Defined.

(** [store.index('date').getAll(IDBKeyRange.bound(lower, upper))] *)
Definition dateIndexGetAll (lower upper : Time)
    (ts : ObjectStore Transaction) : list Transaction :=
  merge_sort dateLe
    (List.filter (λ t, inDateRange lower upper (t_date t)) (getAll ts)).

(** What [generateReport()] shows for the bounds [startDate] (at
    0:00:00.000) and [endDate] (at 23:59:59.999) it has made from the
    form: the three figures of the summary and the rows of the table. *)
Record Report := {
  totalSales : Q;
  totalTransactions : nat;
  totalItems : Z;
  rows : list Transaction
}.

Definition generateReport (startDate endDate : Time) (d : DB) : Report :=
  let transactions := dateIndexGetAll startDate endDate (transactions d) in
  {| totalSales :=
       fold_left (λ sum t, (sum + t_total t)%Q) transactions 0%Q;
     totalTransactions := length transactions;
     totalItems :=
       fold_left
         (λ sum t,
            sum + fold_left (λ s i, s + ti_quantity i) (t_items t) 0)
         transactions 0;
     rows := rev transactions |}.

(* ===================================================================== *)
(** * The indexes, and the dashboard *)
(* ===================================================================== *)

(** [STORES] *)
Inductive StoreName :=
| PRODUCTS | TRANSACTIONS | SUPPLIERS | SETTINGS | NOTIFICATIONS.

(** The indexes [onupgradeneeded] creates on each store. *)
Definition indexNames (store : StoreName) : list string :=
  match store with
  | PRODUCTS => ["code"; "name"; "category"; "supplierId"]
  | TRANSACTIONS => ["date"; "invoice"]
  | SUPPLIERS => ["code"; "name"]
  | SETTINGS => []
  | NOTIFICATIONS => ["read"]
  end.

(** [store.index(name)]; [None] is the [NotFoundError] it throws when the
    store has no index of that name. *)
Definition index (store : StoreName) (name : string)
  : option (StoreName * string) :=
  if bool_decide (name ∈ indexNames store) then Some (store, name) else None.

(** Whether [loadDashboard()] returns: the index of the day's sales, then
    the index of the products out of stock, each of which it asks of the
    store before it goes on; [None] when one of the two throws.  What the
    requests write on the dashboard is not part of [Page]. *)
Definition loadDashboard : option unit :=
  _ ← index TRANSACTIONS "date";
  _ ← index PRODUCTS "stock";
  Some ().

(** The rest of a [then] callback that has shown its toast and goes on
    with [loadDashboard()]: an exception thrown there rejects the promise,
    and the [catch] handler of the chain shows [failure]. *)
Definition thenLoadDashboard (failure : string) (s : App) : App :=
  match loadDashboard with
  | Some _ => s
  | None => showToast failure "error" s
  end.

(** The request of [saveProduct] was made and has succeeded. *)
Definition productSaved (f : ProductForm) (now : Time) (s : App) : bool :=
  match productFormErrors f with
  | [] =>
      match f_id f with
      | Some id =>
          bool_decide (is_Some
            (store_put (withKey id (productOfForm f now)) (products (db s))))
      | None =>
          bool_decide (is_Some
            (store_add (withCreatedAt (DateObj now) (productOfForm f now))
               (products (db s))))
      end
  | _ :: _ => false
  end.

(** [saveProduct(e)] with its callbacks run to their end: after the toast
    of success come [loadProducts()], [loadDashboard()] and
    [loadCashierProducts()]. *)
Definition saveProductSettled (f : ProductForm) (now : Time) (s : App)
  : App :=
  let s' := saveProduct f now s in
  if productSaved f now s
  then thenLoadDashboard
         (match f_id f with
          | Some _ => "Gagal memperbarui produk"
          | None => "Gagal menambahkan produk"
          end) s'
  else s'.

(** [deleteProduct(id)] with its callback run to its end. *)
Definition deleteProductSettled (id : Z) (confirmed : bool) (s : App) : App :=
  let s' := deleteProduct id confirmed s in
  if confirmed then thenLoadDashboard "Gagal menghapus produk" s' else s'.

(** [initApp()] with its [try] block run to its end: [loadDashboard()]
    comes before the invoice number is made, and the [catch] block shows
    its toast. *)
Definition initAppSettled (now : Time) (html : Page) (d : DB) : App :=
  match loadDashboard with
  | Some _ => initApp now html d
  | None =>
      showToast "Gagal memuat aplikasi. Silakan refresh halaman." "error"
        {| db := loadDefaultSettings d; cart := []; page := html |}
  end.

(* ===================================================================== *)
(** * The service worker *)
(* ===================================================================== *)

Module ServiceWorker.

Definition CACHE_NAME : string := "kasir-pos-v2".

Definition ASSETS_TO_CACHE : list string :=
  [ "/"; "/index.html"; "/style.css"; "/app.js";
    "/icons/icon-72x72.png"; "/icons/icon-96x96.png";
    "/icons/icon-128x128.png"; "/icons/icon-144x144.png";
    "/icons/icon-152x152.png"; "/icons/icon-192x192.png";
    "/icons/icon-384x384.png"; "/icons/icon-512x512.png";
    "https://fonts.googleapis.com/css2?family=Poppins:wght@300;400;500;600;700&display=swap";
    "https://cdnjs.cloudflare.com/ajax/libs/font-awesome/6.0.0-beta3/css/all.min.css" ].

Record Request := { method : string; url : string }.

Record Response := { status : Z; type : string; body : string }.

(** A cache holds one response for a URL; the caches of the origin are
    kept by name, in the order they were opened first. *)
Definition CacheStorage := list (string * gmap string Response).

(** [fetch(request)]: the response of the network, or [None] when the
    promise is rejected (no connection). *)
Definition Network := Request → option Response.

(** [caches.match(request)]: the first cache, in order, that holds a
    response for the URL. *)
Fixpoint cachesMatch (caches : CacheStorage) (request : Request)
  : option Response :=
  match caches with
  | [] => None
  | (_, cache) :: rest =>
      match cache !! url request with
      | Some response => Some response
      | None => cachesMatch rest request
      end
  end.

Fixpoint lookupCache (name : string) (caches : CacheStorage)
  : option (gmap string Response) :=
  match caches with
  | [] => None
  | (n, cache) :: rest =>
      if String.eqb n name then Some cache else lookupCache name rest
  end.

(** [cache.put(request, response)] on the cache [caches.open(name)]
    resolves to, which is made when there is none of that name. *)
Fixpoint putIn (name : string) (request : Request) (response : Response)
    (caches : CacheStorage) : CacheStorage :=
  match caches with
  | [] => [(name, {[ url request := response ]})]
  | (n, cache) :: rest =>
      if String.eqb n name
      then (n, <[url request := response]> cache) :: rest
      else (n, cache) :: putIn name request response rest
  end.

(** What the [fetch] listener does with an event: it leaves the request
    to the browser, or answers it with a response, or with a rejected
    promise. *)
Inductive Answer :=
| NotHandled
| RespondWith (response : Response)
| Rejected.

(** The [fetch] listener. *)
Definition onFetch (network : Network) (request : Request)
    (caches : CacheStorage) : CacheStorage * Answer :=
  if negb (String.eqb (method request) "GET") then (caches, NotHandled)
  else
    match cachesMatch caches request with
    | Some response => (caches, RespondWith response)
    | None =>
        match network request with
        | None => (caches, Rejected)
        | Some response =>
            if negb (status response =? 200)
               || negb (String.eqb (type response) "basic")
            then (caches, RespondWith response)
            else (putIn CACHE_NAME request response caches,
                  RespondWith response)
        end
    end.

(** The [activate] listener: every cache of another name is deleted. *)
Definition onActivate (caches : CacheStorage) : CacheStorage :=
  List.filter (λ c, String.eqb (fst c) CACHE_NAME) caches.

(** [cache.addAll(urls)]: every URL is fetched, and the responses are put
    in the cache only when each fetch has answered with an [ok] status;
    [None] when the promise is rejected. *)
Definition isOk (response : Response) : bool :=
  (200 <=? status response) && (status response <=? 299).

Fixpoint fetchAll (network : Network) (urls : list string)
  : option (list (string * Response)) :=
  match urls with
  | [] => Some []
  | u :: rest =>
      match network {| method := "GET"; url := u |} with
      | Some response =>
          if isOk response
          then option_map (cons (u, response)) (fetchAll network rest)
          else None
      | None => None
      end
  end.

(** [caches.open(name)]: the caches with one of that name among them. *)
Definition openCache (name : string) (caches : CacheStorage) : CacheStorage :=
  match lookupCache name caches with
  | Some _ => caches
  | None => caches ++ [(name, ∅)]
  end.

(** The [install] listener; the boolean tells whether the promise given
    to [waitUntil] is fulfilled, that is whether the worker is
    installed. *)
Definition onInstall (network : Network) (caches : CacheStorage)
  : CacheStorage * bool :=
  let opened := openCache CACHE_NAME caches in
  match fetchAll network ASSETS_TO_CACHE with
  | Some responses =>
      (fold_left
         (λ cs ur, putIn CACHE_NAME {| method := "GET"; url := fst ur |}
                     (snd ur) cs)
         responses opened,
       true)
  | None => (opened, false)
  end.

End ServiceWorker.


(* ===================================================================== *)
(** * Vocabulary of the properties, and scenarios *)
(* ===================================================================== *)

(** No character of [s] is a digit. *)
Definition noDigit (s : string) : Prop :=
  allString (λ c, negb (isDigit c)) s = true.


(** A line of the cart. *)
Definition line (id : Z) (price : Q) (quantity stock : Z) : CartItem :=
  {| item_id := Some id; item_code := "P" +:+ digits id;
     item_name := "Produk " +:+ digits id; item_price := price;
     item_quantity := quantity; item_stock := stock |}.

(** A cashier page with both toggles checked. *)
Definition bothToggles (d t : Q) (received : option Q) (text invoice : string)
  : Page :=
  {| discount_toggle := true; discount_value := Some d;
     tax_toggle := true; tax_value := Some t;
     amount_received := received; payment_method := "cash";
     total_amount := text; current_invoice := invoice;
     toast := None; errors := ∅ |}.

(** The database as [onupgradeneeded] creates it. *)
Definition emptyDB : DB :=
  {| products := emptyStore; transactions := emptyStore;
     suppliers := emptyStore; settings := emptySettings;
     notifications := emptyStore |}.


(** The same cart with its total on the page and 19000 handed over. *)
Definition underpaid : App :=
  {| db := emptyDB; cart := [line 1 10000 2 5];
     page := bothToggles 10 10 (Some 19000%Q) "Rp 19.800" "INV-240105-093007" |}.

(** 5 January 2024, 12:00:00. *)
Definition noon : Time :=
  {| getFullYear := 2024; getMonth := 0; getDate := 5;
     getHours := 12; getMinutes := 0; getSeconds := 0 |}.





(** A cashier page with nothing entered. *)
Definition pageOff (invoice : string) : Page :=
  {| discount_toggle := false; discount_value := None;
     tax_toggle := false; tax_value := None;
     amount_received := None; payment_method := "cash";
     total_amount := "Rp 0"; current_invoice := invoice;
     toast := None; errors := ∅ |}.

(** A product as the product form creates it at [noon], and as [getAll]
    then hands it to the cashier. *)
Definition sampleProduct (id : Z) (code : string) (price : Q) (stock : Z)
  : Product :=
  {| p_id := Some id; p_code := code; p_name := "Produk " +:+ code;
     p_category := "umum"; p_price := price; p_cost := price;
     p_stock := stock; p_minStock := 0; p_supplierId := None;
     p_updatedAt := DateObj noon; p_createdAt := Some (DateObj noon) |}.

(** The application just started, at noon, on a database that is new. *)
Definition emptyApp : App := initApp noon (pageOff "") emptyDB.

(** What the [Schema] instances have in common. *)
Class SchemaOk (R : Type) `{Schema R} := {
  keyOf_withKey : ∀ k r, keyOf (withKey k r) = Some k;
  withKey_same : ∀ k r, keyOf r = Some k → withKey k r = r;
  uniqueOf_withKey : ∀ k r, uniqueOf (withKey k r) = uniqueOf r
}.

(** No two records of a store share a unique index key. *)
Definition unique_wf {R : Type} `{Schema R} (st : ObjectStore R) : Prop :=
  ∀ k k' r r',
    records st !! k = Some r → records st !! k' = Some r' →
    is_Some (uniqueOf r) → uniqueOf r = uniqueOf r' → k = k'.

(** The same product once it has been edited: the record written by an
    edit has no [createdAt]. *)
Definition editedProduct (id : Z) (code : string) (price : Q) (stock : Z)
  : Product :=
  {| p_id := Some id; p_code := code; p_name := "Produk " +:+ code;
     p_category := "umum"; p_price := price; p_cost := price;
     p_stock := stock; p_minStock := 0; p_supplierId := None;
     p_updatedAt := DateObj noon; p_createdAt := None |}.

(** A filled product form; [id] is the hidden field. *)
Definition productForm (id : option Z) (code : string) (price : Q)
    (stock : Z) (supplier : string) : ProductForm :=
  {| f_id := id; f_code := code; f_name := "Produk " +:+ trim code;
     f_category := "umum"; f_price := Some price; f_cost := Some price;
     f_stock := Some stock; f_minStock := Some 0; f_supplier := supplier |}.

(** A filled supplier form. *)
Definition supplierForm (code : string) : SupplierForm :=
  {| sf_id := None; sf_code := code; sf_name := "Pemasok " +:+ code;
     sf_contact := "Budi"; sf_address := "Jl. Merdeka 1";
     sf_email := ""; sf_phone := "" |}.

(** The shop after one product, code [A] at stock 5, has been saved. *)
Definition oneProduct : App :=
  saveProduct (productForm None " A " 10000 5 "") noon emptyApp.



(** A database whose stores are as IndexedDB keeps them: every record
    under its own key, below the key generator, and no unique index key
    held twice.  It is all the application ever sees
    ([db_wf_reachable]). *)
Definition db_wf (d : DB) : Prop :=
  store_wf (products d) ∧ unique_wf (products d)
  ∧ store_wf (transactions d) ∧ unique_wf (transactions d)
  ∧ store_wf (suppliers d) ∧ unique_wf (suppliers d).

(** A product is saved with stock 1 and put in the cart; its stock is
    then edited to 5, and the tile of the product, redrawn with the new
    record, is clicked again. *)
Definition restocked : App :=
  runEvents
    [SaveProduct (productForm None "A" 10000 1 "") noon;
     Cart (AddToCart (sampleProduct 1 "A" 10000 1));
     SaveProduct (productForm (Some 1) "A" 10000 5 "") noon;
     Cart (AddToCart (editedProduct 1 "A" 10000 5))]
    emptyApp.

(** The shop of [oneProduct] with two units in the cart, the total
    printed, and 25000 handed over. *)
Definition readyToPay : App :=
  enterAmountReceived (Some 25000%Q)
    (runCartOps
       [AddToCart (sampleProduct 1 "A" 10000 5); IncreaseQuantity 1]
       oneProduct).

(** The shop after that sale, the next invoice number being made within
    the same second as the one just used, with one more unit in the cart
    and 25000 handed over again. *)
Definition secondSale : App :=
  enterAmountReceived (Some 25000%Q)
    (runCartOps [AddToCart (sampleProduct 1 "A" 10000 3)]
       (processPayment noon noon readyToPay)).

(** Two units of the product of [oneProduct] are in the cart; the tax
    box is checked (10%, the total is printed with the tax) and then
    unchecked again; 22000 is handed over. *)
Definition taxUnchecked : App :=
  enterAmountReceived (Some 22000%Q)
    (toggleTax false
       (toggleTax true
          (runCartOps
             [AddToCart (sampleProduct 1 "A" 10000 5); IncreaseQuantity 1]
             oneProduct))).

(** A product of price 15 is in the shop; one unit is in the cart, the
    discount box has just been checked (10%), the page shows the total and
    20 is handed over. *)
Definition discountedSale : App :=
  enterAmountReceived (Some 20%Q)
    (toggleDiscount true
       (runCartOps [AddToCart (sampleProduct 1 "B" 15 5)]
          (saveProduct (productForm None "B" 15 5 "") noon emptyApp))).

(** The product of [oneProduct] (stock 5) is put in the cart five times;
    its stock is then edited down to 2; 50000 is handed over. *)
Definition oversold : App :=
  enterAmountReceived (Some 50000%Q)
    (saveProduct (productForm (Some 1) "A" 10000 2 "") noon
       (runCartOps
          [AddToCart (sampleProduct 1 "A" 10000 5); IncreaseQuantity 1;
           IncreaseQuantity 1; IncreaseQuantity 1; IncreaseQuantity 1]
          oneProduct)).

(** A supplier is saved and gets id 1; a product is then saved with that
    supplier chosen in the drop-down, whose option has the value ["1"]. *)
Definition supplied : App :=
  saveProduct (productForm None "A" 10000 5 "1") noon
    (saveSupplier (supplierForm "S1") noon emptyApp).

(** The database after the sale of [readyToPay]: one product, one
    transaction. *)
Definition afterSale : DB := db (processPayment noon noon readyToPay).


(* ===================================================================== *)
(** * Further vocabulary *)
(* ===================================================================== *)


(** The two digits of a number below 100. *)
Definition twoDigits (n : Z) : string :=
  String (ascii_of_nat (48 + Z.to_nat (n / 10)))
    (String (ascii_of_nat (48 + Z.to_nat (n mod 10))) "").

(** The number two digits spell. *)
Definition readTwoDigits (s : string) : Z :=
  match s with
  | String a (String b _) =>
      Z.of_nat (nat_of_ascii a - 48) * 10 + Z.of_nat (nat_of_ascii b - 48)
  | _ => 0
  end.

(** The getters of a [Date] are in range, the year having four digits. *)
Definition validTime (t : Time) : Prop :=
  1000 ≤ getFullYear t ≤ 9999 ∧ 0 ≤ getMonth t ≤ 11 ∧ 1 ≤ getDate t ≤ 31
  ∧ 0 ≤ getHours t ≤ 23 ∧ 0 ≤ getMinutes t ≤ 59 ∧ 0 ≤ getSeconds t ≤ 59.

(** Two instants in the same second, centuries apart or not. *)
Definition sameSecond (a b : Time) : Prop :=
  getFullYear a mod 100 = getFullYear b mod 100
  ∧ getMonth a = getMonth b ∧ getDate a = getDate b
  ∧ getHours a = getHours b ∧ getMinutes a = getMinutes b
  ∧ getSeconds a = getSeconds b.

(** The six numbers an invoice number spells. *)
Definition readInvoiceNumber (s : string) : Z * Z * Z * Z * Z * Z :=
  (readTwoDigits (substring 4 2 s), readTwoDigits (substring 6 2 s),
   readTwoDigits (substring 8 2 s), readTwoDigits (substring 11 2 s),
   readTwoDigits (substring 13 2 s), readTwoDigits (substring 15 2 s)).

(** The id a cart handler addresses; [clearCart] addresses none. *)
Definition targetOf (op : CartOp) : option (option Z) :=
  match op with
  | AddToCart product => Some (p_id product)
  | IncreaseQuantity id | DecreaseQuantity id | UpdateQuantity id _
  | RemoveFromCart id => Some (Some id)
  | ClearCart _ => None
  end.

(** The lines of a cart other than those of [id], in order. *)
Definition otherLines (id : option Z) (c : list CartItem) : list CartItem :=
  List.filter (λ item, negb (sameId id item)) c.

(** [#total-amount] shows the total of the cart as it is. *)
Definition upToDate (s : App) : Prop :=
  total_amount (page s) = formatCurrency (db s) (totalOf (cart s) (page s)).

(** The cashier page on an empty cart, as it is once the discount box
    has been toggled off. *)
Definition freshCashier : App := toggleDiscount false emptyApp.

(** A sale rung up on a product that was deleted from the catalogue
    while it lay in the cart. *)
Definition deletedWhileInCart : App :=
  runEvents [ SaveProduct (productForm None "A" 10000 5 "") noon;
              Cart (AddToCart (sampleProduct 1 "A" 10000 5));
              DeleteProduct 1 true;
              EnterAmountReceived (Some 10000%Q) ] emptyApp.

(** What [validateProductForm] asks of the fields, said of a record. *)
Definition validProduct (p : Product) : Prop :=
  p_code p ≠ "" ∧ p_name p ≠ "" ∧ p_category p ≠ ""
  ∧ (0 <= p_price p)%Q ∧ (0 <= p_cost p)%Q
  ∧ 0 ≤ p_stock p ∧ 0 ≤ p_minStock p.

(** The shop of [oneProduct] with a second product, code [B]. *)
Definition twoProducts : App :=
  saveProduct (productForm None "B" 2500 8 "") noon oneProduct.

(** The [supplierId] of a product is not a number: it is [null] or the
    text of an option of the drop-down. *)
Definition textSupplier (p : Product) : Prop :=
  ∀ n, p_supplierId p ≠ Some (KNum n).

Definition textSuppliers (ps : ObjectStore Product) : Prop :=
  ∀ k p, records ps !! k = Some p → textSupplier p.

(** A backup file whose products are of that kind, as every file is that
    [backupData] wrote from such a database. *)
Definition plainFile (e : Event) : Prop :=
  match e with
  | RestoreData (Some b) _ =>
      match b_products b with
      | Some l => Forall textSupplier l
      | None => True
      end
  | _ => True
  end.


(** The first and the last second of 5 January 2024. *)
Definition dayStart : Time :=
  {| getFullYear := 2024; getMonth := 0; getDate := 5;
     getHours := 0; getMinutes := 0; getSeconds := 0 |}.

Definition dayEnd : Time :=
  {| getFullYear := 2024; getMonth := 0; getDate := 5;
     getHours := 23; getMinutes := 59; getSeconds := 59 |}.

(** A network without connection. *)
Definition offline : ServiceWorker.Network := λ _, None.

(** A network that answers every request alike. *)
Definition answering (response : ServiceWorker.Response)
  : ServiceWorker.Network := λ _, Some response.

Definition page200 (text : string) : ServiceWorker.Response :=
  {| ServiceWorker.status := 200; ServiceWorker.type := "basic";
     ServiceWorker.body := text |}.

Definition getRequest (u : string) : ServiceWorker.Request :=
  {| ServiceWorker.method := "GET"; ServiceWorker.url := u |}.


(* ===================================================================== *)
(** * Printing an amount and reading it back *)
(* ===================================================================== *)

Example formatWith_19800 :
  formatWith defaultCurrency (19800 # 1) = "Rp 19.800".
Proof. reflexivity. Qed.

Example formatWith_half :
  formatWith defaultCurrency (27 # 2) = "Rp 14".
Proof. reflexivity. Qed.

Example formatWith_million :
  formatWith defaultCurrency (1234567 # 1) = "Rp 1.234.567".
Proof. reflexivity. Qed.

Example formatWith_precision2 :
  formatWith {| symbol := "Rp"; decimal := None; separator := ",";
                precision := 2 |} (39601 # 2) = "Rp 19,800.50".
Proof. reflexivity. Qed.

Example parseTotalText_19800 : parseTotalText "Rp 19.800" = inject_Z 19800.
Proof. reflexivity. Qed.

Example generateInvoiceNumber_example :
  generateInvoiceNumber
    {| getFullYear := 2024; getMonth := 0; getDate := 5;
       getHours := 9; getMinutes := 30; getSeconds := 7 |}
  = "INV-240105-093007".
Proof. reflexivity. Qed.

Section Strings.

Lemma filterString_app f (a b : string) :
  filterString f (a +:+ b) = filterString f a +:+ filterString f b.
Proof.
  induction a as [|c a IH]; simpl; [reflexivity|].
  destruct (f c); simpl; rewrite IH; reflexivity.
Qed.

Lemma filterString_noDigit (s : string) :
  noDigit s → filterString isDigit s = "".
Proof.
  unfold noDigit. induction s as [|c s IH]; simpl; [reflexivity|].
  intros Hs. apply andb_prop in Hs as [Hc Hs].
  destruct (isDigit c); [discriminate|]. auto.
Qed.

Lemma filterString_all f (s : string) :
  allString f s = true → filterString f s = s.
Proof.
  induction s as [|c s IH]; simpl; [reflexivity|].
  intros Hs. apply andb_prop in Hs as [Hc Hs].
  rewrite Hc, IH by assumption. reflexivity.
Qed.

Lemma filterString_insertSeparators (sep : string) prev (s : string) :
  noDigit sep →
  filterString isDigit (insertSeparators sep prev s)
  = filterString isDigit s.
Proof.
  intros Hsep. revert prev.
  induction s as [|c s IH]; intros prev; simpl; [reflexivity|].
  rewrite filterString_app. simpl. rewrite IH.
  match goal with
  | |- filterString _ (if ?b then _ else _) +:+ _ = _ => destruct b
  end; simpl; [rewrite filterString_noDigit by assumption|]; reflexivity.
Qed.


End Strings.

Section Decimal.

Lemma allDigits_NilEmpty (d : uint) :
  allString isDigit (NilEmpty.string_of_uint d) = true.
Proof. induction d; simpl; auto. Qed.

Lemma allDigits_digits (n : Z) : allString isDigit (digits n) = true.
Proof.
  unfold digits, NilZero.string_of_uint.
  destruct (N.to_uint (Z.to_N n)) eqn:E; try reflexivity;
    rewrite <- E; apply allDigits_NilEmpty.
Qed.

Lemma to_uint_nonnil (n : N) : N.to_uint n ≠ Nil.
Proof.
  destruct n as [|p]; simpl; [discriminate|].
  apply DecimalPos.Unsigned.to_uint_nonnil.
Qed.

(** Reading the digits of a non-negative integer gives it back. *)
Lemma parseTotalText_digits (n : Z) :
  0 ≤ n → parseTotalText (digits n) = inject_Z n.
Proof.
  intros Hn. unfold parseTotalText.
  rewrite filterString_all by apply allDigits_digits.
  unfold digits. rewrite NilZero.usu by apply to_uint_nonnil.
  rewrite DecimalN.Unsigned.of_to, Z2N.id by assumption. reflexivity.
Qed.

End Decimal.

Lemma roundHalfUp_nonneg (x : Q) : (0 <= x)%Q → 0 ≤ roundHalfUp x.
Proof.
  intros Hx. unfold roundHalfUp.
  change 0 with (Qfloor 0). apply Qfloor_resp_le.
  apply Qle_trans with x; [assumption|].
  rewrite <- (Qplus_0_r x) at 1. apply Qplus_le_r. discriminate.
Qed.

Lemma roundHalfUp_integer (n : Z) : roundHalfUp (inject_Z n) = n.
Proof.
  unfold roundHalfUp, Qfloor, inject_Z, Qplus. simpl.
  rewrite Z.mul_1_r.
  replace (n * 2 + 1) with (1 + n * 2) by lia.
  rewrite Z.div_add by lia. reflexivity.
Qed.

(** The amount [processPayment] reads back from [#total-amount] once
    [formatCurrency] has printed [x] there, for a currency printed without
    decimals whose symbol and separator hold no digit: [x] without its
    sign, rounded to an integer. *)
Lemma parseTotalText_formatWith (c : Currency) (x : Q) :
  precision c = 0%nat → decimal c = None →
  noDigit (symbol c) → noDigit (separator c) →
  parseTotalText (formatWith c x) = inject_Z (roundHalfUp (Qabs x)).
Proof.
  intros Hp Hd Hsym Hsep.
  assert (Hr : roundHalfUp (Qabs x * inject_Z (10 ^ Z.of_nat 0))
               = roundHalfUp (Qabs x)).
  { unfold roundHalfUp. apply Qfloor_comp.
    change (inject_Z (10 ^ Z.of_nat 0)) with 1%Q.
    rewrite Qmult_1_r. reflexivity. }
  rewrite <- parseTotalText_digits
    by (apply roundHalfUp_nonneg, Qabs_nonneg).
  unfold parseTotalText at 1. f_equal.
  unfold formatWith. rewrite Hp, Hd. unfold toFixed, groupThousands.
  rewrite Hr.
  rewrite !filterString_app, filterString_insertSeparators by assumption.
  rewrite filterString_app, (filterString_noDigit (symbol c)) by assumption.
  destruct (Qltb x 0); reflexivity.
Qed.

Lemma noDigit_default :
  noDigit (symbol defaultCurrency) ∧ noDigit (separator defaultCurrency).
Proof. split; reflexivity. Qed.

(* ===================================================================== *)
(** * Totals *)
(* ===================================================================== *)

Lemma Qltb_lt (x y : Q) : Qltb x y = true ↔ (x < y)%Q.
Proof.
  unfold Qltb. rewrite negb_true_iff, <- not_true_iff_false, Qle_bool_iff.
  split; [apply Qnot_le_lt | apply Qlt_not_le].
Qed.

Lemma Qltb_ge (x y : Q) : Qltb x y = false ↔ (y <= x)%Q.
Proof.
  unfold Qltb. rewrite negb_false_iff, Qle_bool_iff. reflexivity.
Qed.




(** After [calculateTotal], what [processPayment] reads back from the
    page is the total without its sign, rounded to an integer, when the
    currency is printed without decimals. *)
Lemma displayed_total (s : App) :
  let c := default defaultCurrency (set_currency (settings (db s))) in
  precision c = 0%nat → decimal c = None →
  noDigit (symbol c) → noDigit (separator c) →
  parseTotalText (total_amount (page (calculateTotal s)))
  = inject_Z (roundHalfUp (Qabs (totalOf (cart s) (page s)))).
Proof.
  intros c Hp Hd Hsym Hsep. unfold calculateTotal, formatCurrency. simpl.
  apply parseTotalText_formatWith; assumption.
Qed.




(* ===================================================================== *)
(** * Payment refused *)
(* ===================================================================== *)

Lemma page_showToast message type s :
  toast (page (showToast message type s))
  = Some {| toast_message := message; toast_type := type |}.
Proof. reflexivity. Qed.

Lemma db_showToast message type s : db (showToast message type s) = db s.
Proof. reflexivity. Qed.

Lemma db_updateCart s : db (updateCart s) = db s.
Proof. reflexivity. Qed.

Lemma cart_updateCart s : cart (updateCart s) = cart s.
Proof. reflexivity. Qed.

(** [processPayment] with too small a payment. *)
Lemma processPayment_insufficient (now later : Time) (s : App) :
  cart s ≠ [] →
  (amountReceivedOf (page s) < parseTotalText (total_amount (page s)))%Q →
  processPayment now later s
  = showToast (toast_message InsufficientPayment)
      (toast_type InsufficientPayment) s.
Proof.
  intros Hcart Hlt. apply Qltb_lt in Hlt.
  unfold processPayment. destruct (cart s) eqn:Ec; [congruence|].
  rewrite Hlt. reflexivity.
Qed.



(** The same refusal in terms of the computed total: when the page shows
    the current total, the currency is printed without decimals and the
    total is a whole number that is not negative, a payment below the
    total is refused. *)
Lemma insufficient_payment_current_total (now later : Time) (s : App) (n : Z) :
  let c := default defaultCurrency (set_currency (settings (db s))) in
  precision c = 0%nat → decimal c = None →
  noDigit (symbol c) → noDigit (separator c) →
  cart s ≠ [] → 0 ≤ n →
  totalOf (cart s) (page s) == inject_Z n →
  (amountReceivedOf (page s) < inject_Z n)%Q →
  toast (page (processPayment now later (calculateTotal s)))
  = Some InsufficientPayment
  ∧ db (processPayment now later (calculateTotal s)) = db s.
Proof.
  intros c Hp Hd Hsym Hsep Hcart Hn Htot Hlt.
  assert (Hread : parseTotalText (total_amount (page (calculateTotal s)))
                  = inject_Z n).
  { rewrite displayed_total by assumption. f_equal.
    transitivity (roundHalfUp (inject_Z n)); [|apply roundHalfUp_integer].
    unfold roundHalfUp. apply Qfloor_comp. rewrite Htot.
    rewrite Qabs_pos; [reflexivity|].
    change 0%Q with (inject_Z 0). rewrite <- Zle_Qle. assumption. }
  rewrite processPayment_insufficient;
    [split; reflexivity | exact Hcart | rewrite Hread; exact Hlt].
Qed.

(* ===================================================================== *)
(** * The cart does not write *)
(* ===================================================================== *)

Lemma db_runCartOp (op : CartOp) (s : App) : db (runCartOp op s) = db s.
Proof.
  destruct op as [product|id|id|id quantity|id|confirmed]; simpl.
  - unfold addToCart.
    destruct (findItem _ _); [destruct (_ <? _)|destruct (_ <? _)];
      reflexivity.
  - unfold increaseQuantity.
    destruct (findItem _ _); [destruct (_ <? _)|]; reflexivity.
  - unfold decreaseQuantity.
    destruct (findItem _ _); [destruct (_ <? _)|]; reflexivity.
  - unfold updateQuantity, removeFromCart.
    destruct quantity as [q|]; [destruct (q <? 1)|];
      destruct (findItem _ _); try reflexivity;
      destruct (_ <=? _); reflexivity.
  - unfold removeFromCart. destruct (findItem _ _); reflexivity.
  - unfold clearCart. destruct (cart s); [|destruct confirmed]; reflexivity.
Qed.

Lemma db_runCartOps (ops : list CartOp) (s : App) :
  db (runCartOps ops s) = db s.
Proof.
  revert s. induction ops as [|op ops IH]; intros s; [reflexivity|].
  unfold runCartOps in *. simpl. rewrite IH. apply db_runCartOp.
Qed.

(** [processPayment] writes the transaction before any product: when its
    [add] is refused, nothing is written at all. *)
Lemma processPayment_refused_add (now later : Time) (s : App) :
  store_add (buildTransaction now s) (transactions (db s)) = None →
  db (processPayment now later s) = db s.
Proof.
  intros Hadd. unfold processPayment.
  destruct (cart s); [reflexivity|].
  destruct (Qltb _ _); [reflexivity|].
  rewrite Hadd. reflexivity.
Qed.

Lemma processPayment_db (now later : Time) (s : App) :
  db (processPayment now later s) = db s
  ∨ ∃ k ts,
      store_add (buildTransaction now s) (transactions (db s)) = Some (k, ts)
      ∧ (amountReceivedOf (page s)
           >= parseTotalText (total_amount (page s)))%Q
      ∧ cart s ≠ []
      ∧ db (processPayment now later s)
        = with_products
            (fst (updateStocks (cart s) (products (db s))))
            (with_transactions ts (db s)).
Proof.
  unfold processPayment.
  destruct (cart s) as [|item rest] eqn:Ec; [left; reflexivity|].
  destruct (Qltb _ _) eqn:El; [left; reflexivity|].
  destruct (store_add _ _) as [[k ts]|] eqn:Ea; [|left; reflexivity].
  right. exists k, ts. split; [reflexivity|].
  split; [apply Qltb_ge in El; exact El|]. split; [discriminate|].
  simpl. rewrite <- Ec.
  destruct (updateStocks (cart s) (products (db s))) as [ps fulfilled].
  destruct fulfilled; reflexivity.
Qed.

(** C10.  No handler of the cart writes to the database: after
    [addToCart], [increaseQuantity], [decreaseQuantity], [updateQuantity],
    [removeFromCart] or [clearCart], alone or in any sequence, every store
    (products, transactions, suppliers, settings, notifications) is as it
    was.  At the cashier the product stocks change only through
    [processPayment], and only once it has stored the sale: whenever the
    products differ after it, the transaction was added, the payment was
    sufficient and the cart was not empty. *)
Theorem C10_cart_operations_do_not_write :
  (∀ (op : CartOp) (s : App), db (runCartOp op s) = db s)
  ∧ (∀ (ops : list CartOp) (s : App),
       let s' := runCartOps ops s in
       products (db s') = products (db s)
       ∧ transactions (db s') = transactions (db s)
       ∧ suppliers (db s') = suppliers (db s)
       ∧ settings (db s') = settings (db s)
       ∧ notifications (db s') = notifications (db s))
  ∧ (∀ (now later : Time) (s : App),
       products (db (processPayment now later s)) ≠ products (db s) →
       cart s ≠ []
       ∧ (amountReceivedOf (page s)
            >= parseTotalText (total_amount (page s)))%Q
       ∧ ∃ k ts,
           store_add (buildTransaction now s) (transactions (db s))
           = Some (k, ts)
           ∧ transactions (db (processPayment now later s)) = ts).
Proof.
  split; [exact db_runCartOp|]. split.
  - intros ops s s'. subst s'. rewrite db_runCartOps.
    repeat split; reflexivity.
  - intros now later s Hne.
    destruct (processPayment_db now later s) as [Heq|(k & ts & Ha & Hge & Hc & Hdb)].
    + rewrite Heq in Hne. congruence.
    + split; [exact Hc|]. split; [exact Hge|].
      exists k, ts. split; [exact Ha|]. rewrite Hdb. reflexivity.
Qed.

(* ===================================================================== *)
(** * The lines of the cart *)
(* ===================================================================== *)

Section CartLines.
Variable P : CartItem → Prop.




End CartLines.









Example addToCart_twice_stock_1 :
  let s := runCartOps [AddToCart (sampleProduct 1 "A" 10000 1);
                       AddToCart (sampleProduct 1 "A" 10000 1)] emptyApp in
  map item_quantity (cart s) = [1]
  ∧ toast (page s) = Some InsufficientStock.
Proof. vm_compute. split; reflexivity. Qed.

Example restocked_tiles :
  records (products (db (runEvents
     [SaveProduct (productForm None "A" 10000 1 "") noon] emptyApp))) !! 1
  = Some (sampleProduct 1 "A" 10000 1)
  ∧ records (products (db restocked)) !! 1
    = Some (editedProduct 1 "A" 10000 5).
Proof. vm_compute. split; reflexivity. Qed.


(* ===================================================================== *)
(** * Object stores *)
(* ===================================================================== *)

#[global] Instance Product_schema_ok : SchemaOk Product.
Proof.
  split; [reflexivity| |reflexivity].
  intros k [] Hk; simpl in *; subst; reflexivity.
Qed.

#[global] Instance Supplier_schema_ok : SchemaOk Supplier.
Proof.
  split; [reflexivity| |reflexivity].
  intros k [] Hk; simpl in *; subst; reflexivity.
Qed.

#[global] Instance Transaction_schema_ok : SchemaOk Transaction.
Proof.
  split; [reflexivity| |reflexivity].
  intros k [] Hk; simpl in *; subst; reflexivity.
Qed.

#[global] Instance Notification_schema_ok : SchemaOk Notification.
Proof.
  split; [reflexivity| |reflexivity].
  intros k [] Hk; simpl in *; subst; reflexivity.
Qed.

Section StoreFacts.
Context {R : Type} `{SchemaOk R}.

Lemma uniqueClash_true (st : ObjectStore R) k k' r r' :
  records st !! k' = Some r' → k' ≠ k →
  is_Some (uniqueOf r) → uniqueOf r' = uniqueOf r →
  uniqueClash st k r = true.
Proof.
  intros Hl Hne Hs He. unfold uniqueClash. apply bool_decide_eq_true.
  apply map_Exists_lookup. exists k', r'. auto.
Qed.

Lemma uniqueClash_false (st : ObjectStore R) k r :
  (∀ k' r', records st !! k' = Some r' → k' ≠ k →
            is_Some (uniqueOf r) → uniqueOf r' ≠ uniqueOf r) →
  uniqueClash st k r = false.
Proof.
  intros Hno. unfold uniqueClash. apply bool_decide_eq_false.
  rewrite map_Exists_lookup. intros (k' & r' & Hl & Hne & Hs & He).
  exact (Hno k' r' Hl Hne Hs He).
Qed.

(** A record whose unique index key is already in the store cannot be
    added. *)
Lemma store_add_duplicate (st : ObjectStore R) k' r r' :
  records st !! k' = Some r' →
  is_Some (uniqueOf r) → uniqueOf r' = uniqueOf r →
  store_add r st = None.
Proof.
  intros Hl Hs He. unfold store_add.
  set (k := default (keyGenerator st) (keyOf r)).
  destruct (decide (k' = k)) as [->|Hne].
  - rewrite bool_decide_eq_true_2 by (rewrite Hl; eauto). reflexivity.
  - rewrite (uniqueClash_true st k k' r r') by assumption.
    rewrite orb_true_r. reflexivity.
Qed.


End StoreFacts.

(* ===================================================================== *)
(** * Duplicate codes *)
(* ===================================================================== *)

Lemma saveProduct_valid (f : ProductForm) (now : Time) (s : App) :
  productFormErrors f = [] → f_id f = None →
  saveProduct f now s
  = match store_add (withCreatedAt (DateObj now) (productOfForm f now))
            (products (db s)) with
    | Some (_, ps) =>
        showToast "Produk berhasil ditambahkan" "success"
          (with_db (with_products ps (db s)) s)
    | None => showError (fst CodeTaken) (snd CodeTaken) s
    end.
Proof.
  intros He Hid. unfold saveProduct, validateProductForm.
  rewrite He, Hid. reflexivity.
Qed.

Lemma saveSupplier_valid (f : SupplierForm) (now : Time) (s : App) :
  supplierFormErrors f = [] → sf_id f = None →
  saveSupplier f now s
  = match store_add (supplierCreatedAt (DateObj now) (supplierOfForm f now))
            (suppliers (db s)) with
    | Some (_, ss) =>
        showToast "Supplier berhasil ditambahkan" "success"
          (with_db (with_suppliers ss (db s)) s)
    | None =>
        showError (fst SupplierCodeTaken) (snd SupplierCodeTaken) s
    end.
Proof.
  intros He Hid. unfold saveSupplier, validateSupplierForm.
  rewrite He, Hid. reflexivity.
Qed.

(** C9.  When a product with code [c] is stored, saving a new product
    (no id in the form, all fields valid) whose code is [c] is refused by
    the store with a [ConstraintError]; [saveProduct] shows it as the
    message of the code field, and the database, hence the number of
    products, is as before.  The same holds for suppliers with
    [saveSupplier]. *)
Theorem C9_duplicate_code_rejected :
  (∀ (f : ProductForm) (now : Time) (s : App) (k : Z) (p : Product),
     productFormErrors f = [] → f_id f = None →
     records (products (db s)) !! k = Some p →
     p_code p = trim (f_code f) →
     let s' := saveProduct f now s in
     store_add (withCreatedAt (DateObj now) (productOfForm f now))
       (products (db s)) = None
     ∧ errors (page s') !! "code-error"
       = Some "Kode produk sudah digunakan"
     ∧ db s' = db s
     ∧ store_count (products (db s')) = store_count (products (db s)))
  ∧ (∀ (f : SupplierForm) (now : Time) (s : App) (k : Z) (v : Supplier),
       supplierFormErrors f = [] → sf_id f = None →
       records (suppliers (db s)) !! k = Some v →
       s_code v = trim (sf_code f) →
       let s' := saveSupplier f now s in
       store_add (supplierCreatedAt (DateObj now) (supplierOfForm f now))
         (suppliers (db s)) = None
       ∧ errors (page s') !! "supplier-code-error"
         = Some "Kode supplier sudah digunakan"
       ∧ db s' = db s
       ∧ store_count (suppliers (db s')) = store_count (suppliers (db s))).
Proof.
  split.
  - intros f now s k p He Hid Hl Hc s'.
    assert (Hadd : store_add (withCreatedAt (DateObj now)
                                (productOfForm f now))
                     (products (db s)) = None).
    { apply store_add_duplicate with k p;
        [exact Hl | simpl; eauto | simpl; congruence]. }
    subst s'. rewrite saveProduct_valid, Hadd by assumption.
    split; [reflexivity|]. split; [apply lookup_insert_eq|].
    split; reflexivity.
  - intros f now s k v He Hid Hl Hc s'.
    assert (Hadd : store_add (supplierCreatedAt (DateObj now)
                                (supplierOfForm f now))
                     (suppliers (db s)) = None).
    { apply store_add_duplicate with k v;
        [exact Hl | simpl; eauto | simpl; congruence]. }
    subst s'. rewrite saveSupplier_valid, Hadd by assumption.
    split; [reflexivity|]. split; [apply lookup_insert_eq|].
    split; reflexivity.
Qed.

Example oneProduct_stored :
  records (products (db oneProduct)) !! 1
  = Some (sampleProduct 1 "A" 10000 5)
  ∧ store_count (products (db oneProduct)) = 1%nat.
Proof. vm_compute. split; reflexivity. Qed.

Lemma C9_duplicate_code_witness :
  errors (page (saveProduct (productForm None "A" 500 3 "") noon oneProduct))
    !! "code-error" = Some "Kode produk sudah digunakan"
  ∧ store_count
      (products (db (saveProduct (productForm None "A" 500 3 "") noon
                       oneProduct))) = 1%nat.
Proof.
  destruct C9_duplicate_code_rejected as [Hp _].
  destruct (Hp (productForm None "A" 500 3 "") noon oneProduct 1
              (withKey 1 (withCreatedAt (DateObj noon)
                 (productOfForm (productForm None " A " 10000 5 "") noon))))
    as (_ & He & _ & Hc); try reflexivity.
  split; [exact He | exact Hc].
Defined.

(* ===================================================================== *)
(** * A sale *)
(* ===================================================================== *)

Section Shape.
Context {R : Type} `{SchemaOk R}.






End Shape.

Lemma findItem_None id (c : list CartItem) :
  id ∉ map item_id c → findItem id c = None.
Proof.
  unfold findItem. induction c as [|x c IH]; simpl; intros Hn;
    [reflexivity|].
  rewrite not_elem_of_cons in Hn. destruct Hn as [Hx Hc].
  unfold sameId at 1. rewrite bool_decide_eq_false_2 by congruence.
  apply IH, Hc.
Qed.






Example readyToPay_page :
  total_amount (page readyToPay) = "Rp 20.000"
  ∧ map item_quantity (cart readyToPay) = [2].
Proof. vm_compute. split; reflexivity. Qed.



Example secondSale_tile :
  records (products (db (processPayment noon noon readyToPay))) !! 1
  = Some (sampleProduct 1 "A" 10000 3)
  ∧ current_invoice (page readyToPay) = "INV-240105-120000"
  ∧ current_invoice (page secondSale) = "INV-240105-120000".
Proof. vm_compute. repeat split; reflexivity. Qed.


(* ===================================================================== *)
(** * The figures of a stored sale *)
(* ===================================================================== *)

(** The change stored with a sale is the amount received less the total
    read from the page, and it is not negative. *)
Lemma stored_change (now later : Time) (s : App) :
  let t := buildTransaction now s in
  db (processPayment now later s) ≠ db s →
  t_change t == t_amountReceived t - t_total t ∧ (0 <= t_change t)%Q.
Proof.
  intros t Hne. subst t. simpl. split; [reflexivity|].
  destruct (processPayment_db now later s)
    as [Heq|(k & ts & _ & Hge & _)]; [contradiction|].
  apply Qge_alt in Hge. unfold Qminus.
  rewrite <- Qle_minus_iff. apply Qge_alt. exact Hge.
Qed.

Example taxUnchecked_page :
  tax_toggle (page taxUnchecked) = false
  ∧ total_amount (page taxUnchecked) = "Rp 22.000"
  ∧ totalOf (cart taxUnchecked) (page taxUnchecked) == 20000.
Proof. vm_compute. repeat split; reflexivity. Qed.

Example discountedSale_page :
  total_amount (page discountedSale) = "Rp 14"
  ∧ totalOf (cart discountedSale) (page discountedSale) == 27 # 2.
Proof. vm_compute. split; reflexivity. Qed.

(** C4 fails on the script: the total of a stored sale is not computed
    from its subtotal, discount and tax but read back from the text of
    [#total-amount].  The sale of [taxUnchecked] is stored with subtotal
    20000, discount 0, tax 0 and total 22000, because unchecking the tax
    box does not reprint the total.  The sale of [discountedSale], where
    the page is current, is stored with subtotal 15, discount 1.5, tax 0
    and total 14, because the text is printed without decimals.  In both
    the change is the amount received less the stored total. *)
Theorem C4_total_read_from_page :
  (∃ t discount tax,
     records (transactions (db (processPayment noon noon taxUnchecked))) !! 1
     = Some t
     ∧ t_subtotal t == 20000
     ∧ t_discount t = Num discount ∧ discount == 0
     ∧ t_tax t = Num tax ∧ tax == 0
     ∧ t_total t == 22000
     ∧ ¬ (t_total t == t_subtotal t - discount + tax)
     ∧ t_change t == t_amountReceived t - t_total t)
  ∧ (∃ t discount tax,
       records (transactions (db (processPayment noon noon discountedSale)))
         !! 1 = Some t
       ∧ t_subtotal t == 15
       ∧ t_discount t = Num discount ∧ discount == 3 # 2
       ∧ t_tax t = Num tax ∧ tax == 0
       ∧ t_total t == 14
       ∧ ¬ (t_total t == t_subtotal t - discount + tax)
       ∧ t_change t == t_amountReceived t - t_total t).
Proof.
  split; eexists _, _, _; vm_compute;
    repeat (split; [reflexivity|]);
    (split; [discriminate | reflexivity]).
Qed.

(* ===================================================================== *)
(** * Stock below zero *)
(* ===================================================================== *)

(** C6 fails on the script.  The form refuses a negative stock, but
    [processPayment] lowers the stored stock by the quantity of the line
    without looking at it: after the sale of [oversold], which succeeds,
    the product has stock -3. *)
Theorem C6_stock_negative_after_sale :
  (p_stock <$> records (products (db oversold)) !! 1) = Some 2
  ∧ map item_quantity (cart oversold) = [5]
  ∧ Forall (λ item, 1 ≤ item_quantity item ≤ item_stock item) (cart oversold)
  ∧ toast (page (processPayment noon noon oversold)) = Some PaymentDone
  ∧ (p_stock <$> records (products (db (processPayment noon noon oversold)))
       !! 1) = Some (-3).
Proof.
  split; [vm_compute; reflexivity|]. split; [vm_compute; reflexivity|].
  split; [repeat constructor; vm_compute; discriminate|].
  split; vm_compute; reflexivity.
Qed.

Lemma db_showErrors (es : list (string * string)) (s : App) :
  db (showErrors es s) = db s.
Proof.
  unfold showErrors. revert s.
  induction es as [|e es IH]; intros s; [reflexivity|].
  simpl. rewrite IH. reflexivity.
Qed.

(** The form itself never stores a negative stock. *)
Lemma saveProduct_stock_nonneg (f : ProductForm) (now : Time) (s : App) :
  db (saveProduct f now s) ≠ db s →
  0 ≤ p_stock (productOfForm f now)
  ∧ ∃ k ps,
      products (db (saveProduct f now s)) = ps
      ∧ (p_stock <$> records ps !! k) = Some (p_stock (productOfForm f now))
      ∧ ∀ k', k' ≠ k →
              records ps !! k' = records (products (db s)) !! k'.
Proof.
  unfold saveProduct, validateProductForm.
  destruct (productFormErrors f) as [|e es] eqn:Ee.
  2:{ intros Hne. exfalso. apply Hne.
      exact (db_showErrors (e :: es) s). }
  simpl.
  assert (Hs : 0 ≤ p_stock (productOfForm f now)).
  { unfold productFormErrors, checkNumber in Ee.
    repeat (apply app_eq_nil in Ee as [? Ee]).
    simpl. destruct (f_stock f) as [x|]; [|discriminate].
    simpl. destruct (x <? 0) eqn:Ex; [discriminate|].
    apply Z.ltb_ge in Ex. exact Ex. }
  destruct (f_id f) as [id|].
  - unfold store_put. simpl.
    destruct (uniqueClash _ _ _); simpl; [intros Hne; contradiction|].
    intros _. split; [exact Hs|]. eexists id, _. split; [reflexivity|].
    simpl. split; [rewrite lookup_insert_eq; reflexivity|].
    intros k' Hk'. apply lookup_insert_ne. congruence.
  - unfold store_add. simpl.
    destruct (_ || _); simpl; [intros Hne; contradiction|].
    intros _. split; [exact Hs|]. eexists _, _. split; [reflexivity|].
    simpl. split; [rewrite lookup_insert_eq; reflexivity|].
    intros k' Hk'. apply lookup_insert_ne. congruence.
Qed.

(* ===================================================================== *)
(** * Deleting a supplier *)
(* ===================================================================== *)

(** What [deleteSupplier] does: once confirmed, it refuses exactly when
    the index holds the number [id] for some product, and otherwise
    removes the supplier. *)
Lemma deleteSupplier_count (id : Z) (s : App) :
  let s' := deleteSupplier id true s in
  ((0 < countBySupplierId (KNum id) (products (db s)))%nat →
   toast (page s') = Some ReferentialBlock ∧ db s' = db s)
  ∧ (countBySupplierId (KNum id) (products (db s)) = 0%nat →
     toast (page s') = Some SupplierDeleted
     ∧ records (suppliers (db s')) !! id = None
     ∧ (∀ k, k ≠ id → records (suppliers (db s')) !! k
                      = records (suppliers (db s)) !! k)
     ∧ products (db s') = products (db s)).
Proof.
  intros s'. subst s'. unfold deleteSupplier. split.
  - intros Hc. apply Nat.ltb_lt in Hc. rewrite Hc. split; reflexivity.
  - intros Hc. rewrite Hc. simpl. split; [reflexivity|].
    split; [apply lookup_delete_eq|]. split; [|reflexivity].
    intros k Hk. apply lookup_delete_ne. congruence.
Qed.

(** The product form stores the value of the drop-down, a string, and
    never a number. *)
Lemma productOfForm_supplierId (f : ProductForm) (now : Time) (id : Z) :
  p_supplierId (productOfForm f now) ≠ Some (KNum id).
Proof. simpl. destruct (isEmpty (f_supplier f)); discriminate. Qed.

(** C7 fails on the script.  In [supplied] the product references
    supplier 1, yet [deleteSupplier(1)] finds no product for it, because
    it asks the index for the number 1 while the product form stored the
    string ["1"]: the supplier is deleted and the product keeps pointing
    at it. *)
Theorem C7_referenced_supplier_deleted :
  (s_code <$> records (suppliers (db supplied)) !! 1) = Some "S1"
  ∧ (p_supplierId <$> records (products (db supplied)) !! 1)
    = Some (Some (KStr "1"))
  ∧ countBySupplierId (KStr "1") (products (db supplied)) = 1%nat
  ∧ countBySupplierId (KNum 1) (products (db supplied)) = 0%nat
  ∧ toast (page (deleteSupplier 1 true supplied)) = Some SupplierDeleted
  ∧ records (suppliers (db (deleteSupplier 1 true supplied))) !! 1 = None
  ∧ (p_supplierId <$>
       records (products (db (deleteSupplier 1 true supplied))) !! 1)
    = Some (Some (KStr "1")).
Proof. vm_compute. repeat split; reflexivity. Qed.

(* ===================================================================== *)
(** * Backup and restore *)
(* ===================================================================== *)

(** Neither [backupData] nor [restoreData] touches the notifications: the
    backup has no entry for them and the restore leaves them alone. *)
Lemma restoreDB_notifications (file : Backup) (d : DB) :
  notifications (fst (restoreDB file d)) = notifications d.
Proof.
  unfold restoreDB.
  destruct (restoreStore (b_products file) _),
    (restoreStore (b_transactions file) _),
    (restoreStore (b_suppliers file) _),
    (restoreSettings _). reflexivity.
Qed.

Lemma backupData_notifications (d : DB) (ns : ObjectStore Notification) :
  backupData {| products := products d; transactions := transactions d;
                suppliers := suppliers d; settings := settings d;
                notifications := ns |} = backupData d.
Proof. reflexivity. Qed.

(** C8 fails on the script.  The backup of [afterSale] is written as
    JSON, in which a [Date] is a string; restored, the sale and the
    product carry strings where they carried dates, so the content of the
    collections is not what it was (and the [date] index, queried with
    [Date] bounds by the reports, no longer finds the sale).  Keys,
    and every field that is not a date, come back as they were; the
    notifications are left out of both directions. *)
Theorem C8_restore_turns_dates_into_strings :
  let restored := restoreDB (jsonRoundTrip (backupData afterSale)) afterSale in
  snd restored = true
  ∧ (t_date <$> records (transactions afterSale) !! 1) = Some (DateObj noon)
  ∧ (t_date <$> records (transactions (fst restored)) !! 1)
    = Some (DateStr noon)
  ∧ (p_updatedAt <$> records (products afterSale) !! 1) = Some (DateObj noon)
  ∧ (p_updatedAt <$> records (products (fst restored)) !! 1)
    = Some (DateStr noon)
  ∧ content (fst restored) ≠ content afterSale
  ∧ records (transactions (fst restored))
    = jsonTransaction <$> records (transactions afterSale)
  ∧ records (products (fst restored))
    = jsonProduct <$> records (products afterSale)
  ∧ notifications (fst restored) = notifications afterSale.
Proof.
  intros restored. subst restored.
  split; [vm_compute; reflexivity|].
  split; [vm_compute; reflexivity|].
  split; [vm_compute; reflexivity|].
  split; [vm_compute; reflexivity|].
  split; [vm_compute; reflexivity|].
  split.
  { intros He.
    assert (Ht : (t_date <$> (content (fst
                    (restoreDB (jsonRoundTrip (backupData afterSale))
                       afterSale))).1.1.2 !! 1)
                 = (t_date <$> (content afterSale).1.1.2 !! 1))
      by (rewrite He; reflexivity).
    vm_compute in Ht. discriminate. }
  split; [vm_compute; reflexivity|].
  split; [vm_compute; reflexivity|].
  apply restoreDB_notifications.
Qed.

(** ** What a restore of a backup reproduces *)

Section RoundTrip.
Context {R : Type} `{SchemaOk R}.
Variable json : R → R.
Hypothesis json_key : ∀ r, keyOf (json r) = keyOf r.
Hypothesis json_unique : ∀ r, uniqueOf (json r) = uniqueOf r.

(** A list of records with distinct keys and distinct unique index keys,
    none of them in the store yet, is added in full; the store then holds
    these records under their keys, next to what it held. *)
Lemma addAll_spec (l : list R) (st : ObjectStore R) :
  NoDup (keyOf <$> l) →
  (∀ r, r ∈ l → ∃ k, keyOf r = Some k ∧ records st !! k = None) →
  (∀ r k' r', r ∈ l → records st !! k' = Some r' →
              is_Some (uniqueOf r) → uniqueOf r' ≠ uniqueOf r) →
  (∀ r1 r2, r1 ∈ l → r2 ∈ l → is_Some (uniqueOf r1) →
            uniqueOf r1 = uniqueOf r2 → keyOf r1 = keyOf r2) →
  ∃ st', addAll l st = Some st'
         ∧ ∀ k r, records st' !! k = Some r
                  ↔ (r ∈ l ∧ keyOf r = Some k) ∨ records st !! k = Some r.
Proof.
  revert st. induction l as [|r l IH]; intros st Hnd Hkeys Hold Hpair.
  - exists st. split; [reflexivity|]. intros k r. split; [auto|].
    intros [[Hin _]|Hl]; [apply elem_of_nil in Hin; contradiction|exact Hl].
  - rewrite fmap_cons in Hnd. apply NoDup_cons in Hnd as [Hfresh Hnd].
    destruct (Hkeys r) as (k & Hk & Hfree); [left|].
    assert (Hadd : store_add r st = Some (k, stored st k r)).
    { unfold store_add. rewrite Hk. simpl.
      rewrite bool_decide_eq_false_2 by (rewrite Hfree; apply is_Some_None).
      rewrite uniqueClash_false; [reflexivity|].
      intros k' r' Hl _ Hs. apply (Hold r k' r'); [left|exact Hl|exact Hs]. }
    assert (Hother : ∀ r2, r2 ∈ l → keyOf r2 ≠ Some k).
    { intros r2 Hin He. apply Hfresh. rewrite Hk, <- He.
      apply list_elem_of_fmap. exists r2. split; [reflexivity|exact Hin]. }
    destruct (IH (stored st k r)) as (st' & Hall & Hrec).
    + exact Hnd.
    + intros r2 Hin. destruct (Hkeys r2) as (k2 & Hk2 & Hfree2); [by right|].
      exists k2. split; [exact Hk2|]. simpl.
      rewrite lookup_insert_ne; [exact Hfree2|].
      intros ->. exact (Hother r2 Hin Hk2).
    + intros r2 k' r' Hin Hl Hs. simpl in Hl.
      destruct (decide (k = k')) as [<-|Hne].
      * rewrite lookup_insert_eq in Hl. inversion Hl; subst r'.
        rewrite uniqueOf_withKey. intros He.
        apply (Hother r2 Hin). rewrite <- Hk.
        apply Hpair; [by right | left | exact Hs | congruence].
      * rewrite lookup_insert_ne in Hl by exact Hne.
        apply (Hold r2 k' r'); [by right | exact Hl | exact Hs].
    + intros r1 r2 H1 H2. apply Hpair; by right.
    + exists st'. simpl. rewrite Hadd. split; [exact Hall|].
      intros k0 x. rewrite Hrec. simpl.
      rewrite (withKey_same k r Hk). split.
      * intros [[Hin Hx]|Hl]; [left; split; [by right|exact Hx]|].
        destruct (decide (k = k0)) as [<-|Hne].
        -- rewrite lookup_insert_eq in Hl. inversion Hl; subst x.
           left. split; [left|exact Hk].
        -- rewrite lookup_insert_ne in Hl by exact Hne. right. exact Hl.
      * intros [[Hin Hx]|Hl].
        -- apply elem_of_cons in Hin as [->|Hin].
           ++ right. assert (k0 = k) as -> by congruence.
              apply lookup_insert_eq.
           ++ left. split; assumption.
        -- right. rewrite lookup_insert_ne; [exact Hl|].
           intros ->. rewrite Hfree in Hl. discriminate.
Qed.

Lemma elem_of_getAll (st : ObjectStore R) (r : R) :
  r ∈ getAll st ↔ ∃ k, records st !! k = Some r.
Proof.
  unfold getAll. rewrite list_elem_of_fmap. split.
  - intros ([k r'] & -> & Hin). exists k.
    rewrite merge_sort_Permutation in Hin.
    apply elem_of_map_to_list in Hin. exact Hin.
  - intros (k & Hl). exists (k, r). split; [reflexivity|].
    rewrite merge_sort_Permutation. apply elem_of_map_to_list, Hl.
Qed.

Lemma keys_of_pairs (l : list (Z * R)) :
  Forall (λ x, keyOf (snd x) = Some (fst x)) l →
  keyOf <$> l.*2 = Some <$> l.*1.
Proof.
  induction 1 as [|x l Hx _ IH]; [reflexivity|].
  rewrite !fmap_cons, Hx, IH. reflexivity.
Qed.

Lemma NoDup_keys_getAll (st : ObjectStore R) :
  store_wf st → NoDup (keyOf <$> getAll st).
Proof.
  intros Hwf. unfold getAll. rewrite keys_of_pairs.
  - apply (NoDup_fmap_2 Some).
    rewrite merge_sort_Permutation. apply NoDup_fst_map_to_list.
  - apply Forall_forall. intros [k r] Hin.
    rewrite merge_sort_Permutation in Hin.
    apply elem_of_map_to_list in Hin. apply Hwf in Hin as [Hk _]. exact Hk.
Qed.

(** Restoring what was backed up from a store gives the image of its
    records under JSON, key by key, whatever the store held before. *)
Lemma restoreStore_backup (st st0 : ObjectStore R) :
  store_wf st → unique_wf st →
  ∃ st', restoreStore (Some (map json (getAll st))) st0 = (st', true)
         ∧ records st' = json <$> records st.
Proof.
  intros Hwf Hu. unfold restoreStore.
  destruct (addAll_spec (map json (getAll st)) (store_clear st0))
    as (st' & Hall & Hrec).
  - change (map json (getAll st)) with (json <$> getAll st).
    rewrite <- list_fmap_compose.
    rewrite (list_fmap_ext (keyOf ∘ json) keyOf (getAll st))
      by (intros; apply json_key).
    apply NoDup_keys_getAll, Hwf.
  - intros r Hin. apply list_elem_of_fmap in Hin as (r0 & -> & Hin).
    apply elem_of_getAll in Hin as (k & Hl).
    exists k. split; [|apply lookup_empty].
    rewrite json_key. apply Hwf in Hl as [Hk _]. exact Hk.
  - intros r k' r' _ Hl. simpl in Hl. rewrite lookup_empty in Hl.
    discriminate.
  - intros r1 r2 H1 H2 Hs He.
    apply list_elem_of_fmap in H1 as (a & -> & Ha).
    apply list_elem_of_fmap in H2 as (b & -> & Hb).
    apply elem_of_getAll in Ha as (ka & Hla).
    apply elem_of_getAll in Hb as (kb & Hlb).
    rewrite !json_key. rewrite !json_unique in *.
    destruct (Hwf ka a Hla) as [-> _]. destruct (Hwf kb b Hlb) as [-> _].
    f_equal. exact (Hu ka kb a b Hla Hlb Hs He).
  - exists st'. rewrite Hall. split; [reflexivity|].
    apply map_eq. intros k. apply option_eq. intros r.
    rewrite Hrec, lookup_fmap_Some. simpl. rewrite lookup_empty. split.
    + intros [[Hin Hk]|Hl]; [|discriminate].
      apply list_elem_of_fmap in Hin as (r0 & -> & Hin).
      apply elem_of_getAll in Hin as (k0 & Hl0).
      exists r0. split; [reflexivity|].
      rewrite json_key in Hk. destruct (Hwf k0 r0 Hl0) as [Hk0 _].
      assert (k0 = k) as <- by congruence. exact Hl0.
    + intros (r0 & <- & Hl0). left. split.
      * apply list_elem_of_fmap. exists r0. split; [reflexivity|].
        apply elem_of_getAll. eauto.
      * rewrite json_key. apply Hwf in Hl0 as [Hk _]. exact Hk.
Qed.
End RoundTrip.

Lemma restoreSettings_backup (st : SettingsStore) :
  restoreSettings (Some (getAllSettings st)) = (st, true).
Proof.
  destruct st as [[a|] [b|] [c|] [d|]]; reflexivity.
Qed.

(** Backup, then restore over any database [d0]: every refill completes,
    and each product, transaction and supplier comes back under its key
    as JSON gives it back, that is with its dates as strings and [NaN] as
    [null]; the settings come back as they were; the notifications of
    [d0] stay. *)
Theorem restore_backup (d d0 : DB) :
  db_wf d →
  let restored := restoreDB (jsonRoundTrip (backupData d)) d0 in
  snd restored = true
  ∧ records (products (fst restored)) = jsonProduct <$> records (products d)
  ∧ records (transactions (fst restored))
    = jsonTransaction <$> records (transactions d)
  ∧ records (suppliers (fst restored))
    = jsonSupplier <$> records (suppliers d)
  ∧ settings (fst restored) = settings d
  ∧ notifications (fst restored) = notifications d0.
Proof.
  intros (Hp & Hpu & Ht & Htu & Hs & Hsu) restored. subst restored.
  unfold restoreDB, jsonRoundTrip, backupData.
  cbn [b_products b_transactions b_suppliers b_settings
       fmap option_fmap option_map].
  destruct (restoreStore_backup jsonProduct) with (st := products d)
    (st0 := products d0) as (ps & -> & Hps); [reflexivity..|assumption|assumption|].
  destruct (restoreStore_backup jsonTransaction) with (st := transactions d)
    (st0 := transactions d0) as (ts & -> & Hts);
    [reflexivity..|assumption|assumption|].
  destruct (restoreStore_backup jsonSupplier) with (st := suppliers d)
    (st0 := suppliers d0) as (ss & -> & Hss);
    [reflexivity..|assumption|assumption|].
  rewrite restoreSettings_backup. simpl.
  repeat split; assumption.
Qed.

(** So the round trip is the identity on a dataset that holds no [Date]
    object and no [NaN]. *)
Corollary restore_backup_without_dates (d d0 : DB) :
  db_wf d →
  (∀ k p, records (products d) !! k = Some p → jsonProduct p = p) →
  (∀ k t, records (transactions d) !! k = Some t → jsonTransaction t = t) →
  (∀ k v, records (suppliers d) !! k = Some v → jsonSupplier v = v) →
  content (fst (restoreDB (jsonRoundTrip (backupData d)) d0)) = content d.
Proof.
  intros Hwf Hp Ht Hs.
  destruct (restore_backup d d0 Hwf) as (_ & Hps & Hts & Hss & Hset & _).
  unfold content. rewrite Hps, Hts, Hss, Hset.
  assert (Hid : ∀ (A : Type) (f : A → A) (m : gmap Z A),
            (∀ k x, m !! k = Some x → f x = x) → f <$> m = m).
  { intros A f m Hf. apply map_eq. intros k. rewrite lookup_fmap.
    destruct (m !! k) as [x|] eqn:E; [|reflexivity].
    simpl. rewrite (Hf k x E). reflexivity. }
  rewrite !Hid by assumption. reflexivity.
Qed.

(* ===================================================================== *)
(** * Well-formed stores are all the application ever sees *)
(* ===================================================================== *)

Section Preservation.
Context {R : Type} `{SchemaOk R}.

Lemma emptyStore_wf : store_wf (emptyStore : ObjectStore R).
Proof. intros k r Hl. simpl in Hl. rewrite lookup_empty in Hl. discriminate. Qed.

Lemma emptyStore_unique : unique_wf (emptyStore : ObjectStore R).
Proof.
  intros k k' r r' Hl. simpl in Hl. rewrite lookup_empty in Hl. discriminate.
Qed.

Lemma stored_wf (st : ObjectStore R) k r :
  store_wf st → store_wf (stored st k r).
Proof.
  intros Hwf k' r' Hl. simpl in *.
  destruct (decide (k = k')) as [<-|Hne].
  - rewrite lookup_insert_eq in Hl. inversion Hl; subst r'.
    split; [apply keyOf_withKey | lia].
  - rewrite lookup_insert_ne in Hl by exact Hne.
    destruct (Hwf k' r' Hl). split; [assumption | lia].
Qed.

Lemma stored_unique (st : ObjectStore R) k r :
  unique_wf st → uniqueClash st k r = false → unique_wf (stored st k r).
Proof.
  intros Hu Hc. unfold uniqueClash in Hc. apply bool_decide_eq_false in Hc.
  rewrite map_Exists_lookup in Hc.
  intros k1 k2 r1 r2 H1 H2 Hs He. simpl in H1, H2.
  destruct (decide (k = k1)) as [<-|N1]; destruct (decide (k = k2)) as [<-|N2];
    try reflexivity.
  - rewrite lookup_insert_eq in H1. rewrite lookup_insert_ne in H2 by exact N2.
    inversion H1; subst r1. rewrite uniqueOf_withKey in *.
    exfalso. apply Hc. exists k2, r2. split; [exact H2|].
    split; [congruence|]. split; [exact Hs | congruence].
  - rewrite lookup_insert_eq in H2. rewrite lookup_insert_ne in H1 by exact N1.
    inversion H2; subst r2. rewrite uniqueOf_withKey in *.
    exfalso. apply Hc. exists k1, r1. split; [exact H1|].
    split; [congruence|]. split; [rewrite <- He; exact Hs | exact He].
  - rewrite lookup_insert_ne in H1 by exact N1.
    rewrite lookup_insert_ne in H2 by exact N2.
    exact (Hu k1 k2 r1 r2 H1 H2 Hs He).
Qed.

Lemma store_add_wf (st st' : ObjectStore R) r k :
  store_wf st → unique_wf st → store_add r st = Some (k, st') →
  store_wf st' ∧ unique_wf st'.
Proof.
  intros Hwf Hu. unfold store_add.
  destruct (bool_decide _); simpl; [discriminate|].
  destruct (uniqueClash _ _ _) eqn:Ec; [discriminate|].
  intros Hs. inversion Hs; subst.
  split; [apply stored_wf | apply stored_unique]; assumption.
Qed.

Lemma store_put_wf (st st' : ObjectStore R) r k :
  store_wf st → unique_wf st → store_put r st = Some (k, st') →
  store_wf st' ∧ unique_wf st'.
Proof.
  intros Hwf Hu. unfold store_put.
  destruct (uniqueClash _ _ _) eqn:Ec; [discriminate|].
  intros Hs. inversion Hs; subst.
  split; [apply stored_wf | apply stored_unique]; assumption.
Qed.

Lemma store_delete_wf (st : ObjectStore R) k :
  store_wf st → unique_wf st →
  store_wf (store_delete k st) ∧ unique_wf (store_delete k st).
Proof.
  intros Hwf Hu. split.
  - intros k' r Hl. simpl in Hl. apply lookup_delete_Some in Hl as [_ Hl].
    exact (Hwf k' r Hl).
  - intros k1 k2 r1 r2 H1 H2. simpl in H1, H2.
    apply lookup_delete_Some in H1 as [_ H1].
    apply lookup_delete_Some in H2 as [_ H2].
    exact (Hu k1 k2 r1 r2 H1 H2).
Qed.

Lemma store_clear_wf (st : ObjectStore R) :
  store_wf (store_clear st) ∧ unique_wf (store_clear st).
Proof.
  split.
  - intros k r Hl. simpl in Hl. rewrite lookup_empty in Hl. discriminate.
  - intros k k' r r' Hl. simpl in Hl. rewrite lookup_empty in Hl.
    discriminate.
Qed.

Lemma addAll_wf (l : list R) (st st' : ObjectStore R) :
  store_wf st → unique_wf st → addAll l st = Some st' →
  store_wf st' ∧ unique_wf st'.
Proof.
  revert st. induction l as [|r l IH]; intros st Hwf Hu; simpl.
  - intros Hs. inversion Hs; subst. split; assumption.
  - destruct (store_add r st) as [[k st1]|] eqn:Ea; [|discriminate].
    destruct (store_add_wf _ _ _ _ Hwf Hu Ea). apply IH; assumption.
Qed.

Lemma restoreStore_wf (items : option (list R)) (st : ObjectStore R) :
  store_wf (fst (restoreStore items st))
  ∧ unique_wf (fst (restoreStore items st)).
Proof.
  unfold restoreStore. destruct items as [l|]; [|apply store_clear_wf].
  destruct (addAll l (store_clear st)) as [st'|] eqn:Ea;
    [|apply store_clear_wf].
  destruct (store_clear_wf st). eapply addAll_wf; eassumption.
Qed.
End Preservation.

Lemma writeStocks_wf reads (ps : ObjectStore Product) :
  store_wf ps → unique_wf ps →
  store_wf (fst (writeStocks reads ps))
  ∧ unique_wf (fst (writeStocks reads ps)).
Proof.
  revert ps. induction reads as [|[item [product|]] rest IH];
    intros ps Hwf Hu; simpl.
  - split; assumption.
  - destruct (store_put _ ps) as [[k ps']|] eqn:Ep.
    + destruct (store_put_wf _ _ _ _ Hwf Hu Ep). apply IH; assumption.
    + apply IH; assumption.
  - apply IH; assumption.
Qed.

(** Splits a conjunction into its parts and closes those at hand. *)
Ltac conj_split :=
  unfold db_wf in *; simpl;
  repeat match goal with
         | H : _ ∧ _ |- _ => destruct H
         | |- _ ∧ _ => split
         end; try assumption.

Lemma db_wf_processPayment now later (s : App) :
  db_wf (db s) → db_wf (db (processPayment now later s)).
Proof.
  intros Hwf.
  destruct (processPayment_db now later s)
    as [->|(k & ts & Ha & _ & _ & ->)]; [exact Hwf|].
  destruct Hwf as (Hp & Hpu & Ht & Htu & Hs & Hsu).
  destruct (store_add_wf _ _ _ _ Ht Htu Ha).
  destruct (writeStocks_wf
              (map (λ item, (item, readProduct (products (db s)) item))
                 (cart s)) (products (db s)) Hp Hpu).
  unfold db_wf, updateStocks.
  cbn [products transactions suppliers with_products with_transactions].
  conj_split.
Qed.

Lemma db_wf_saveProduct f now (s : App) :
  db_wf (db s) → db_wf (db (saveProduct f now s)).
Proof.
  intros Hwf. unfold saveProduct, validateProductForm.
  destruct (productFormErrors f) as [|e es].
  2:{ change (db_wf (db (showErrors (e :: es) s))).
      rewrite db_showErrors. exact Hwf. }
  simpl. destruct Hwf as (Hp & Hpu & Hrest).
  destruct (f_id f) as [id|].
  - destruct (store_put _ _) as [[k ps]|] eqn:Ep; [|conj_split].
    destruct (store_put_wf _ _ _ _ Hp Hpu Ep). conj_split.
  - destruct (store_add _ _) as [[k ps]|] eqn:Ea; [|conj_split].
    destruct (store_add_wf _ _ _ _ Hp Hpu Ea). conj_split.
Qed.

Lemma db_wf_saveSupplier f now (s : App) :
  db_wf (db s) → db_wf (db (saveSupplier f now s)).
Proof.
  intros Hwf. unfold saveSupplier, validateSupplierForm.
  destruct (supplierFormErrors f) as [|e es].
  2:{ change (db_wf (db (showErrors (e :: es) s))).
      rewrite db_showErrors. exact Hwf. }
  simpl. destruct Hwf as (Hp & Hpu & Ht & Htu & Hs & Hsu).
  destruct (sf_id f) as [id|].
  - destruct (store_put _ _) as [[k ss]|] eqn:Ep; [|conj_split].
    destruct (store_put_wf _ _ _ _ Hs Hsu Ep). conj_split.
  - destruct (store_add _ _) as [[k ss]|] eqn:Ea; [|conj_split].
    destruct (store_add_wf _ _ _ _ Hs Hsu Ea). conj_split.
Qed.

Lemma db_wf_restoreDB (file : Backup) (d : DB) :
  db_wf (fst (restoreDB file d)).
Proof.
  unfold restoreDB.
  pose proof (restoreStore_wf (b_products file) (products d)) as [? ?].
  pose proof (restoreStore_wf (b_transactions file) (transactions d)) as [? ?].
  pose proof (restoreStore_wf (b_suppliers file) (suppliers d)) as [? ?].
  destruct (restoreStore (b_products file) _),
    (restoreStore (b_transactions file) _),
    (restoreStore (b_suppliers file) _), (restoreSettings _).
  conj_split.
Qed.

Lemma emptyDB_wf : db_wf emptyDB.
Proof.
  unfold db_wf, emptyDB. simpl.
  repeat match goal with |- _ ∧ _ => split end;
    first [apply emptyStore_wf | apply emptyStore_unique].
Qed.

(** Every handler keeps the stores well formed. *)
Lemma db_wf_runEvent (e : Event) (s : App) :
  db_wf (db s) → db_wf (db (runEvent e s)).
Proof.
  intros Hwf. destruct e; simpl.
  - apply db_wf_saveProduct, Hwf.
  - unfold deleteProduct. destruct confirmed; [|exact Hwf]. simpl.
    destruct Hwf as (Hp & Hpu & Hrest).
    destruct (store_delete_wf (products (db s)) id Hp Hpu).
    conj_split.
  - rewrite db_runCartOp. exact Hwf.
  - exact Hwf.
  - unfold toggleTax. destruct checked; exact Hwf.
  - exact Hwf.
  - apply db_wf_processPayment, Hwf.
  - apply db_wf_saveSupplier, Hwf.
  - unfold deleteSupplier. destruct confirmed; [|exact Hwf].
    destruct (_ <? _)%nat; [exact Hwf|]. simpl.
    destruct Hwf as (Hp & Hpu & Ht & Htu & Hs & Hsu).
    destruct (store_delete_wf (suppliers (db s)) id Hs Hsu).
    conj_split.
  - unfold restoreData. destruct file as [b|]; [|exact Hwf].
    destruct confirmed; [|exact Hwf].
    pose proof (db_wf_restoreDB b (db s)) as Hr.
    destruct (restoreDB b (db s)) as [d ok]. destruct ok; exact Hr.
Qed.

(** Started on a new database, or on one that was well formed when it
    was last closed, the application only ever sees well-formed stores. *)
Theorem db_wf_reachable (now : Time) (html : Page) (d : DB) (es : list Event) :
  db_wf d → db_wf (db (runEvents es (initApp now html d))).
Proof.
  intros Hd.
  assert (Hgen : ∀ s, db_wf (db s) → db_wf (db (runEvents es s))).
  { induction es as [|e es IH]; intros s Hs; [exact Hs|].
    unfold runEvents in *. simpl. apply IH, db_wf_runEvent, Hs. }
  apply Hgen. exact Hd.
Qed.


(* ===================================================================== *)
(** * More on printing an amount and reading it back *)
(* ===================================================================== *)


Lemma length_app (a b : string) :
  String.length (a +:+ b) = (String.length a + String.length b)%nat.
Proof. induction a as [|c a IH]; simpl; [reflexivity|]. rewrite IH. reflexivity. Qed.















Example formatWith_decimal_comma :
  formatWith {| symbol := "Rp"; decimal := Some ","; separator := ".";
                precision := 2 |} (inject_Z 19800) = "Rp 19,800,00".
Proof. reflexivity. Qed.

(* ===================================================================== *)
(** * The change shown and the payment accepted *)
(* ===================================================================== *)

Lemma toFixed_decimals_nonempty (x : Q) (p : nat) : toFixed x (S p) ≠ "".
Proof.
  unfold toFixed. intros He.
  apply (f_equal String.length) in He. rewrite !length_app in He.
  simpl in He. lia.
Qed.

Lemma store_add_changes {R : Type} `{Schema R} (r : R) (st st' : ObjectStore R) k :
  keyOf r = None → store_add r st = Some (k, st') → st' ≠ st.
Proof.
  unfold store_add. intros Hk. rewrite Hk. simpl.
  destruct (_ || _); [discriminate|]. intros Hs.
  inversion Hs as [[Hkey Hst]]. intros He.
  apply (f_equal keyGenerator) in He. simpl in He. lia.
Qed.

(** X2.  [calculateChange] and [processPayment] agree.  The change field is
    left empty exactly when the amount received is below the total read from
    the page, and then [processPayment] (on a cart that is not empty)
    refuses the payment as insufficient; when a change is shown, the only
    way [processPayment] writes nothing is the store refusing the
    transaction. *)
Theorem calculateChange_agrees_with_processPayment
    (now later : Time) (s : App) :
  cart s ≠ [] →
  (calculateChange (page s) = ""
   ↔ (amountReceivedOf (page s) < parseTotalText (total_amount (page s)))%Q)
  ∧ (calculateChange (page s) = "" →
     processPayment now later s
     = showToast (toast_message InsufficientPayment)
         (toast_type InsufficientPayment) s)
  ∧ (calculateChange (page s) ≠ "" →
     (db (processPayment now later s) = db s
      ↔ store_add (buildTransaction now s) (transactions (db s)) = None)).
Proof.
  intros Hcart.
  assert (Hiff : calculateChange (page s) = ""
    ↔ (amountReceivedOf (page s) < parseTotalText (total_amount (page s)))%Q).
  { unfold calculateChange.
    destruct (Qle_bool 0 _) eqn:El.
    - apply Qle_bool_iff in El. split.
      + intros He. exfalso. exact (toFixed_decimals_nonempty _ _ He).
      + intros Hlt. exfalso. apply (Qlt_not_le _ _ Hlt).
        rewrite Qle_minus_iff. exact El.
    - split; [|reflexivity]. intros _. apply Qnot_le_lt. intros Hle.
      rewrite Qle_minus_iff in Hle. apply Qle_bool_iff in Hle.
      unfold Qminus in El. congruence. }
  split; [exact Hiff|]. split.
  - intros He. apply processPayment_insufficient; [exact Hcart|].
    apply Hiff, He.
  - intros Hne.
    assert (Hge : (parseTotalText (total_amount (page s))
                   <= amountReceivedOf (page s))%Q).
    { apply Qnot_lt_le. intros Hlt. apply Hne, Hiff, Hlt. }
    split.
    + intros Hdb.
      destruct (store_add _ _) as [[k ts]|] eqn:Ea; [|reflexivity].
      exfalso.
      assert (Hk : keyOf (buildTransaction now s) = None) by reflexivity.
      apply (store_add_changes (buildTransaction now s)
               (transactions (db s)) ts k Hk Ea).
      unfold processPayment in Hdb.
      destruct (cart s) eqn:Ec; [congruence|].
      apply Qltb_ge in Hge. rewrite Hge, Ea in Hdb. cbv zeta in Hdb.
      destruct (updateStocks _ _) as [ps ok] in Hdb.
      destruct ok; apply (f_equal transactions) in Hdb; simpl in Hdb;
        congruence.
    + apply processPayment_refused_add.
Qed.

Lemma calculateChange_agrees_witness :
  calculateChange (page underpaid) = ""
  ∧ processPayment noon noon underpaid
    = showToast (toast_message InsufficientPayment)
        (toast_type InsufficientPayment) underpaid.
Proof.
  destruct (calculateChange_agrees_with_processPayment noon noon underpaid)
    as (_ & Hr & _); [discriminate|].
  split; [reflexivity | apply Hr; reflexivity].
Defined.

Example calculateChange_shown :
  calculateChange (page readyToPay) = "5000.00".
Proof. vm_compute. reflexivity. Qed.

(* ===================================================================== *)
(** * Invoice numbers *)
(* ===================================================================== *)

Lemma checked_on_range (P : Z → bool) (lo len : Z) :
  forallb P (seqZ lo len) = true → ∀ n, lo ≤ n < lo + len → P n = true.
Proof.
  intros Hall n Hn. rewrite forallb_forall in Hall. apply Hall.
  apply list_elem_of_In, elem_of_seqZ. exact Hn.
Qed.

Lemma pad2_twoDigits (n : Z) : 0 ≤ n < 100 → pad2 n = twoDigits n.
Proof.
  intros Hn. apply String.eqb_eq.
  apply (checked_on_range (λ n, String.eqb (pad2 n) (twoDigits n)) 0 100);
    [vm_compute; reflexivity | lia].
Qed.

Lemma year_twoDigits (y : Z) :
  1000 ≤ y ≤ 9999 → sliceLast 2 (digits y) = twoDigits (y mod 100).
Proof.
  intros Hy. apply String.eqb_eq.
  apply (checked_on_range
           (λ y, String.eqb (sliceLast 2 (digits y)) (twoDigits (y mod 100)))
           1000 9000);
    [vm_compute; reflexivity | lia].
Qed.

Lemma readTwoDigits_twoDigits (n : Z) :
  0 ≤ n < 100 → readTwoDigits (twoDigits n) = n.
Proof.
  intros Hn. apply Z.eqb_eq.
  apply (checked_on_range (λ n, readTwoDigits (twoDigits n) =? n) 0 100);
    [vm_compute; reflexivity | lia].
Qed.

Lemma generateInvoiceNumber_digits (t : Time) :
  validTime t →
  generateInvoiceNumber t
  = "INV-" +:+ twoDigits (getFullYear t mod 100)
      +:+ twoDigits (getMonth t + 1) +:+ twoDigits (getDate t)
      +:+ "-" +:+ twoDigits (getHours t) +:+ twoDigits (getMinutes t)
      +:+ twoDigits (getSeconds t).
Proof.
  intros (Hy & Hmo & Hd & Hh & Hmi & Hs). unfold generateInvoiceNumber.
  rewrite year_twoDigits, !pad2_twoDigits by lia. reflexivity.
Qed.

Lemma readInvoiceNumber_generate (t : Time) :
  validTime t →
  readInvoiceNumber (generateInvoiceNumber t)
  = (getFullYear t mod 100, getMonth t + 1, getDate t,
     getHours t, getMinutes t, getSeconds t).
Proof.
  intros Hv. rewrite generateInvoiceNumber_digits by exact Hv.
  destruct Hv as (Hy & Hmo & Hd & Hh & Hmi & Hs).
  assert (Hyy : 0 ≤ getFullYear t mod 100 < 100)
    by (apply Z.mod_pos_bound; lia).
  rewrite <- (readTwoDigits_twoDigits (getFullYear t mod 100)) at 2 by lia.
  rewrite <- (readTwoDigits_twoDigits (getMonth t + 1)) at 2 by lia.
  rewrite <- (readTwoDigits_twoDigits (getDate t)) at 2 by lia.
  rewrite <- (readTwoDigits_twoDigits (getHours t)) at 2 by lia.
  rewrite <- (readTwoDigits_twoDigits (getMinutes t)) at 2 by lia.
  rewrite <- (readTwoDigits_twoDigits (getSeconds t)) at 2 by lia.
  reflexivity.
Qed.

(** X3.  An invoice number has the shape [INV-YYMMDD-HHMMSS], seventeen
    characters, and two instants get the same number exactly when they fall
    in the same second (of years that agree on their last two digits): a
    sale committed within one second of the previous one meets the number
    that was just used. *)
Theorem generateInvoiceNumber_same_second (a b : Time) :
  validTime a → validTime b →
  String.length (generateInvoiceNumber a) = 17%nat
  ∧ substring 0 4 (generateInvoiceNumber a) = "INV-"
  ∧ (generateInvoiceNumber a = generateInvoiceNumber b ↔ sameSecond a b).
Proof.
  intros Ha Hb. split.
  { rewrite generateInvoiceNumber_digits by exact Ha. reflexivity. }
  split.
  { rewrite generateInvoiceNumber_digits by exact Ha. reflexivity. }
  split.
  - intros He. apply (f_equal readInvoiceNumber) in He.
    rewrite !readInvoiceNumber_generate in He by assumption.
    inversion He. unfold sameSecond. repeat split; lia.
  - intros (Hy & Hmo & Hd & Hh & Hmi & Hs).
    rewrite !generateInvoiceNumber_digits by assumption.
    rewrite Hy, Hmo, Hd, Hh, Hmi, Hs. reflexivity.
Qed.

Lemma generateInvoiceNumber_witness :
  generateInvoiceNumber noon
  = generateInvoiceNumber
      {| getFullYear := 2124; getMonth := 0; getDate := 5;
         getHours := 12; getMinutes := 0; getSeconds := 0 |}.
Proof.
  apply (generateInvoiceNumber_same_second noon
           {| getFullYear := 2124; getMonth := 0; getDate := 5;
              getHours := 12; getMinutes := 0; getSeconds := 0 |});
    unfold validTime, sameSecond; simpl; repeat split; lia.
Defined.

(* ===================================================================== *)
(** * More on the cart *)
(* ===================================================================== *)

Lemma ids_setQuantity id q (c : list CartItem) :
  map item_id (setQuantity id q c) = map item_id c.
Proof.
  induction c as [|x c IH]; simpl; [reflexivity|].
  destruct (sameId id x); simpl; [reflexivity|]. rewrite IH. reflexivity.
Qed.

Lemma ids_removeFirst id (c : list CartItem) x :
  x ∈ map item_id (removeFirst id c) → x ∈ map item_id c.
Proof.
  induction c as [|y c IH]; simpl; [auto|].
  destruct (sameId id y); simpl.
  - intros Hin. right. exact Hin.
  - intros Hin. apply elem_of_cons in Hin as [->|Hin]; [left|right; auto].
Qed.

Lemma NoDup_removeFirst id (c : list CartItem) :
  NoDup (map item_id c) → NoDup (map item_id (removeFirst id c)).
Proof.
  induction c as [|y c IH]; simpl; [auto|]. intros Hnd.
  apply NoDup_cons in Hnd as [Hy Hnd].
  destruct (sameId id y); simpl; [exact Hnd|].
  apply NoDup_cons. split; [|auto].
  intros Hin. apply Hy. eapply ids_removeFirst, Hin.
Qed.

Lemma findItem_None_inv id (c : list CartItem) :
  findItem id c = None → id ∉ map item_id c.
Proof.
  unfold findItem. induction c as [|x c IH]; simpl.
  - intros _ Hin. apply elem_of_nil in Hin. exact Hin.
  - unfold sameId at 1. destruct (bool_decide _) eqn:Eb; [discriminate|].
    apply bool_decide_eq_false in Eb. intros Hf Hin.
    apply elem_of_cons in Hin as [->|Hin]; [apply Eb; reflexivity|].
    exact (IH Hf Hin).
Qed.

Lemma NoDup_ids_runCartOp (op : CartOp) (s : App) :
  NoDup (map item_id (cart s)) → NoDup (map item_id (cart (runCartOp op s))).
Proof.
  intros Hc.
  destruct op as [product|id|id|id quantity|id|confirmed]; simpl.
  - unfold addToCart. destruct (findItem _ _) as [item|] eqn:Ef.
    + destruct (_ <? _); [|exact Hc]. simpl. rewrite ids_setQuantity. exact Hc.
    + destruct (0 <? _); [|exact Hc]. simpl. rewrite map_app. simpl.
      apply NoDup_app. split; [exact Hc|]. split.
      * intros x Hx Hin. apply list_elem_of_singleton in Hin. subst x.
        exact (findItem_None_inv _ _ Ef Hx).
      * apply NoDup_singleton.
  - unfold increaseQuantity. destruct (findItem _ _); [|exact Hc].
    destruct (_ <? _); [|exact Hc]. simpl. rewrite ids_setQuantity. exact Hc.
  - unfold decreaseQuantity. destruct (findItem _ _); [|exact Hc].
    destruct (_ <? _); [|exact Hc]. simpl. rewrite ids_setQuantity. exact Hc.
  - unfold updateQuantity, removeFromCart.
    destruct quantity as [q|]; [destruct (q <? 1)|];
      destruct (findItem _ _); try exact Hc; simpl.
    + apply NoDup_removeFirst, Hc.
    + destruct (q <=? _); simpl; rewrite ids_setQuantity; exact Hc.
    + rewrite ids_setQuantity. exact Hc.
  - unfold removeFromCart. destruct (findItem _ _); [|exact Hc]. simpl.
    apply NoDup_removeFirst, Hc.
  - unfold clearCart. destruct (cart s) eqn:Ec; [rewrite Ec; exact Hc|].
    destruct confirmed; simpl; [constructor | rewrite Ec; exact Hc].
Qed.

Lemma cart_processPayment now later (s : App) :
  cart (processPayment now later s) = [] ∨
  cart (processPayment now later s) = cart s.
Proof.
  unfold processPayment. destruct (cart s) eqn:Ec; [right; simpl; auto|].
  destruct (Qltb _ _); [right; simpl; auto|].
  destruct (store_add _ _) as [[k ts]|]; [|right; simpl; auto].
  cbv zeta. destruct (updateStocks _ _) as [ps ok].
  destruct ok; [left; reflexivity | right; simpl; auto].
Qed.

Lemma cart_showErrors es (s : App) : cart (showErrors es s) = cart s.
Proof.
  unfold showErrors. revert s.
  induction es as [|e es IH]; intros s; [reflexivity|].
  simpl. rewrite IH. reflexivity.
Qed.

Lemma cart_saveProduct f now (s : App) : cart (saveProduct f now s) = cart s.
Proof.
  unfold saveProduct, validateProductForm.
  destruct (productFormErrors f) as [|e es].
  2:{ exact (cart_showErrors (e :: es) s). }
  simpl. destruct (f_id f).
  - destruct (store_put _ _) as [[k ps]|]; reflexivity.
  - destruct (store_add _ _) as [[k ps]|]; reflexivity.
Qed.

Lemma cart_saveSupplier f now (s : App) : cart (saveSupplier f now s) = cart s.
Proof.
  unfold saveSupplier, validateSupplierForm.
  destruct (supplierFormErrors f) as [|e es].
  2:{ exact (cart_showErrors (e :: es) s). }
  simpl. destruct (sf_id f).
  - destruct (store_put _ _) as [[k ps]|]; reflexivity.
  - destruct (store_add _ _) as [[k ps]|]; reflexivity.
Qed.

Lemma cart_runEvent_other (e : Event) (s : App) :
  (∀ op, e ≠ Cart op) → (∀ now later, e ≠ ProcessPayment now later) →
  cart (runEvent e s) = cart s.
Proof.
  intros Hc Hp. destruct e; simpl.
  - apply cart_saveProduct.
  - unfold deleteProduct. destruct confirmed; reflexivity.
  - exfalso. exact (Hc op eq_refl).
  - reflexivity.
  - unfold toggleTax. destruct checked; reflexivity.
  - reflexivity.
  - exfalso. exact (Hp now later eq_refl).
  - apply cart_saveSupplier.
  - unfold deleteSupplier. destruct confirmed; [|reflexivity].
    destruct (_ <? _)%nat; reflexivity.
  - unfold restoreData. destruct file as [b|]; [|reflexivity].
    destruct confirmed; [|reflexivity].
    destruct (restoreDB b (db s)) as [d ok]. destruct ok; reflexivity.
Qed.

Lemma NoDup_ids_runEvent (e : Event) (s : App) :
  NoDup (map item_id (cart s)) → NoDup (map item_id (cart (runEvent e s))).
Proof.
  intros Hc.
  destruct e as [| |op| | | |now later| | |];
    try (rewrite cart_runEvent_other; [exact Hc|discriminate..]).
  - apply NoDup_ids_runCartOp, Hc.
  - simpl. destruct (cart_processPayment now later s) as [->| ->];
      [constructor | exact Hc].
Qed.

(** X4.  The cart never holds two lines for one product: from a cart whose
    lines have distinct ids, the empty cart of a start for one, whatever the
    user does the ids of the lines stay distinct.  [processPayment] relies
    on it when it reads every product before it writes any. *)
Theorem cart_ids_distinct (s : App) (es : list Event) :
  NoDup (map item_id (cart s)) →
  NoDup (map item_id (cart (runEvents es s))).
Proof.
  revert s. induction es as [|e es IH]; intros s Hs; [exact Hs|].
  unfold runEvents in *. simpl. apply IH, NoDup_ids_runEvent, Hs.
Qed.

Lemma cart_ids_distinct_witness :
  NoDup (map item_id
           (cart (runEvents
                    [ Cart (AddToCart (sampleProduct 1 "A" 10000 5));
                      Cart (AddToCart (sampleProduct 2 "B" 2500 8));
                      Cart (AddToCart (sampleProduct 1 "A" 10000 5)) ]
                    emptyApp))).
Proof.
  apply cart_ids_distinct. simpl. constructor.
Defined.

Lemma otherLines_setQuantity id q (c : list CartItem) :
  otherLines id (setQuantity id q c) = otherLines id c.
Proof.
  unfold otherLines. induction c as [|x c IH]; simpl; [reflexivity|].
  destruct (sameId id x) eqn:Ex; simpl.
  - unfold sameId in *. simpl. rewrite Ex. reflexivity.
  - rewrite Ex. simpl. rewrite IH. reflexivity.
Qed.

Lemma otherLines_removeFirst id (c : list CartItem) :
  otherLines id (removeFirst id c) = otherLines id c.
Proof.
  unfold otherLines. induction c as [|x c IH]; simpl; [reflexivity|].
  destruct (sameId id x) eqn:Ex; simpl; [reflexivity|].
  rewrite Ex. simpl. rewrite IH. reflexivity.
Qed.

(** X5.  A cart handler touches only the lines of the id it addresses: the
    other lines are afterwards what they were, in the same order. *)
Theorem cart_handler_frame (op : CartOp) (id : option Z) (s : App) :
  targetOf op = Some id →
  otherLines id (cart (runCartOp op s)) = otherLines id (cart s).
Proof.
  intros Ht.
  destruct op as [product|k|k|k quantity|k|confirmed]; simpl in Ht;
    inversion Ht; subst id; simpl.
  - unfold addToCart. destruct (findItem _ _) as [item|] eqn:Ef.
    + destruct (_ <? _); [|reflexivity]. simpl. apply otherLines_setQuantity.
    + destruct (0 <? _); [|reflexivity]. simpl. unfold otherLines.
      rewrite List.filter_app. simpl. unfold sameId at 2. simpl.
      rewrite bool_decide_eq_true_2 by reflexivity. simpl.
      apply app_nil_r.
  - unfold increaseQuantity. destruct (findItem _ _); [|reflexivity].
    destruct (_ <? _); [|reflexivity]. simpl. apply otherLines_setQuantity.
  - unfold decreaseQuantity. destruct (findItem _ _); [|reflexivity].
    destruct (_ <? _); [|reflexivity]. simpl. apply otherLines_setQuantity.
  - unfold updateQuantity, removeFromCart.
    destruct quantity as [q|]; [destruct (q <? 1)|];
      destruct (findItem _ _); try reflexivity; simpl.
    + apply otherLines_removeFirst.
    + destruct (q <=? _); simpl; apply otherLines_setQuantity.
    + apply otherLines_setQuantity.
  - unfold removeFromCart. destruct (findItem _ _); [|reflexivity]. simpl.
    apply otherLines_removeFirst.
Qed.

Lemma cart_handler_frame_witness :
  otherLines (Some 1)
    (cart (runCartOp (UpdateQuantity 1 (Some 0))
             {| db := emptyDB;
                cart := [line 1 10000 2 5; line 2 500 1 9];
                page := pageOff "" |}))
  = [line 2 500 1 9].
Proof.
  rewrite (cart_handler_frame (UpdateQuantity 1 (Some 0)) (Some 1));
    reflexivity.
Defined.

Lemma findItem_setQuantity id q (c : list CartItem) item :
  findItem id c = Some item →
  findItem id (setQuantity id q c) = Some (withQuantity q item).
Proof.
  unfold findItem. induction c as [|x c IH]; simpl; [discriminate|].
  destruct (sameId id x) eqn:Ex; simpl.
  - intros Hx. inversion Hx; subst x.
    unfold sameId in *. simpl. rewrite Ex. reflexivity.
  - rewrite Ex. exact IH.
Qed.

Lemma findItem_removeFirst id (c : list CartItem) :
  NoDup (map item_id c) → findItem id (removeFirst id c) = None.
Proof.
  intros Hnd. apply findItem_None.
  induction c as [|x c IH]; simpl; [apply not_elem_of_nil|].
  simpl in Hnd. apply NoDup_cons in Hnd as [Hx Hnd].
  unfold sameId at 1. destruct (bool_decide _) eqn:Eb.
  - apply bool_decide_eq_true in Eb. rewrite <- Eb. exact Hx.
  - apply bool_decide_eq_false in Eb. simpl.
    apply not_elem_of_cons. split; [congruence | exact (IH Hnd)].
Qed.

(** X6.  What the quantity field of a cart line does.  A number below 1
    removes the line; a number within the line's stock is taken as it is; a
    larger number, and a field that holds no number, set the quantity to the
    line's stock. *)
Theorem updateQuantity_clamps
    (id : Z) (quantity : option Z) (s : App) (item : CartItem) :
  NoDup (map item_id (cart s)) →
  findItem (Some id) (cart s) = Some item →
  findItem (Some id) (cart (updateQuantity id quantity s)) =
    match quantity with
    | Some q =>
        if q <? 1 then None
        else Some (withQuantity (Z.min q (item_stock item)) item)
    | None => Some (withQuantity (item_stock item) item)
    end.
Proof.
  intros Hnd Hf. unfold updateQuantity, removeFromCart.
  destruct quantity as [q|].
  - destruct (q <? 1) eqn:Eq1; rewrite Hf.
    + simpl. apply findItem_removeFirst, Hnd.
    + destruct (q <=? item_stock item) eqn:Eq2; simpl.
      * apply Z.leb_le in Eq2. rewrite Z.min_l by exact Eq2.
        apply findItem_setQuantity, Hf.
      * apply Z.leb_gt in Eq2. rewrite Z.min_r by lia.
        apply findItem_setQuantity, Hf.
  - rewrite Hf. simpl. apply findItem_setQuantity, Hf.
Qed.

Lemma updateQuantity_clamps_witness :
  findItem (Some 1)
    (cart (updateQuantity 1 (Some 9)
             {| db := emptyDB; cart := [line 1 10000 2 5];
                page := pageOff "" |}))
  = Some (line 1 10000 5 5).
Proof.
  rewrite (updateQuantity_clamps 1 (Some 9) _ (line 1 10000 2 5)).
  - reflexivity.
  - simpl. apply NoDup_singleton.
  - reflexivity.
Defined.

(* ===================================================================== *)
(** * The total on the page *)
(* ===================================================================== *)

Lemma Qltb_Qeq (x y z : Q) : x == y → Qltb x z = Qltb y z.
Proof.
  intros E. destruct (Qltb y z) eqn:Ey.
  - apply Qltb_lt. apply Qltb_lt in Ey. rewrite E. exact Ey.
  - apply Qltb_ge. apply Qltb_ge in Ey. rewrite E. exact Ey.
Qed.

Lemma toFixed_Qeq (x y : Q) (p : nat) : x == y → toFixed x p = toFixed y p.
Proof.
  intros E. unfold toFixed, roundHalfUp.
  rewrite (Qltb_Qeq x y 0 E).
  assert (Hn : Qfloor (Qabs x * inject_Z (10 ^ Z.of_nat p) + (1 # 2))
             = Qfloor (Qabs y * inject_Z (10 ^ Z.of_nat p) + (1 # 2))).
  { apply Qfloor_comp. rewrite E. reflexivity. }
  rewrite Hn. reflexivity.
Qed.

Lemma formatWith_Qeq (c : Currency) (x y : Q) :
  x == y → formatWith c x = formatWith c y.
Proof.
  intros E. unfold formatWith. rewrite (toFixed_Qeq x y _ E). reflexivity.
Qed.

Lemma subtotalOf_nil : subtotalOf [] = 0%Q.
Proof. reflexivity. Qed.

Lemma totalOf_nil (p : Page) : (totalOf [] p == 0)%Q.
Proof.
  unfold totalOf. rewrite subtotalOf_nil.
  destruct (discount_value p) as [d|], (tax_value p) as [t|];
    repeat match goal with |- context [if ?b then _ else _] => destruct b end;
    field.
Qed.

Lemma settings_showErrors es (s : App) :
  settings (db (showErrors es s)) = settings (db s).
Proof. rewrite db_showErrors. reflexivity. Qed.

Lemma page_figures_showErrors es (s : App) :
  total_amount (page (showErrors es s)) = total_amount (page s)
  ∧ totalOf (cart (showErrors es s)) (page (showErrors es s))
    = totalOf (cart s) (page s).
Proof.
  unfold showErrors. revert s.
  induction es as [|e es IH]; intros s; [split; reflexivity|].
  simpl. destruct (IH (showError e.1 e.2 s)) as [H1 H2].
  rewrite H1, H2. split; reflexivity.
Qed.

Lemma upToDate_runCartOp (op : CartOp) (s : App) :
  upToDate s → upToDate (runCartOp op s).
Proof.
  unfold upToDate. intros H.
  destruct op as [product|id|id|id quantity|id|confirmed]; simpl.
  - unfold addToCart. destruct (findItem _ _) as [item|];
      destruct (_ <? _); try exact H; reflexivity.
  - unfold increaseQuantity. destruct (findItem _ _); [|exact H].
    destruct (_ <? _); [reflexivity | exact H].
  - unfold decreaseQuantity. destruct (findItem _ _); [|exact H].
    destruct (_ <? _); [reflexivity | exact H].
  - unfold updateQuantity, removeFromCart.
    destruct quantity as [q|]; [destruct (q <? 1)|];
      destruct (findItem _ _); try exact H; try reflexivity.
    destruct (q <=? _); reflexivity.
  - unfold removeFromCart. destruct (findItem _ _); [reflexivity|exact H].
  - unfold clearCart. destruct (cart s) eqn:Ec; [rewrite Ec; exact H|].
    destruct confirmed; [reflexivity | rewrite Ec; exact H].
Qed.

Lemma upToDate_processPayment now later (s : App) :
  upToDate s → upToDate (processPayment now later s).
Proof.
  unfold upToDate. intros H. unfold processPayment.
  destruct (cart s) as [|item rest] eqn:Ec; [simpl; rewrite Ec; exact H|].
  destruct (Qltb _ _); [simpl; rewrite Ec; exact H|].
  destruct (store_add _ _) as [[k ts]|]; [|simpl; rewrite Ec; exact H].
  cbv zeta. destruct (updateStocks _ _) as [ps ok]. destruct ok.
  - unfold resetCashier, updateCart, updateCartSummary, calculateTotal,
      setTotalAmount, formatCurrency.
    cbn [page cart db total_amount with_page with_cart with_db showToast
         settings with_products with_transactions].
    apply formatWith_Qeq.
    apply (Qeq_trans _ 0%Q); [apply totalOf_nil | apply Qeq_sym, totalOf_nil].
  - simpl. rewrite Ec. exact H.
Qed.

(** X7.  The total on the page follows the cart.  When [#total-amount] shows
    the total of the cart, it still does after every handler of the
    catalogue and the cashier, the payment included, except when the tax box
    is unchecked (and a restored backup may bring another currency format). *)
Theorem total_shown_is_current (e : Event) (s : App) :
  upToDate s →
  e ≠ ToggleTax false →
  (∀ file confirmed, e ≠ RestoreData file confirmed) →
  upToDate (runEvent e s).
Proof.
  intros H Ht Hr. destruct e; simpl.
  - unfold upToDate, saveProduct, validateProductForm in *.
    destruct (productFormErrors f) as [|e es].
    2:{ cbn [negb].
        destruct (page_figures_showErrors (e :: es) s) as [H1 H2].
        rewrite H1, H2. unfold formatCurrency.
        rewrite settings_showErrors. exact H. }
    simpl. destruct (f_id f).
    + destruct (store_put _ _) as [[k ps]|]; exact H.
    + destruct (store_add _ _) as [[k ps]|]; exact H.
  - unfold deleteProduct. destruct confirmed; exact H.
  - apply upToDate_runCartOp, H.
  - reflexivity.
  - destruct checked; [reflexivity|]. exfalso. apply Ht. reflexivity.
  - exact H.
  - apply upToDate_processPayment, H.
  - unfold upToDate, saveSupplier, validateSupplierForm in *.
    destruct (supplierFormErrors f) as [|e es].
    2:{ cbn [negb].
        destruct (page_figures_showErrors (e :: es) s) as [H1 H2].
        rewrite H1, H2. unfold formatCurrency.
        rewrite settings_showErrors. exact H. }
    simpl. destruct (sf_id f).
    + destruct (store_put _ _) as [[k ps]|]; exact H.
    + destruct (store_add _ _) as [[k ps]|]; exact H.
  - unfold deleteSupplier. destruct confirmed; [|exact H].
    destruct (_ <? _)%nat; exact H.
  - exfalso. exact (Hr file confirmed eq_refl).
Qed.

Lemma total_shown_is_current_witness :
  upToDate
    (runEvent (Cart (AddToCart (sampleProduct 1 "A" 10000 5))) freshCashier).
Proof.
  apply total_shown_is_current.
  - reflexivity.
  - discriminate.
  - discriminate.
Defined.

Example total_shown_after_add :
  total_amount
    (page (runEvent (Cart (AddToCart (sampleProduct 1 "A" 10000 5)))
             freshCashier))
  = "Rp 10.000".
Proof. vm_compute. reflexivity. Qed.

(* ===================================================================== *)
(** * Stored sales *)
(* ===================================================================== *)

Lemma store_add_keeps {R : Type} `{Schema R}
    (r : R) (st st' : ObjectStore R) k :
  store_add r st = Some (k, st') →
  records st ⊆ records st' ∧ store_count st' = S (store_count st).
Proof.
  unfold store_add. set (k0 := default (keyGenerator st) (keyOf r)).
  destruct (bool_decide (is_Some (records st !! k0))) eqn:Eb; [discriminate|].
  destruct (uniqueClash st k0 r); [discriminate|]. simpl.
  intros Hs. inversion Hs; subst k st'; clear Hs.
  apply bool_decide_eq_false in Eb.
  assert (Hfree : records st !! k0 = None).
  { destruct (records st !! k0); [exfalso; apply Eb; eauto | reflexivity]. }
  split.
  - simpl. apply insert_subseteq, Hfree.
  - unfold store_count. simpl. apply map_size_insert_None, Hfree.
Qed.

Lemma transactions_runEvent_other (e : Event) (s : App) :
  (∀ now later, e ≠ ProcessPayment now later) →
  (∀ file confirmed, e ≠ RestoreData file confirmed) →
  transactions (db (runEvent e s)) = transactions (db s).
Proof.
  intros Hp Hr. destruct e; simpl.
  - unfold saveProduct, validateProductForm.
    destruct (productFormErrors f) as [|e es].
    2:{ cbn [negb]. rewrite db_showErrors. reflexivity. }
    simpl. destruct (f_id f).
    + destruct (store_put _ _) as [[k ps]|]; reflexivity.
    + destruct (store_add _ _) as [[k ps]|]; reflexivity.
  - unfold deleteProduct. destruct confirmed; reflexivity.
  - rewrite db_runCartOp. reflexivity.
  - reflexivity.
  - unfold toggleTax. destruct checked; reflexivity.
  - reflexivity.
  - exfalso. exact (Hp now later eq_refl).
  - unfold saveSupplier, validateSupplierForm.
    destruct (supplierFormErrors f) as [|e es].
    2:{ cbn [negb]. rewrite db_showErrors. reflexivity. }
    simpl. destruct (sf_id f).
    + destruct (store_put _ _) as [[k ps]|]; reflexivity.
    + destruct (store_add _ _) as [[k ps]|]; reflexivity.
  - unfold deleteSupplier. destruct confirmed; [|reflexivity].
    destruct (_ <? _)%nat; reflexivity.
  - exfalso. exact (Hr file confirmed eq_refl).
Qed.

(** X8.  Stored sales are append-only.  Short of restoring a backup, no
    handler changes or removes a stored transaction, and one handler adds at
    most one. *)
Theorem transactions_append_only (e : Event) (s : App) :
  (∀ file confirmed, e ≠ RestoreData file confirmed) →
  records (transactions (db s)) ⊆ records (transactions (db (runEvent e s)))
  ∧ (store_count (transactions (db (runEvent e s)))
     ≤ S (store_count (transactions (db s))))%nat.
Proof.
  intros Hr.
  assert (Hsame : transactions (db (runEvent e s)) = transactions (db s) →
    records (transactions (db s)) ⊆ records (transactions (db (runEvent e s)))
    ∧ (store_count (transactions (db (runEvent e s)))
       ≤ S (store_count (transactions (db s))))%nat).
  { intros ->. split; [reflexivity | lia]. }
  destruct e as [| | | | | |now later| | |];
    try (apply Hsame, transactions_runEvent_other; [discriminate | exact Hr]).
  simpl. destruct (processPayment_db now later s)
    as [->|(k & ts & Ha & _ & _ & ->)].
  - split; [reflexivity | lia].
  - simpl. apply store_add_keeps in Ha as [Hsub Hc]. split; [exact Hsub|lia].
Qed.

Lemma transactions_append_only_witness :
  records (transactions (db readyToPay))
  ⊆ records (transactions (db (runEvent (ProcessPayment noon noon) readyToPay)))
  ∧ (store_count
       (transactions (db (runEvent (ProcessPayment noon noon) readyToPay)))
     ≤ S (store_count (transactions (db readyToPay))))%nat.
Proof.
  apply (transactions_append_only (ProcessPayment noon noon) readyToPay).
  discriminate.
Defined.

Lemma writeStocks_missing (reads : list (CartItem * option Product))
    (ps : ObjectStore Product) (item : CartItem) :
  In (item, None) reads → snd (writeStocks reads ps) = false.
Proof.
  revert ps. induction reads as [|[i [p|]] rest IH]; intros ps Hin; simpl.
  - destruct Hin.
  - destruct Hin as [Hin|Hin]; [discriminate|].
    destruct (store_put _ _) as [[k ps']|]; [apply IH, Hin | reflexivity].
  - reflexivity.
Qed.

Lemma updateStocks_missing (c : list CartItem) (ps : ObjectStore Product)
    (item : CartItem) :
  In item c → readProduct ps item = None → snd (updateStocks c ps) = false.
Proof.
  intros Hin Hr. unfold updateStocks. apply (writeStocks_missing _ _ item).
  apply in_map_iff. exists item. rewrite Hr. split; [reflexivity | exact Hin].
Qed.

Lemma store_add_lookup {R : Type} `{Schema R}
    (r : R) (st st' : ObjectStore R) k :
  store_add r st = Some (k, st') → records st' !! k = Some (withKey k r).
Proof.
  unfold store_add. destruct (_ || _); [discriminate|].
  intros Hs. inversion Hs; subst. simpl. apply lookup_insert_eq.
Qed.

(** X9.  A sale of a product that is no longer in the catalogue.  When a
    line of the cart names a product the store no longer holds (it was
    deleted while it lay in the cart), a sufficient payment stores the sale,
    but the cart and the page stay as they were, without any message and
    with the invoice number that is now taken: pressing the button again is
    refused with the failure toast and writes nothing more. *)
Theorem sale_of_deleted_product
    (now later now' later' : Time) (s : App) (item : CartItem) k ts :
  In item (cart s) →
  readProduct (products (db s)) item = None →
  (parseTotalText (total_amount (page s)) <= amountReceivedOf (page s))%Q →
  store_add (buildTransaction now s) (transactions (db s)) = Some (k, ts) →
  let s' := processPayment now later s in
  transactions (db s') = ts
  ∧ cart s' = cart s ∧ page s' = page s
  ∧ processPayment now' later' s'
    = showToast (toast_message PaymentFailed) (toast_type PaymentFailed) s'.
Proof.
  intros Hin Hr Hpay Hadd.
  assert (Hs' : processPayment now later s
    = with_db (with_products
                 (fst (updateStocks (cart s) (products (db s))))
                 (with_transactions ts (db s))) s).
  { unfold processPayment.
    destruct (cart s) as [|i0 rest] eqn:Ec; [destruct Hin|].
    apply Qltb_ge in Hpay. rewrite Hpay, Hadd. cbv zeta.
    change (products (with_transactions ts (db s))) with (products (db s)).
    pose proof (updateStocks_missing (i0 :: rest) (products (db s)) item
                  Hin Hr) as Hm.
    destruct (updateStocks (i0 :: rest) (products (db s))) as [ps ok].
    simpl in Hm. subst ok. reflexivity. }
  cbv zeta. rewrite Hs'. simpl.
  split; [reflexivity|]. split; [reflexivity|]. split; [reflexivity|].
  unfold processPayment. simpl.
  destruct (cart s) as [|i0 rest] eqn:Ec; [destruct Hin|].
  apply Qltb_ge in Hpay. rewrite Hpay.
  rewrite (store_add_duplicate ts k _ (withKey k (buildTransaction now s)));
    [reflexivity | | simpl; eauto | reflexivity].
  eapply store_add_lookup, Hadd.
Qed.

Lemma sale_of_deleted_product_witness :
  let s' := processPayment noon noon deletedWhileInCart in
  store_count (transactions (db s')) = 1%nat
  ∧ cart s' = cart deletedWhileInCart ∧ page s' = page deletedWhileInCart
  ∧ processPayment noon noon s'
    = showToast (toast_message PaymentFailed) (toast_type PaymentFailed) s'.
Proof.
  assert (Ha : ∃ ts,
    store_add (buildTransaction noon deletedWhileInCart)
      (transactions (db deletedWhileInCart)) = Some (1, ts)
    ∧ store_count ts = 1%nat).
  { eexists. split; [vm_compute; reflexivity | vm_compute; reflexivity]. }
  destruct Ha as (ts & Ha & Hc).
  assert (Hcart : cart deletedWhileInCart
                  = [ {| item_id := Some 1; item_code := "A";
                         item_name := "Produk A"; item_price := 10000;
                         item_quantity := 1; item_stock := 5 |} ]).
  { vm_compute. reflexivity. }
  destruct (sale_of_deleted_product noon noon noon noon deletedWhileInCart
              {| item_id := Some 1; item_code := "A";
                 item_name := "Produk A"; item_price := 10000;
                 item_quantity := 1; item_stock := 5 |} 1 ts)
    as (H1 & H2 & H3 & H4).
  - rewrite Hcart. left. reflexivity.
  - vm_compute. reflexivity.
  - vm_compute. discriminate.
  - exact Ha.
  - cbv zeta. rewrite H1. auto.
Defined.

(* ===================================================================== *)
(** * The product form *)
(* ===================================================================== *)

Lemma isEmpty_false (x : string) : isEmpty x = false → x ≠ "".
Proof. destruct x; [discriminate|]. intros _. discriminate. Qed.

Lemma productFormErrors_nil (f : ProductForm) (now : Time) :
  productFormErrors f = [] → validProduct (productOfForm f now).
Proof.
  unfold productFormErrors, checkNumber, validProduct. intros Ee.
  repeat (apply app_eq_nil in Ee as [? Ee]). simpl.
  destruct (isEmpty (trim (f_code f))) eqn:E1; [discriminate|].
  destruct (isEmpty (trim (f_name f))) eqn:E2; [discriminate|].
  destruct (isEmpty (trim (f_category f))) eqn:E3; [discriminate|].
  destruct (f_price f) as [price|]; [|discriminate].
  destruct (Qltb price 0) eqn:E4; [discriminate|].
  destruct (f_cost f) as [cost|]; [|discriminate].
  destruct (Qltb cost 0) eqn:E5; [discriminate|].
  destruct (f_stock f) as [stock|]; [|discriminate].
  destruct (stock <? 0) eqn:E6; [discriminate|].
  destruct (f_minStock f) as [minStock|]; [|discriminate].
  destruct (minStock <? 0) eqn:E7; [discriminate|].
  simpl. repeat split;
    try (apply isEmpty_false; assumption);
    try (apply Qltb_ge; assumption);
    apply Z.ltb_ge; assumption.
Qed.

Lemma showErrors_page (es : list (string * string)) (s : App) :
  toast (page (showErrors es s)) = toast (page s)
  ∧ cart (showErrors es s) = cart s.
Proof.
  unfold showErrors. revert s.
  induction es as [|e es IH]; intros s; [split; reflexivity|].
  simpl. destruct (IH (showError e.1 e.2 s)) as [H1 H2].
  rewrite H1, H2. split; reflexivity.
Qed.

Lemma showErrors_shown (es : list (string * string)) (s : App) e :
  In e es → is_Some (errors (page (showErrors es s)) !! fst e).
Proof.
  unfold showErrors. revert s.
  induction es as [|e0 es IH] using rev_ind; intros s Hin; [destruct Hin|].
  rewrite fold_left_app. simpl.
  destruct (decide (fst e0 = fst e)) as [->|Hne].
  - rewrite lookup_insert_eq. eauto.
  - rewrite lookup_insert_ne by exact Hne.
    apply in_app_or in Hin as [Hin|[->|[]]]; [apply IH, Hin | congruence].
Qed.

Lemma validProduct_withCreatedAt d p :
  validProduct p → validProduct (withCreatedAt d p).
Proof. intros H. exact H. Qed.

(** X10.  The guard of the product form.  A form with a field that fails
    [validateProductForm] writes nothing and shows a message at every
    failing field; and whenever [saveProduct] changes the database, it has
    written one product, which has a code, a name and a category, prices and
    stocks that are not negative, and every other record of the database is
    as before. *)
Theorem product_form_guard (f : ProductForm) (now : Time) (s : App) :
  let s' := saveProduct f now s in
  (productFormErrors f ≠ [] →
   db s' = db s ∧ toast (page s') = toast (page s)
   ∧ ∀ e, In e (productFormErrors f) →
          is_Some (errors (page s') !! fst e))
  ∧ (db s' ≠ db s →
     ∃ k p,
       records (products (db s')) !! k = Some p
       ∧ validProduct p
       ∧ (∀ k', k' ≠ k → records (products (db s')) !! k'
                         = records (products (db s)) !! k')
       ∧ transactions (db s') = transactions (db s)
       ∧ suppliers (db s') = suppliers (db s)).
Proof.
  cbv zeta. unfold saveProduct, validateProductForm.
  destruct (productFormErrors f) as [|e es] eqn:Ee.
  - split; [intros Hne; contradiction|].
    pose proof (productFormErrors_nil f now Ee) as Hv.
    cbn [negb]. destruct (f_id f) as [id|].
    + unfold store_put. simpl.
      destruct (uniqueClash _ _ _); simpl; [intros Hne; contradiction|].
      intros _. eexists id, _. split; [apply lookup_insert_eq|].
      split; [exact Hv|]. split; [|split; reflexivity].
      intros k' Hk'. apply lookup_insert_ne. congruence.
    + unfold store_add. simpl.
      destruct (_ || _); simpl; [intros Hne; contradiction|].
      intros _. eexists _, _. split; [apply lookup_insert_eq|].
      split; [exact Hv|]. split; [|split; reflexivity].
      intros k' Hk'. apply lookup_insert_ne. congruence.
  - cbn [negb]. split.
    + intros _. split; [apply db_showErrors|].
      split; [apply showErrors_page|].
      intros e0 Hin. apply showErrors_shown, Hin.
    + intros Hne. exfalso. apply Hne, db_showErrors.
Qed.

Lemma product_form_guard_witness :
  db (saveProduct (productForm None "  " 10000 (-1) "") noon emptyApp)
  = db emptyApp
  ∧ is_Some (errors (page (saveProduct (productForm None "  " 10000 (-1) "")
                             noon emptyApp)) !! "stock-error").
Proof.
  destruct (product_form_guard (productForm None "  " 10000 (-1) "") noon
              emptyApp) as [Hbad _].
  destruct Hbad as (Hdb & _ & Hshown); [vm_compute; discriminate|].
  split; [exact Hdb|].
  apply (Hshown ("stock-error", "Stok tidak boleh negatif")).
  vm_compute. right. left. reflexivity.
Defined.

(** X11.  Editing a product.  With a valid form that carries the id of a
    stored product and a code no other product has, the record under that id
    becomes the record of the form: every field is the form's, the date of
    creation the record had is gone, and no other product changes. *)
Theorem saveProduct_edit_replaces
    (f : ProductForm) (now : Time) (s : App) (id : Z) (old : Product) :
  productFormErrors f = [] → f_id f = Some id →
  store_wf (products (db s)) →
  records (products (db s)) !! id = Some old →
  (∀ k p, k ≠ id → records (products (db s)) !! k = Some p →
          p_code p ≠ trim (f_code f)) →
  let s' := saveProduct f now s in
  records (products (db s')) !! id = Some (withKey id (productOfForm f now))
  ∧ (p_createdAt <$> records (products (db s')) !! id) = Some None
  ∧ (∀ k, k ≠ id → records (products (db s')) !! k
                   = records (products (db s)) !! k)
  ∧ keyGenerator (products (db s')) = keyGenerator (products (db s)).
Proof.
  intros He Hid Hwf Hold Hcode. cbv zeta.
  unfold saveProduct, validateProductForm. rewrite He, Hid. cbn [negb].
  unfold store_put. simpl.
  rewrite uniqueClash_false.
  2:{ intros k' r' Hl Hne _ Heq. simpl in Heq.
      apply (Hcode k' r' Hne Hl). congruence. }
  simpl. rewrite lookup_insert_eq.
  split; [reflexivity|]. split; [reflexivity|]. split.
  - intros k Hk. apply lookup_insert_ne. congruence.
  - destruct (Hwf id old Hold) as [_ Hlt]. lia.
Qed.

Lemma saveProduct_edit_replaces_witness :
  (p_createdAt <$> records (products (db oneProduct)) !! 1)
  = Some (Some (DateObj noon))
  ∧ (p_createdAt <$>
       records (products
                  (db (saveProduct (productForm (Some 1) "A" 12000 5 "") noon
                         oneProduct))) !! 1)
    = Some None.
Proof.
  split; [vm_compute; reflexivity|].
  destruct (saveProduct_edit_replaces (productForm (Some 1) "A" 12000 5 "")
              noon oneProduct 1 (sampleProduct 1 "A" 10000 5))
    as (_ & H & _).
  - vm_compute. reflexivity.
  - reflexivity.
  - intros k r Hl. change (products (db oneProduct))
      with (stored (emptyStore : ObjectStore Product) 1
              (sampleProduct 1 "A" 10000 5)) in Hl.
    simpl in Hl. destruct (decide (k = 1)) as [->|Hne].
    + rewrite lookup_insert_eq in Hl. inversion Hl; subst r.
      split; [reflexivity | vm_compute; reflexivity].
    + rewrite lookup_insert_ne in Hl by congruence.
      rewrite lookup_empty in Hl. discriminate.
  - vm_compute. reflexivity.
  - intros k p Hk Hl. exfalso.
    change (products (db oneProduct))
      with (stored (emptyStore : ObjectStore Product) 1
              (sampleProduct 1 "A" 10000 5)) in Hl.
    simpl in Hl. rewrite lookup_insert_ne in Hl by congruence.
    rewrite lookup_empty in Hl. discriminate.
  - exact H.
Defined.

(** X12.  Editing a product into a code another product has.  The store
    refuses the write; unlike for a new product, no message appears at the
    code field: the failure is the toast, and nothing is written. *)
Theorem saveProduct_edit_duplicate_code
    (f : ProductForm) (now : Time) (s : App) (id k : Z) (p : Product) :
  productFormErrors f = [] → f_id f = Some id →
  k ≠ id → records (products (db s)) !! k = Some p →
  p_code p = trim (f_code f) →
  let s' := saveProduct f now s in
  db s' = db s
  ∧ toast (page s')
    = Some {| toast_message := "Gagal memperbarui produk";
              toast_type := "error" |}
  ∧ errors (page s') = errors (page s).
Proof.
  intros He Hid Hne Hl Hc. cbv zeta.
  unfold saveProduct, validateProductForm. rewrite He, Hid. cbn [negb].
  unfold store_put. simpl.
  rewrite (uniqueClash_true _ id k _ p Hl Hne); simpl.
  - split; [reflexivity|]. split; reflexivity.
  - eauto.
  - rewrite Hc. reflexivity.
Qed.

Lemma saveProduct_edit_duplicate_code_witness :
  let s' := saveProduct (productForm (Some 2) "A" 2500 8 "") noon twoProducts in
  db s' = db twoProducts
  ∧ toast (page s')
    = Some {| toast_message := "Gagal memperbarui produk";
              toast_type := "error" |}
  ∧ errors (page s') = errors (page twoProducts).
Proof.
  apply (saveProduct_edit_duplicate_code (productForm (Some 2) "A" 2500 8 "")
           noon twoProducts 2 1 (sampleProduct 1 "A" 10000 5)).
  - vm_compute. reflexivity.
  - reflexivity.
  - discriminate.
  - vm_compute. reflexivity.
  - vm_compute. reflexivity.
Defined.

(* ===================================================================== *)
(** * The check of [deleteSupplier] *)
(* ===================================================================== *)

Lemma textSuppliers_stored (ps : ObjectStore Product) k p :
  textSuppliers ps → textSupplier p → textSuppliers (stored ps k p).
Proof.
  intros Hps Hp k' p' Hl. simpl in Hl.
  destruct (decide (k = k')) as [<-|Hne].
  - rewrite lookup_insert_eq in Hl. inversion Hl; subst p'. exact Hp.
  - rewrite lookup_insert_ne in Hl by exact Hne. exact (Hps k' p' Hl).
Qed.

Lemma textSuppliers_add (ps ps' : ObjectStore Product) k p :
  textSuppliers ps → textSupplier p → store_add p ps = Some (k, ps') →
  textSuppliers ps'.
Proof.
  unfold store_add. intros Hps Hp. destruct (_ || _); [discriminate|].
  intros Hs. inversion Hs; subst. apply textSuppliers_stored; assumption.
Qed.

Lemma textSuppliers_put (ps ps' : ObjectStore Product) k p :
  textSuppliers ps → textSupplier p → store_put p ps = Some (k, ps') →
  textSuppliers ps'.
Proof.
  unfold store_put. intros Hps Hp. destruct (uniqueClash _ _ _); [discriminate|].
  intros Hs. inversion Hs; subst. apply textSuppliers_stored; assumption.
Qed.

Lemma textSuppliers_writeStocks reads (ps : ObjectStore Product) :
  textSuppliers ps →
  Forall (λ r, ∀ p, snd r = Some p → textSupplier p) reads →
  textSuppliers (fst (writeStocks reads ps)).
Proof.
  revert ps. induction reads as [|[item [product|]] rest IH];
    intros ps Hps Hr; simpl; [exact Hps| |].
  - apply Forall_cons in Hr as [Hp Hr].
    destruct (store_put _ ps) as [[k ps']|] eqn:Ep.
    + apply IH; [|exact Hr]. eapply textSuppliers_put; [exact Hps| |exact Ep].
      exact (Hp product eq_refl).
    + apply IH; assumption.
  - apply Forall_cons in Hr as [_ Hr]. apply IH; assumption.
Qed.

Lemma textSuppliers_addAll (l : list Product) (ps ps' : ObjectStore Product) :
  textSuppliers ps → Forall textSupplier l → addAll l ps = Some ps' →
  textSuppliers ps'.
Proof.
  revert ps. induction l as [|p l IH]; intros ps Hps Hl; simpl.
  - intros Hs. inversion Hs; subst. exact Hps.
  - apply Forall_cons in Hl as [Hp Hl].
    destruct (store_add p ps) as [[k ps1]|] eqn:Ea; [|discriminate].
    apply IH; [|exact Hl]. eapply textSuppliers_add; eassumption.
Qed.

Lemma textSuppliers_clear (ps : ObjectStore Product) :
  textSuppliers (store_clear ps).
Proof. intros k p Hl. simpl in Hl. rewrite lookup_empty in Hl. discriminate. Qed.

Lemma textSuppliers_runEvent (e : Event) (s : App) :
  plainFile e → textSuppliers (products (db s)) →
  textSuppliers (products (db (runEvent e s))).
Proof.
  intros He Hps. destruct e; simpl.
  - unfold saveProduct, validateProductForm.
    destruct (productFormErrors f) as [|e es].
    2:{ cbn [negb]. rewrite db_showErrors. exact Hps. }
    assert (Hp : textSupplier (productOfForm f now)).
    { intros n. simpl. destruct (isEmpty _); discriminate. }
    cbn [negb]. destruct (f_id f) as [id|].
    + destruct (store_put _ _) as [[k ps]|] eqn:Ep; [|exact Hps].
      simpl. eapply textSuppliers_put; [exact Hps| |exact Ep]. exact Hp.
    + destruct (store_add _ _) as [[k ps]|] eqn:Ea; [|exact Hps].
      simpl. eapply textSuppliers_add; [exact Hps| |exact Ea]. exact Hp.
  - unfold deleteProduct. destruct confirmed; [|exact Hps].
    intros k p Hl.
    change (delete id (records (products (db s))) !! k = Some p) in Hl.
    apply lookup_delete_Some in Hl as [_ Hl]. exact (Hps k p Hl).
  - rewrite db_runCartOp. exact Hps.
  - exact Hps.
  - unfold toggleTax. destruct checked; exact Hps.
  - exact Hps.
  - destruct (processPayment_db now later s)
      as [->|(k & ts & _ & _ & _ & ->)]; [exact Hps|].
    simpl. unfold updateStocks. apply textSuppliers_writeStocks; [exact Hps|].
    apply List.Forall_forall. intros [item r] Hin p Hr. simpl in Hr. subst r.
    apply in_map_iff in Hin as (item' & Heq & _).
    injection Heq as Hi Hread. unfold readProduct in Hread.
    destruct (item_id item') as [k0|]; [|discriminate Hread].
    exact (Hps k0 p Hread).
  - unfold saveSupplier, validateSupplierForm.
    destruct (supplierFormErrors f) as [|e es].
    2:{ cbn [negb]. rewrite db_showErrors. exact Hps. }
    cbn [negb]. destruct (sf_id f).
    + destruct (store_put _ _) as [[k ps]|]; exact Hps.
    + destruct (store_add _ _) as [[k ps]|]; exact Hps.
  - unfold deleteSupplier. destruct confirmed; [|exact Hps].
    destruct (_ <? _)%nat; exact Hps.
  - unfold restoreData. destruct file as [b|]; [|exact Hps].
    destruct confirmed; [|exact Hps].
    assert (Hr : textSuppliers (products (fst (restoreDB b (db s))))).
    { unfold restoreDB. simpl in He.
      destruct (restoreStore (b_products b) (products (db s)))
        as [ps ok1] eqn:Er.
      destruct (restoreStore (b_transactions b) _),
        (restoreStore (b_suppliers b) _), (restoreSettings _). simpl.
      unfold restoreStore in Er. destruct (b_products b) as [l|].
      - destruct (addAll l _) as [ps1|] eqn:Ea; inversion Er; subst.
        + eapply textSuppliers_addAll; [|exact He|exact Ea].
          apply textSuppliers_clear.
        + apply textSuppliers_clear.
      - inversion Er; subst. apply textSuppliers_clear. }
    destruct (restoreDB b (db s)) as [d ok]. destruct ok; exact Hr.
Qed.

Lemma countBySupplierId_text (ps : ObjectStore Product) (n : Z) :
  textSuppliers ps → countBySupplierId (KNum n) ps = 0%nat.
Proof.
  intros Hps. unfold countBySupplierId.
  rewrite map_empty_filter_2.
  - apply map_size_empty.
  - intros k p Hl Heq. simpl in Heq. exact (Hps k p Hl n Heq).
Qed.

(** X13.  The check of [deleteSupplier] never refuses.  The product form
    stores the supplier of a product as the text of the drop-down, and no
    handler turns it into a number; [deleteSupplier] counts the products
    whose [supplierId] is the number it was given.  So from a database
    without numeric [supplierId]s, a new one for one, whatever is done
    (backup files restored being files of this application), a confirmed
    [deleteSupplier] finds no product, deletes the supplier and reports
    success, whether products refer to the supplier or not. *)
Theorem deleteSupplier_never_refuses
    (s0 : App) (es : list Event) (id : Z) :
  textSuppliers (products (db s0)) →
  Forall plainFile es →
  let s := runEvents es s0 in
  let s' := deleteSupplier id true s in
  toast (page s') = Some SupplierDeleted
  ∧ records (suppliers (db s')) !! id = None
  ∧ products (db s') = products (db s).
Proof.
  intros Hd Hes. cbv zeta.
  assert (Hs : textSuppliers (products (db (runEvents es s0)))).
  { revert s0 Hd. induction Hes as [|e es He Hes IH]; intros s0 Hs0;
      [exact Hs0|].
    unfold runEvents in *. simpl. apply IH, textSuppliers_runEvent; assumption. }
  destruct (deleteSupplier_count id (runEvents es s0)) as [_ Hdel].
  destruct (Hdel (countBySupplierId_text _ id Hs)) as (Ht & Hl & _ & Hp).
  auto.
Qed.

Lemma deleteSupplier_never_refuses_witness :
  let s := runEvents [ SaveSupplier (supplierForm "S1") noon;
                       SaveProduct (productForm None "A" 10000 5 "1") noon ]
             emptyApp in
  let s' := deleteSupplier 1 true s in
  (p_supplierId <$> records (products (db s)) !! 1) = Some (Some (KStr "1"))
  ∧ toast (page s') = Some SupplierDeleted
  ∧ records (suppliers (db s')) !! 1 = None
  ∧ products (db s') = products (db s).
Proof.
  cbv zeta. split; [vm_compute; reflexivity|].
  apply (deleteSupplier_never_refuses emptyApp
           [ SaveSupplier (supplierForm "S1") noon;
             SaveProduct (productForm None "A" 10000 5 "1") noon ] 1).
  - intros k p Hl. simpl in Hl. rewrite lookup_empty in Hl. discriminate.
  - repeat constructor.
Defined.

(* ===================================================================== *)
(** * Backup files *)
(* ===================================================================== *)

Lemma jsonDate_idem (d : DateVal) : jsonDate (jsonDate d) = jsonDate d.
Proof. destruct d; reflexivity. Qed.

Lemma jsonAmount_idem (a : Amount) : jsonAmount (jsonAmount a) = jsonAmount a.
Proof. destruct a; reflexivity. Qed.

Lemma jsonProduct_idem (p : Product) :
  jsonProduct (jsonProduct p) = jsonProduct p.
Proof.
  unfold jsonProduct. simpl. rewrite jsonDate_idem.
  destruct (p_createdAt p); simpl; [rewrite jsonDate_idem|]; reflexivity.
Qed.

Lemma jsonSupplier_idem (v : Supplier) :
  jsonSupplier (jsonSupplier v) = jsonSupplier v.
Proof.
  unfold jsonSupplier. simpl. rewrite jsonDate_idem.
  destruct (s_createdAt v); simpl; [rewrite jsonDate_idem|]; reflexivity.
Qed.

Lemma jsonTransaction_idem (t : Transaction) :
  jsonTransaction (jsonTransaction t) = jsonTransaction t.
Proof.
  unfold jsonTransaction. simpl.
  rewrite jsonDate_idem, !jsonAmount_idem. reflexivity.
Qed.

Lemma lookup_image {A : Type} (f : A → A) (m m0 : gmap Z A) k x :
  (∀ y, f (f y) = f y) → m = f <$> m0 → m !! k = Some x → f x = x.
Proof.
  intros Hf -> Hl. rewrite lookup_fmap in Hl.
  destruct (m0 !! k) as [y|]; [|discriminate].
  simpl in Hl. inversion Hl; subst x. apply Hf.
Qed.

(** X14.  Backup and restore, twice.  A backup of a database, restored over
    any database, completes and brings back every product, transaction and
    supplier under its key as JSON reads it back (dates as strings, [NaN] as
    [null]) and the settings as they were.  A backup of what was restored,
    restored again, brings back exactly the same content: the only loss is
    that of the first round trip. *)
Theorem backup_restore_round_trips (d d0 d1 : DB) :
  db_wf d →
  let once := restoreDB (jsonRoundTrip (backupData d)) d0 in
  let twice := restoreDB (jsonRoundTrip (backupData (fst once))) d1 in
  snd once = true
  ∧ records (products (fst once)) = jsonProduct <$> records (products d)
  ∧ records (transactions (fst once))
    = jsonTransaction <$> records (transactions d)
  ∧ records (suppliers (fst once)) = jsonSupplier <$> records (suppliers d)
  ∧ settings (fst once) = settings d
  ∧ snd twice = true
  ∧ content (fst twice) = content (fst once).
Proof.
  intros Hwf. cbv zeta.
  destruct (restore_backup d d0 Hwf) as (Hok & Hps & Hts & Hss & Hset & _).
  repeat (split; [assumption|]).
  pose proof (db_wf_restoreDB (jsonRoundTrip (backupData d)) d0) as Hwf1.
  split; [apply (restore_backup _ d1 Hwf1)|].
  apply restore_backup_without_dates; [exact Hwf1| | |].
  - intros k p. apply (lookup_image jsonProduct _ _ k p jsonProduct_idem Hps).
  - intros k t.
    apply (lookup_image jsonTransaction _ _ k t jsonTransaction_idem Hts).
  - intros k v. apply (lookup_image jsonSupplier _ _ k v jsonSupplier_idem Hss).
Qed.

Lemma db_wf_emptyApp : db_wf (db emptyApp).
Proof. pose proof emptyDB_wf as H. exact H. Qed.

Lemma backup_restore_round_trips_witness :
  let once := restoreDB (jsonRoundTrip (backupData (db oneProduct))) emptyDB in
  let twice := restoreDB (jsonRoundTrip (backupData (fst once))) emptyDB in
  (p_updatedAt <$> records (products (fst once)) !! 1) = Some (DateStr noon)
  ∧ snd twice = true
  ∧ content (fst twice) = content (fst once).
Proof.
  destruct (backup_restore_round_trips (db oneProduct) emptyDB emptyDB)
    as (_ & Hps & _ & _ & _ & Hok & Hc).
  - apply db_wf_saveProduct, db_wf_emptyApp.
  - cbv zeta. split; [rewrite Hps; vm_compute; reflexivity|].
    split; assumption.
Defined.

Lemma store_add_kept {R : Type} `{Schema R}
    (r : R) (st st' : ObjectStore R) k k0 r0 :
  store_add r st = Some (k, st') → records st !! k0 = Some r0 →
  records st' !! k0 = Some r0.
Proof.
  intros Ha Hl. apply store_add_keeps in Ha as [Hsub _].
  eapply lookup_weaken; eassumption.
Qed.

Lemma addAll_kept {R : Type} `{Schema R}
    (l : list R) (st st' : ObjectStore R) k0 r0 :
  addAll l st = Some st' → records st !! k0 = Some r0 →
  records st' !! k0 = Some r0.
Proof.
  revert st. induction l as [|r l IH]; intros st; simpl.
  - intros Hs. inversion Hs; subst. auto.
  - destruct (store_add r st) as [[k st1]|] eqn:Ea; [|discriminate].
    intros Hall Hl. apply (IH st1 Hall). eapply store_add_kept; eassumption.
Qed.

Lemma addAll_duplicate {R : Type} `{SchemaOk R}
    (l1 l2 l3 : list R) (r1 r2 : R) (st : ObjectStore R) :
  is_Some (uniqueOf r2) → uniqueOf r1 = uniqueOf r2 →
  addAll (l1 ++ r1 :: l2 ++ r2 :: l3) st = None.
Proof.
  intros Hs He. revert st. induction l1 as [|r l1 IH]; intros st; simpl.
  - destruct (store_add r1 st) as [[k st1]|] eqn:Ea; [|reflexivity].
    pose proof (store_add_lookup _ _ _ _ Ea) as Hl. clear Ea.
    revert st1 Hl. induction l2 as [|r l2 IH2]; intros st1 Hl; simpl.
    + rewrite (store_add_duplicate st1 k r2 (withKey k r1) Hl Hs);
        [reflexivity|]. rewrite uniqueOf_withKey. exact He.
    + destruct (store_add r st1) as [[k' st2]|] eqn:Ea; [|reflexivity].
      apply IH2. eapply store_add_kept; eassumption.
  - destruct (store_add r st) as [[k st1]|]; [apply IH | reflexivity].
Qed.

(** X15.  A backup file with the same product code twice.  The products are
    cleared first; the refill is refused at the second of the two records
    and rolled back as a whole.  The store of products is left empty,
    whatever it held and whatever else the file holds, and no message tells
    so. *)
Theorem restoreData_duplicate_code_empties
    (b : Backup) (s : App) (l1 l2 l3 : list Product) (p1 p2 : Product) :
  b_products b = Some (l1 ++ p1 :: l2 ++ p2 :: l3) →
  p_code p1 = p_code p2 →
  let s' := restoreData (Some b) true s in
  records (products (db s')) = ∅
  ∧ page s' = page s.
Proof.
  intros Hb Hc. cbv zeta.
  assert (Hr : ∃ d', restoreDB b (db s) = (d', false)
                     ∧ records (products d') = ∅).
  { unfold restoreDB. unfold restoreStore at 1.
    rewrite Hb. rewrite addAll_duplicate; [|simpl; eauto|simpl; congruence].
    destruct (restoreStore (b_transactions b) _),
      (restoreStore (b_suppliers b) _), (restoreSettings _).
    eexists. split; reflexivity. }
  destruct Hr as (d' & Hr & He). unfold restoreData. rewrite Hr.
  split; [exact He | reflexivity].
Qed.

Lemma restoreData_duplicate_code_empties_witness :
  let s' :=
    restoreData
      (Some {| b_products := Some [sampleProduct 1 "A" 10000 5;
                                   sampleProduct 2 "A" 2500 8];
               b_transactions := Some []; b_suppliers := Some [];
               b_settings := Some [] |}) true twoProducts in
  records (products (db s')) = ∅ ∧ page s' = page twoProducts.
Proof.
  apply (restoreData_duplicate_code_empties _ twoProducts [] [] []
           (sampleProduct 1 "A" 10000 5) (sampleProduct 2 "A" 2500 8));
    reflexivity.
Defined.

(* ===================================================================== *)
(** * The tiles of the cashier *)
(* ===================================================================== *)

Lemma includes_empty (s : string) : includes s "" = true.
Proof. destruct s; reflexivity. Qed.

Lemma In_getAll {R : Type} (st : ObjectStore R) (r : R) :
  In r (getAll st) ↔ ∃ k, records st !! k = Some r.
Proof. rewrite <- list_elem_of_In. apply elem_of_getAll. Qed.

(** X16.  The tiles of the cashier.  [loadCashierProducts] draws a tile for
    exactly the stored products with a positive stock; a search draws some
    of these tiles, and all of them when the search field is empty; so a
    click on a tile never meets the out-of-stock refusal of [addToCart]. *)
Theorem cashier_tiles_in_stock (d : DB) :
  (∀ p, In p (loadCashierProducts d)
        ↔ (∃ k, records (products d) !! k = Some p) ∧ 0 < p_stock p)
  ∧ (∀ value p, In p (searchCashierProducts value d) →
                In p (loadCashierProducts d))
  ∧ searchCashierProducts "" d = loadCashierProducts d
  ∧ (∀ p s, In p (loadCashierProducts d) →
            toast (page (addToCart p s)) ≠ Some OutOfStock).
Proof.
  assert (Htile : ∀ p, In p (loadCashierProducts d)
                  ↔ (∃ k, records (products d) !! k = Some p) ∧ 0 < p_stock p).
  { intros p. unfold loadCashierProducts.
    rewrite filter_In, In_getAll, Z.ltb_lt. reflexivity. }
  split; [exact Htile|]. split; [|split].
  - intros value p. unfold searchCashierProducts, loadCashierProducts.
    cbv zeta. rewrite !filter_In. intros [Hin Hb].
    apply andb_true_iff in Hb as [_ Hs]. split; assumption.
  - unfold searchCashierProducts, loadCashierProducts.
    apply filter_ext. intros p. simpl. rewrite includes_empty. reflexivity.
  - intros p s Hin. apply Htile in Hin as [_ Hs]. apply Z.ltb_lt in Hs.
    unfold addToCart, OutOfStock, InsufficientStock.
    destruct (findItem _ _) as [item|].
    + destruct (item_quantity item <? p_stock p); simpl; intros H.
      * apply (f_equal (λ o, from_option toast_type "" o)) in H.
        simpl in H. discriminate H.
      * apply (f_equal (λ o, from_option toast_message "" o)) in H.
        simpl in H. discriminate H.
    + rewrite Hs. simpl. intros H.
      apply (f_equal (λ o, from_option toast_type "" o)) in H.
      simpl in H. discriminate H.
Qed.

Lemma cashier_tiles_in_stock_witness :
  In (sampleProduct 1 "A" 10000 5) (loadCashierProducts (db oneProduct))
  ∧ toast (page (addToCart (sampleProduct 1 "A" 10000 5) oneProduct))
    ≠ Some OutOfStock.
Proof.
  destruct (cashier_tiles_in_stock (db oneProduct)) as (Htile & _ & _ & Hclick).
  assert (Hin : In (sampleProduct 1 "A" 10000 5)
                  (loadCashierProducts (db oneProduct))).
  { apply Htile. split; [exists 1; vm_compute; reflexivity | reflexivity]. }
  split; [exact Hin | apply Hclick, Hin].
Defined.

(* ===================================================================== *)
(** * Reports *)
(* ===================================================================== *)





Lemma processPayment_transactions (now later : Time) (s : App) k ts :
  cart s ≠ [] →
  (parseTotalText (total_amount (page s)) <= amountReceivedOf (page s))%Q →
  store_add (buildTransaction now s) (transactions (db s)) = Some (k, ts) →
  transactions (db (processPayment now later s)) = ts.
Proof.
  intros Hc Hpay Hadd. unfold processPayment.
  destruct (cart s) as [|i0 rest] eqn:Ec; [congruence|].
  apply Qltb_ge in Hpay. rewrite Hpay, Hadd. cbv zeta.
  destruct (updateStocks _ _) as [ps ok]. destruct ok; reflexivity.
Qed.

Lemma getAll_added {R : Type} `{Schema R}
    (r : R) (st st' : ObjectStore R) k :
  store_add r st = Some (k, st') → getAll st' ≡ₚ withKey k r :: getAll st.
Proof.
  unfold store_add. set (k0 := default (keyGenerator st) (keyOf r)).
  destruct (bool_decide (is_Some (records st !! k0))) eqn:Eb; [discriminate|].
  destruct (uniqueClash st k0 r); [discriminate|]. simpl.
  intros Hs. inversion Hs; subst k st'; clear Hs.
  apply bool_decide_eq_false in Eb.
  assert (Hfree : records st !! k0 = None).
  { destruct (records st !! k0); [exfalso; apply Eb; eauto | reflexivity]. }
  unfold getAll. simpl. rewrite !merge_sort_Permutation.
  rewrite (map_to_list_insert _ _ _ Hfree). reflexivity.
Qed.

Lemma filter_Permutation {A : Type} (f : A → bool) (l l' : list A) :
  l ≡ₚ l' → List.filter f l ≡ₚ List.filter f l'.
Proof.
  induction 1 as [|x l l' _ IH|x y l|l l' l'' _ IH1 _ IH2]; simpl.
  - reflexivity.
  - destruct (f x); [rewrite IH|]; [reflexivity | exact IH].
  - destruct (f x), (f y); try reflexivity. apply perm_swap.
  - etransitivity; eassumption.
Qed.

Lemma sum_Qeq {A : Type} (f : A → Q) (l : list A) (a b : Q) :
  (a == b)%Q →
  (fold_left (λ sum t, sum + f t) l a == fold_left (λ sum t, sum + f t) l b)%Q.
Proof.
  revert a b. induction l as [|x l IH]; intros a b E; simpl; [exact E|].
  apply IH. rewrite E. reflexivity.
Qed.

Lemma sum_Permutation {A : Type} (f : A → Q) (l l' : list A) (a : Q) :
  l ≡ₚ l' →
  (fold_left (λ sum t, sum + f t) l a
   == fold_left (λ sum t, sum + f t) l' a)%Q.
Proof.
  intros Hp. revert a.
  induction Hp as [|x l l' _ IH|x y l|l l' l'' _ IH1 _ IH2]; intros a; simpl.
  - reflexivity.
  - apply IH.
  - apply sum_Qeq. ring.
  - rewrite IH1. apply IH2.
Qed.

Lemma sum_cons {A : Type} (f : A → Q) (l : list A) (x : A) :
  (fold_left (λ sum t, sum + f t) (x :: l) 0
   == fold_left (λ sum t, sum + f t) l 0 + f x)%Q.
Proof.
  simpl. assert (Hgen : ∀ a b : Q,
    (fold_left (λ sum t, sum + f t) l (a + b)
     == fold_left (λ sum t, sum + f t) l a + b)%Q).
  { induction l as [|y l IH]; intros a b; simpl; [reflexivity|].
    rewrite <- IH. apply sum_Qeq. ring. }
  apply Hgen.
Qed.

(** X18.  A sale shows in the report of its day.  When [processPayment] has
    stored a sale dated [now], the report of any period that holds [now] has
    a row for it, one transaction more than before, and total sales higher
    by the total charged. *)
Theorem report_shows_new_sale
    (now later startDate endDate : Time) (s : App) k ts :
  cart s ≠ [] →
  (parseTotalText (total_amount (page s)) <= amountReceivedOf (page s))%Q →
  store_add (buildTransaction now s) (transactions (db s)) = Some (k, ts) →
  timeLe startDate now = true → timeLe now endDate = true →
  let before := generateReport startDate endDate (db s) in
  let after :=
    generateReport startDate endDate (db (processPayment now later s)) in
  In (withKey k (buildTransaction now s)) (rows after)
  ∧ totalTransactions after = S (totalTransactions before)
  ∧ (totalSales after
     == totalSales before + parseTotalText (total_amount (page s)))%Q.
Proof.
  intros Hc Hpay Hadd Hlo Hhi. cbv zeta.
  unfold generateReport.
  rewrite (processPayment_transactions now later s k ts Hc Hpay Hadd).
  cbn [rows totalTransactions totalSales].
  set (t := withKey k (buildTransaction now s)).
  set (inRange := λ t0 : Transaction, inDateRange startDate endDate (t_date t0)).
  assert (Hp : dateIndexGetAll startDate endDate ts
               ≡ₚ t :: dateIndexGetAll startDate endDate
                         (transactions (db s))).
  { unfold dateIndexGetAll. rewrite !merge_sort_Permutation.
    rewrite (filter_Permutation _ _ _ (getAll_added _ _ _ _ Hadd)).
    simpl. rewrite Hlo, Hhi. reflexivity. }
  split; [|split].
  - apply in_rev. rewrite rev_involutive. apply list_elem_of_In.
    rewrite Hp. left.
  - rewrite Hp. reflexivity.
  - rewrite (sum_Permutation t_total _ _ 0 Hp). rewrite sum_cons. reflexivity.
Qed.

Lemma report_shows_new_sale_witness :
  totalTransactions (generateReport dayStart dayEnd (db readyToPay)) = 0%nat
  ∧ totalTransactions
      (generateReport dayStart dayEnd
         (db (processPayment noon noon readyToPay))) = 1%nat.
Proof.
  assert (H0 : totalTransactions
                 (generateReport dayStart dayEnd (db readyToPay)) = 0%nat)
    by (vm_compute; reflexivity).
  split; [exact H0|].
  assert (Ha : ∃ ts, store_add (buildTransaction noon readyToPay)
                       (transactions (db readyToPay)) = Some (1, ts)).
  { eexists. vm_compute. reflexivity. }
  destruct Ha as [ts Ha].
  destruct (report_shows_new_sale noon noon dayStart dayEnd readyToPay 1 ts)
    as (_ & Hn & _).
  - discriminate.
  - vm_compute. discriminate.
  - exact Ha.
  - reflexivity.
  - reflexivity.
  - rewrite Hn, H0. reflexivity.
Defined.

(* ===================================================================== *)
(** * The stores stay well formed *)
(* ===================================================================== *)

(** X19.  Codes and invoice numbers stay unique.  From a database in which
    every record sits under its own id, below the key generator of its
    store, and in which no two products or suppliers share a code and no two
    sales an invoice number, every sequence of handlers leads to a database
    of that kind again. *)
Theorem stores_stay_well_formed (s : App) (es : list Event) :
  db_wf (db s) → db_wf (db (runEvents es s)).
Proof.
  revert s. induction es as [|e es IH]; intros s Hs; [exact Hs|].
  unfold runEvents in *. simpl. apply IH, db_wf_runEvent, Hs.
Qed.

Lemma stores_stay_well_formed_witness :
  db_wf (db (runEvents
               [ SaveProduct (productForm None "A" 10000 5 "") noon;
                 SaveProduct (productForm None "A" 2500 8 "") noon;
                 Cart (AddToCart (sampleProduct 1 "A" 10000 5));
                 EnterAmountReceived (Some 10000%Q);
                 ProcessPayment noon noon ]
               emptyApp)).
Proof.
  apply stores_stay_well_formed. exact db_wf_emptyApp.
Defined.

(* ===================================================================== *)
(** * The dashboard *)
(* ===================================================================== *)

(** X20.  [loadDashboard] asks the products for an index named [stock],
    which the database does not have, and throws.  So a product that was
    saved is reported as a failure: the record is stored, and the toast that
    stays is the one of the [catch] handler; the same holds when a product
    is deleted; and [initApp] ends in its [catch] block, before the invoice
    number is made, so the page keeps the invoice text of the document. *)
Theorem loadDashboard_throws :
  loadDashboard = None
  ∧ (∀ f now s k ps,
       productFormErrors f = [] → f_id f = None →
       store_add (withCreatedAt (DateObj now) (productOfForm f now))
         (products (db s)) = Some (k, ps) →
       let s' := saveProductSettled f now s in
       products (db s') = ps
       ∧ toast (page s')
         = Some {| toast_message := "Gagal menambahkan produk";
                   toast_type := "error" |})
  ∧ (∀ id s,
       let s' := deleteProductSettled id true s in
       records (products (db s')) !! id = None
       ∧ toast (page s')
         = Some {| toast_message := "Gagal menghapus produk";
                   toast_type := "error" |})
  ∧ (∀ now html d,
       let s := initAppSettled now html d in
       current_invoice (page s) = current_invoice html
       ∧ toast (page s)
         = Some {| toast_message :=
                     "Gagal memuat aplikasi. Silakan refresh halaman.";
                   toast_type := "error" |}).
Proof.
  split; [reflexivity|]. split; [|split].
  - intros f now s k ps He Hid Hadd. cbv zeta.
    unfold saveProductSettled, productSaved.
    rewrite He, Hid, Hadd, (saveProduct_valid f now s He Hid), Hadd.
    rewrite bool_decide_eq_true_2 by eauto. split; reflexivity.
  - intros id s. cbv zeta. split; [|reflexivity].
    simpl. apply lookup_delete_eq.
  - intros now html d. split; reflexivity.
Qed.

Lemma loadDashboard_throws_witness :
  let s' := saveProductSettled (productForm None "A" 10000 5 "") noon emptyApp in
  (p_code <$> records (products (db s')) !! 1) = Some "A"
  ∧ toast (page s')
    = Some {| toast_message := "Gagal menambahkan produk";
              toast_type := "error" |}.
Proof.
  destruct loadDashboard_throws as (_ & Hsave & _).
  assert (Ha : ∃ ps,
    store_add (withCreatedAt (DateObj noon)
                 (productOfForm (productForm None "A" 10000 5 "") noon))
      (products (db emptyApp)) = Some (1, ps)
    ∧ (p_code <$> records ps !! 1) = Some "A").
  { eexists. split; vm_compute; reflexivity. }
  destruct Ha as (ps & Ha & Hc).
  destruct (Hsave (productForm None "A" 10000 5 "") noon emptyApp 1 ps)
    as [Hps Ht].
  - vm_compute. reflexivity.
  - reflexivity.
  - exact Ha.
  - cbv zeta. rewrite Hps. split; [exact Hc | exact Ht].
Defined.

(* ===================================================================== *)
(** * The service worker *)
(* ===================================================================== *)

Section ServiceWorkerFacts.
Import ServiceWorker.

Lemma cachesMatch_putIn name request response caches request' :
  url request' = url request →
  cachesMatch caches request' = None →
  cachesMatch (putIn name request response caches) request' = Some response.
Proof.
  intros Hu. induction caches as [|[n cache] rest IH]; cbn [cachesMatch putIn].
  - intros _. rewrite Hu, lookup_singleton_eq. reflexivity.
  - destruct (cache !! url request') as [r|] eqn:El; [discriminate|].
    intros Hn. destruct (String.eqb n name); cbn [cachesMatch putIn].
    + rewrite Hu, lookup_insert_eq. reflexivity.
    + rewrite El. apply IH, Hn.
Qed.

Lemma cachesMatch_putIn_Some name request response caches request' :
  is_Some (cachesMatch caches request') →
  is_Some (cachesMatch (putIn name request response caches) request').
Proof.
  induction caches as [|[n cache] rest IH]; cbn [cachesMatch putIn].
  - intros [x Hx]. discriminate.
  - destruct (cache !! url request') as [r|] eqn:El.
    + intros _. destruct (String.eqb n name); cbn [cachesMatch putIn].
      * destruct (decide (url request = url request')) as [->|Hne].
        -- rewrite lookup_insert_eq. eauto.
        -- rewrite lookup_insert_ne by exact Hne. rewrite El. eauto.
      * rewrite El. eauto.
    + intros Hs. destruct (String.eqb n name); cbn [cachesMatch putIn].
      * destruct (decide (url request = url request')) as [->|Hne].
        -- rewrite lookup_insert_eq. eauto.
        -- rewrite lookup_insert_ne by exact Hne. rewrite El. exact Hs.
      * rewrite El. apply IH, Hs.
Qed.

End ServiceWorkerFacts.

(** X21.  The [fetch] listener answers from the cache first, and fills the
    cache only with same-origin answers of status 200 to [GET] requests.
    Whenever the listener changes the caches, the request was a [GET] that
    no cache could answer and the network answered with status 200 and type
    [basic]; and from then on the same request gets that very response, with
    or without network, and the caches stay as they are. *)
Theorem sw_fetch_fills_cache_once
    (network : ServiceWorker.Network) (request : ServiceWorker.Request)
    (caches caches' : ServiceWorker.CacheStorage)
    (answer : ServiceWorker.Answer) :
  ServiceWorker.onFetch network request caches = (caches', answer) →
  caches' ≠ caches →
  ServiceWorker.method request = "GET"
  ∧ ServiceWorker.cachesMatch caches request = None
  ∧ ∃ response,
      network request = Some response
      ∧ ServiceWorker.status response = 200
      ∧ ServiceWorker.type response = "basic"
      ∧ answer = ServiceWorker.RespondWith response
      ∧ ∀ network',
          ServiceWorker.onFetch network' request caches'
          = (caches', ServiceWorker.RespondWith response).
Proof.
  unfold ServiceWorker.onFetch.
  destruct (String.eqb (ServiceWorker.method request) "GET") eqn:Em; simpl.
  2:{ intros H Hne. inversion H; subst. contradiction. }
  apply String.eqb_eq in Em.
  destruct (ServiceWorker.cachesMatch caches request) as [r|] eqn:Ec.
  { intros H Hne. inversion H; subst. contradiction. }
  destruct (network request) as [response|] eqn:En.
  2:{ intros H Hne. inversion H; subst. contradiction. }
  destruct (ServiceWorker.status response =? 200) eqn:Es; simpl.
  2:{ intros H Hne. inversion H; subst. contradiction. }
  destruct (String.eqb (ServiceWorker.type response) "basic") eqn:Et; simpl.
  2:{ intros H Hne. inversion H; subst. contradiction. }
  intros H _. inversion H; subst caches' answer; clear H.
  split; [exact Em|]. split; [reflexivity|].
  exists response. split; [reflexivity|].
  split; [apply Z.eqb_eq, Es|]. split; [apply String.eqb_eq, Et|].
  split; [reflexivity|]. intros network'.
  rewrite (cachesMatch_putIn _ request response caches request eq_refl Ec).
  reflexivity.
Qed.

Lemma sw_fetch_fills_cache_once_witness :
  ServiceWorker.onFetch offline (getRequest "/laporan")
    (fst (ServiceWorker.onFetch (answering (page200 "v1"))
            (getRequest "/laporan") []))
  = (fst (ServiceWorker.onFetch (answering (page200 "v1"))
            (getRequest "/laporan") []),
     ServiceWorker.RespondWith (page200 "v1")).
Proof.
  destruct (sw_fetch_fills_cache_once (answering (page200 "v1"))
              (getRequest "/laporan") []
              (fst (ServiceWorker.onFetch (answering (page200 "v1"))
                      (getRequest "/laporan") []))
              (ServiceWorker.RespondWith (page200 "v1")))
    as (_ & _ & response & Hn & _ & _ & Ha & Hlater).
  - reflexivity.
  - vm_compute. discriminate.
  - inversion Ha; subst response. exact (Hlater offline).
Defined.

Section ServiceWorkerCaches.
Import ServiceWorker.

Lemma cachesMatch_putIn_same name request response caches request' :
  url request' = url request →
  is_Some (cachesMatch (putIn name request response caches) request').
Proof.
  intros Hu. destruct (cachesMatch caches request') as [r|] eqn:Ec.
  - apply cachesMatch_putIn_Some. rewrite Ec. eauto.
  - rewrite (cachesMatch_putIn name request response caches request' Hu Ec).
    eauto.
Qed.

Lemma fetchAll_urls network urls responses :
  fetchAll network urls = Some responses → map fst responses = urls.
Proof.
  revert responses. induction urls as [|u rest IH]; intros responses; simpl.
  - intros H. inversion H. reflexivity.
  - destruct (network _) as [r|]; [|discriminate].
    destruct (isOk r); [|discriminate].
    destruct (fetchAll network rest) as [rs|]; [|discriminate].
    simpl. intros H. inversion H; subst. simpl. rewrite (IH rs eq_refl).
    reflexivity.
Qed.

Lemma fetchAll_None network urls :
  fetchAll network urls = None →
  ∃ u, In u urls
       ∧ match network {| method := "GET"; url := u |} with
         | Some response => isOk response = false
         | None => True
         end.
Proof.
  induction urls as [|u rest IH]; simpl; [discriminate|].
  destruct (network {| method := "GET"; url := u |}) as [r|] eqn:En.
  - destruct (isOk r) eqn:Eo.
    + destruct (fetchAll network rest) as [rs|]; [discriminate|].
      intros _. destruct (IH eq_refl) as (u' & Hin & Hu').
      exists u'. split; [right; exact Hin | exact Hu'].
    + intros _. exists u. rewrite En. split; [left; reflexivity | exact Eo].
  - intros _. exists u. rewrite En. split; [left; reflexivity | exact I].
Qed.

Lemma putAll_cached name (responses : list (string * Response)) caches u :
  In u (map fst responses)
  ∨ is_Some (cachesMatch caches {| method := "GET"; url := u |}) →
  is_Some
    (cachesMatch
       (fold_left
          (λ cs ur, putIn name {| method := "GET"; url := fst ur |}
                      (snd ur) cs)
          responses caches)
       {| method := "GET"; url := u |}).
Proof.
  revert caches. induction responses as [|[u0 r0] rest IH]; intros caches;
    simpl.
  - intros [[]|H]. exact H.
  - intros [[->|Hin]|Hs]; apply IH.
    + right. apply cachesMatch_putIn_same. reflexivity.
    + left. exact Hin.
    + right. apply cachesMatch_putIn_Some, Hs.
Qed.

Lemma onActivate_other (caches : CacheStorage) :
  ¬ In CACHE_NAME (map fst caches) → onActivate caches = [].
Proof.
  unfold onActivate. induction caches as [|[n c] rest IH]; simpl;
    [reflexivity|].
  intros Hn. destruct (String.eqb n CACHE_NAME) eqn:E.
  - apply String.eqb_eq in E. exfalso. apply Hn. left. exact E.
  - apply IH. intros Hin. apply Hn. right. exact Hin.
Qed.

End ServiceWorkerCaches.

(** X22.  Activation drops the caches of other versions.  After the
    [activate] listener only the cache named [CACHE_NAME] is left, with what
    it held; a request is from then on answered from that cache alone, so a
    response that only the cache of an older version held is no longer
    served; and activating again changes nothing. *)
Theorem sw_activate_drops_old_caches
    (caches : ServiceWorker.CacheStorage) (request : ServiceWorker.Request) :
  NoDup (map fst caches) →
  let caches' := ServiceWorker.onActivate caches in
  (∀ n c, In (n, c) caches' → n = ServiceWorker.CACHE_NAME)
  ∧ ServiceWorker.lookupCache ServiceWorker.CACHE_NAME caches'
    = ServiceWorker.lookupCache ServiceWorker.CACHE_NAME caches
  ∧ ServiceWorker.cachesMatch caches' request
    = (ServiceWorker.lookupCache ServiceWorker.CACHE_NAME caches
         ≫= λ cache, cache !! ServiceWorker.url request)
  ∧ ServiceWorker.onActivate caches' = caches'.
Proof.
  intros Hnd. cbv zeta. split; [|split; [|split]].
  - intros n c Hin. unfold ServiceWorker.onActivate in Hin.
    apply filter_In in Hin as [_ Hn]. apply String.eqb_eq in Hn. exact Hn.
  - unfold ServiceWorker.onActivate.
    induction caches as [|[n c] rest IH]; simpl; [reflexivity|].
    apply NoDup_cons in Hnd as [_ Hnd].
    destruct (String.eqb n ServiceWorker.CACHE_NAME) eqn:E; simpl.
    + rewrite E. reflexivity.
    + apply IH, Hnd.
  - induction caches as [|[n c] rest IH]; [reflexivity|].
    apply NoDup_cons in Hnd as [Hn Hnd].
    unfold ServiceWorker.onActivate in *. simpl.
    destruct (String.eqb n ServiceWorker.CACHE_NAME) eqn:E; simpl.
    + apply String.eqb_eq in E. subst n.
      fold (ServiceWorker.onActivate rest).
      rewrite onActivate_other.
      * simpl. destruct (c !! ServiceWorker.url request); reflexivity.
      * intros Hin. apply Hn. apply list_elem_of_In. exact Hin.
    + apply IH, Hnd.
  - unfold ServiceWorker.onActivate.
    induction caches as [|[n c] rest IH]; simpl; [reflexivity|].
    apply NoDup_cons in Hnd as [_ Hnd].
    destruct (String.eqb n ServiceWorker.CACHE_NAME) eqn:E; simpl.
    + rewrite E. f_equal. apply IH, Hnd.
    + apply IH, Hnd.
Qed.

Lemma sw_activate_drops_old_caches_witness :
  ServiceWorker.cachesMatch
    [("kasir-pos-v1", {[ "/app.js" := page200 "old" ]});
     ("kasir-pos-v2", ∅)] (getRequest "/app.js")
  = Some (page200 "old")
  ∧ ServiceWorker.cachesMatch
      (ServiceWorker.onActivate
         [("kasir-pos-v1", {[ "/app.js" := page200 "old" ]});
          ("kasir-pos-v2", ∅)]) (getRequest "/app.js")
    = None.
Proof.
  split; [reflexivity|].
  destruct (sw_activate_drops_old_caches
              [("kasir-pos-v1", {[ "/app.js" := page200 "old" ]});
               ("kasir-pos-v2", ∅)] (getRequest "/app.js"))
    as (_ & _ & Hm & _).
  - simpl. repeat constructor.
    + intros Hin. apply list_elem_of_singleton in Hin. discriminate Hin.
    + intros Hin. apply elem_of_nil in Hin. exact Hin.
  - rewrite Hm. reflexivity.
Defined.

(** X23.  Installation makes the application available offline, or stores
    nothing.  When the [install] listener is fulfilled, every asset of
    [ASSETS_TO_CACHE] is from then on answered by the [fetch] listener
    whatever the network does, the caches staying as they are; when it is
    not, some asset was not fetched with an [ok] status, and no response was
    stored: the caches are those before, with the cache of the application
    opened. *)
Theorem sw_install_makes_assets_offline
    (network : ServiceWorker.Network)
    (caches caches' : ServiceWorker.CacheStorage) (installed : bool) :
  ServiceWorker.onInstall network caches = (caches', installed) →
  if installed
  then ∀ u network',
         In u ServiceWorker.ASSETS_TO_CACHE →
         ∃ response,
           ServiceWorker.onFetch network' (getRequest u) caches'
           = (caches', ServiceWorker.RespondWith response)
  else caches' = ServiceWorker.openCache ServiceWorker.CACHE_NAME caches
       ∧ ∃ u, In u ServiceWorker.ASSETS_TO_CACHE
              ∧ match network (getRequest u) with
                | Some response => ServiceWorker.isOk response = false
                | None => True
                end.
Proof.
  unfold ServiceWorker.onInstall.
  destruct (ServiceWorker.fetchAll network ServiceWorker.ASSETS_TO_CACHE)
    as [responses|] eqn:Ef; intros H; inversion H; subst; clear H.
  - intros u network' Hin.
    pose proof (fetchAll_urls _ _ _ Ef) as Hu.
    destruct (putAll_cached ServiceWorker.CACHE_NAME responses
                (ServiceWorker.openCache ServiceWorker.CACHE_NAME caches) u)
      as [response Hr].
    { left. rewrite Hu. exact Hin. }
    exists response. unfold ServiceWorker.onFetch, getRequest.
    cbn [ServiceWorker.method String.eqb Ascii.eqb Bool.eqb negb].
    unfold getRequest in Hr. rewrite Hr. reflexivity.
  - split; [reflexivity|]. apply fetchAll_None, Ef.
Qed.

Lemma sw_install_makes_assets_offline_witness :
  ∃ response,
    ServiceWorker.onFetch offline (getRequest "/app.js")
      (fst (ServiceWorker.onInstall (answering (page200 "asset")) []))
    = (fst (ServiceWorker.onInstall (answering (page200 "asset")) []),
       ServiceWorker.RespondWith response).
Proof.
  apply (sw_install_makes_assets_offline (answering (page200 "asset")) []
           (fst (ServiceWorker.onInstall (answering (page200 "asset")) []))
           true).
  - vm_compute. reflexivity.
  - vm_compute. tauto.
Defined.
